(** * File-Browser: path confinement, listing, sorting and breadcrumbs

    A shallow embedding of [main.go] (package [main]) and of the parts of the
    Go standard library it calls ([strings], [path/filepath] on a Unix
    target, [net/url], [sort], [os]), followed by the properties of the
    path-confinement and listing engine, of the start-up in [main] and of
    the template function [human].

    Conventions of the embedding:
    - a Go [string] is a [string] of bytes; [strings.ToLower] is the
      library's on strings of ASCII bytes, and the theorems that depend on
      lower case say so;
    - [int64] sizes and [time.Time] instants are integers ([Z]);
    - the file system, the working directory and the HTTP response writer are
      explicit: handlers take the state of the file system and the package
      variable [rootDir] as arguments and return the response they write;
    - [main] takes what it finds when it starts (the environment, the
      outcome of [os.MkdirAll] and of parsing the templates, the file
      system) and returns the server it starts or the fatal message;
    - the [float64] arithmetic of [human] is exact on its inputs (divisions
      by [1024]), so its numbers are rationals ([Q]). *)

From Stdlib Require Import String Ascii List Bool Arith ZArith Lia.
From Stdlib Require Import Permutation Sorted QArith DecimalString.
From Stdlib Require OrderedTypeEx.
Import ListNotations.

Local Open Scope list_scope.
Local Open Scope string_scope.
Local Open Scope nat_scope.

(* ===================================================================== *)
(** * Package [strings] *)
(* ===================================================================== *)

Module strings.

(** The test [strings.ToLower] and [strings.TrimSpace] begin with: no byte
    of [s] is [utf8.RuneSelf] or above. *)
Definition isASCII (s : string) : bool :=
  forallb (fun c => nat_of_ascii c <? 128) (list_ascii_of_string s).

(** One byte of [strings.ToLower]: ['A'..'Z'] is moved to ['a'..'z']. *)
Definition lowerByte (c : ascii) : ascii :=
  let n := nat_of_ascii c in
  if (65 <=? n) && (n <=? 90) then ascii_of_nat (n + 32) else c.

(** [strings.ToLower(s)] as the library computes it on a string for which
    [isASCII] holds.  On any other string the library maps every rune
    through the case tables of package [unicode]; the tables are not part
    of this development, so what depends on the lower case of a name or of
    a parameter is stated for strings of ASCII bytes. *)
Fixpoint ToLower (s : string) : string :=
  match s with
  | EmptyString => EmptyString
  | String c t => String (lowerByte c) (ToLower t)
  end.

(** [strings.HasPrefix(s, prefix)]. *)
Fixpoint HasPrefix (s pre : string) {struct pre} : bool :=
  match pre with
  | EmptyString => true
  | String p pre' =>
      match s with
      | EmptyString => false
      | String c s' => Ascii.eqb c p && HasPrefix s' pre'
      end
  end.

(** [s[n:]], the whole of [s] consumed when [n] exceeds its length. *)
Fixpoint drop (n : nat) (s : string) : string :=
  match n, s with
  | S k, String _ t => drop k t
  | _, _ => s
  end.

(** [strings.TrimPrefix(s, prefix)]: one occurrence is removed. *)
Definition TrimPrefix (s pre : string) : string :=
  if HasPrefix s pre then drop (String.length pre) s else s.

(** [strings.Contains(s, substr)]. *)
Fixpoint Contains (s substr : string) : bool :=
  HasPrefix s substr ||
  match s with
  | EmptyString => false
  | String _ t => Contains t substr
  end.

(** White space in the ASCII range ([asciiSpace]): tab, newline, vertical
    tab, form feed, carriage return and space. *)
Definition isSpace (c : ascii) : bool :=
  let n := nat_of_ascii c in
  ((9 <=? n) && (n <=? 13)) || (n =? 32).

Definition byteIs (c : ascii) (n : nat) : bool := nat_of_ascii c =? n.

(** [unicode.IsSpace] on the rune the two bytes [c b] encode: U+0085 and
    U+00A0. *)
Definition isSpace2 (c b : ascii) : bool :=
  byteIs c 194 && (byteIs b 133 || byteIs b 160).

(** [unicode.IsSpace] on the rune the three bytes [c b d] encode: U+1680,
    U+2000 to U+200A, U+2028, U+2029, U+202F, U+205F and U+3000. *)
Definition isSpace3 (c b d : ascii) : bool :=
  (byteIs c 225 && byteIs b 154 && byteIs d 128)
  || (byteIs c 226 && byteIs b 128
      && (let n := nat_of_ascii d in
          ((128 <=? n) && (n <=? 138)) || (n =? 168) || (n =? 169)
          || (n =? 175)))
  || (byteIs c 226 && byteIs b 129 && byteIs d 159)
  || (byteIs c 227 && byteIs b 128 && byteIs d 128).

(** The width of the white-space rune [s] begins with; [0] when the rune
    at its head, or the byte there that begins no rune, is not white
    space. *)
Definition spaceWidth (s : string) : nat :=
  match s with
  | EmptyString => 0
  | String c EmptyString => if isSpace c then 1 else 0
  | String c (String b EmptyString) =>
      if isSpace c then 1 else if isSpace2 c b then 2 else 0
  | String c (String b (String d _)) =>
      if isSpace c then 1
      else if isSpace2 c b then 2
      else if isSpace3 c b d then 3
      else 0
  end.

(** The same at the end of a string, on its bytes taken from the last
    ([utf8.DecodeLastRuneInString]). *)
Definition spaceWidthLast (r : string) : nat :=
  match r with
  | EmptyString => 0
  | String d EmptyString => if isSpace d then 1 else 0
  | String d (String b EmptyString) =>
      if isSpace d then 1 else if isSpace2 b d then 2 else 0
  | String d (String b (String c _)) =>
      if isSpace d then 1
      else if isSpace2 b d then 2
      else if isSpace3 c b d then 3
      else 0
  end.

(** The runes at the head of [s] are dropped as long as [width] finds
    white space; [skip] counts the bytes still to drop of a rune found to
    be white space. *)
Fixpoint trimFrom (width : string -> nat) (skip : nat) (s : string)
  : string :=
  match s with
  | EmptyString => EmptyString
  | String _ t =>
      match skip with
      | S k => trimFrom width k t
      | O =>
          match width s with
          | O => s
          | S w => trimFrom width w t
          end
      end
  end.

Definition reverse (s : string) : string :=
  string_of_list_ascii (rev (list_ascii_of_string s)).

(** [strings.TrimLeftFunc(s, unicode.IsSpace)]. *)
Definition trimLeft (s : string) : string := trimFrom spaceWidth 0 s.

(** [strings.TrimRightFunc(s, unicode.IsSpace)]. *)
Definition trimRight (s : string) : string :=
  reverse (trimFrom spaceWidthLast 0 (reverse s)).

(** [strings.TrimSpace(s)]: the white space of Unicode is taken from both
    ends; the loops of the library over the ASCII bytes do the same as
    [TrimFunc] does on them. *)
Definition TrimSpace (s : string) : string := trimRight (trimLeft s).

(** [strings.Split(s, sep)] for a one-byte separator, the only use the
    program makes of it.  The result is never empty: [Split "" sep] is
    [[""]]. *)
Fixpoint Split (s : string) (sep : ascii) : list string :=
  match s with
  | EmptyString => [EmptyString]
  | String c t =>
      if Ascii.eqb c sep then EmptyString :: Split t sep
      else match Split t sep with
           | [] => [String c EmptyString]
           | h :: r => String c h :: r
           end
  end.

(** [strings.Join(elems, sep)]. *)
Definition Join (elems : list string) (sep : string) : string :=
  String.concat sep elems.

End strings.

(* ===================================================================== *)
(** * Package [path/filepath] (Unix) *)
(* ===================================================================== *)

Module filepath.

Definition Separator : ascii := "/"%char.

(** [os.IsPathSeparator]. *)
Definition IsPathSeparator (c : ascii) : bool := Ascii.eqb c Separator.

(** The output buffer of [Clean] ([lazybuf]): the bytes written so far,
    the last one first; the write index [w] is its length. *)
Definition lazybuf := list ascii.

Definition lb_string (out : lazybuf) : string :=
  string_of_list_ascii (rev out).

(** The [..] case of [Clean] when it can backtrack:
    [out.w--; for out.w > dotdot && !IsPathSeparator(out.index(out.w)) { out.w-- }]. *)
Fixpoint backtrack (dotdot : nat) (out : lazybuf) : lazybuf :=
  match out with
  | [] => []
  | c :: out' =>
      if (dotdot <? List.length out') && negb (IsPathSeparator c)
      then backtrack dotdot out'
      else out'
  end.

(** [r+1 == n || os.IsPathSeparator(path[r+1])], on the text after [r]. *)
Definition elemEnds (rest : string) : bool :=
  match rest with
  | EmptyString => true
  | String c _ => IsPathSeparator c
  end.

(** The main loop of [Clean] over [path[r:]].  [inElem] is set while the
    inner loop of the default case copies a path element. *)
Fixpoint cleanLoop (rooted : bool) (rest : string) (inElem : bool)
         (out : lazybuf) (dotdot : nat) {struct rest} : lazybuf :=
  match rest with
  | EmptyString => out
  | String c t =>
      if inElem then
        if IsPathSeparator c then cleanLoop rooted t false out dotdot
        else cleanLoop rooted t true (c :: out) dotdot
      else if IsPathSeparator c then
        (* empty path element *)
        cleanLoop rooted t false out dotdot
      else if Ascii.eqb c "." && elemEnds t then
        (* . element *)
        cleanLoop rooted t false out dotdot
      else
        let real :=
          (* real path element: add slash if needed, copy element *)
          let out1 :=
            if (rooted && negb (List.length out =? 1))
               || (negb rooted && negb (List.length out =? 0))
            then Separator :: out else out in
          cleanLoop rooted t true (c :: out1) dotdot in
        match t with
        | String c1 t' =>
            if Ascii.eqb c "." && Ascii.eqb c1 "." && elemEnds t' then
              (* .. element: remove to last separator *)
              if dotdot <? List.length out then
                cleanLoop rooted t' false (backtrack dotdot out) dotdot
              else if negb rooted then
                let out1 :=
                  if 0 <? List.length out then Separator :: out else out in
                let out2 := "."%char :: "."%char :: out1 in
                cleanLoop rooted t' false out2 (List.length out2)
              else cleanLoop rooted t' false out dotdot
            else real
        | EmptyString => real
        end
  end.

(** [filepath.Clean(path)]. *)
Definition Clean (path : string) : string :=
  match path with
  | EmptyString => "."
  | String c t =>
      let rooted := IsPathSeparator c in
      let out :=
        if rooted then cleanLoop true t false [Separator] 1
        else cleanLoop false path false [] 0 in
      (* Turn empty string into "." *)
      lb_string (if List.length out =? 0 then ["."%char] else out)
  end.

(** [filepath.IsAbs(path)]. *)
Definition IsAbs (path : string) : bool := strings.HasPrefix path "/".

(** [filepath.Join(elem...)]: the elements from the first non-empty one on
    are joined with the separator and cleaned. *)
Fixpoint Join (elem : list string) : string :=
  match elem with
  | [] => EmptyString
  | e :: rest =>
      if String.eqb e EmptyString then Join rest
      else Clean (strings.Join elem "/")
  end.

(** [filepath.Abs(path)]; [wd] is the result of [os.Getwd()], [None] when
    it fails. *)
Definition Abs (wd : option string) (path : string) : option string :=
  if IsAbs path then Some (Clean path)
  else match wd with
       | Some d => Some (Join [d; path])
       | None => None
       end.

(** [filepath.ToSlash(path)]: the separator is already the slash. *)
Definition ToSlash (path : string) : string := path.

Fixpoint stripTrailingSlashes (path : string) : string :=
  match path with
  | EmptyString => EmptyString
  | String c t =>
      match stripTrailingSlashes t with
      | EmptyString =>
          if IsPathSeparator c then EmptyString else String c EmptyString
      | t' => String c t'
      end
  end.

(** The text after the last separator of [path], [path] itself when it has
    none. *)
Fixpoint lastElem (path : string) : string :=
  match path with
  | EmptyString => EmptyString
  | String c t =>
      if existsb IsPathSeparator (list_ascii_of_string t) then lastElem t
      else if IsPathSeparator c then t
      else path
  end.

(** [filepath.Base(path)]. *)
Definition Base (path : string) : string :=
  match path with
  | EmptyString => "."
  | _ =>
      match lastElem (stripTrailingSlashes path) with
      | EmptyString => "/"
      | b => b
      end
  end.

End filepath.

(* ===================================================================== *)
(** * Package [net/url] *)
(* ===================================================================== *)

Module url.

(** [url.Values] is [map[string][]string]; the bindings are kept in the
    order of their keys, the order in which [Encode] visits them. *)
Definition Values := list (string * list string).

(** [Values.Get(key)]: the first value of [key], the empty string when
    there is none. *)
Fixpoint Get (v : Values) (key : string) : string :=
  match v with
  | [] => EmptyString
  | (k, vs) :: rest =>
      if String.eqb k key then hd EmptyString vs else Get rest key
  end.

Definition upperhex : list ascii := list_ascii_of_string "0123456789ABCDEF".

Definition hexDigit (n : nat) : ascii := nth n upperhex "0"%char.

(** [shouldEscape(c, encodeQueryComponent)]: letters, digits and the marks
    [-], [_], [.], [~] are kept, every other byte is escaped. *)
Definition shouldEscape (c : ascii) : bool :=
  let n := nat_of_ascii c in
  negb (((97 <=? n) && (n <=? 122)) || ((65 <=? n) && (n <=? 90))
        || ((48 <=? n) && (n <=? 57))
        || existsb (Ascii.eqb c) (list_ascii_of_string "-_.~")).

(** What [escape] writes for one byte in the mode [encodeQueryComponent]. *)
Definition escapeByte (c : ascii) : string :=
  if Ascii.eqb c " " then "+"
  else if shouldEscape c then
    let n := nat_of_ascii c in
    String "%" (String (hexDigit (n / 16))
                       (String (hexDigit (n mod 16)) EmptyString))
  else String c EmptyString.

(** [url.QueryEscape(s)]. *)
Fixpoint QueryEscape (s : string) : string :=
  match s with
  | EmptyString => EmptyString
  | String c t => escapeByte c ++ QueryEscape t
  end.

(** [unhex(c)], [None] when [c] is no hexadecimal digit ([ishex]). *)
Definition unhex (c : ascii) : option nat :=
  let n := nat_of_ascii c in
  if (48 <=? n) && (n <=? 57) then Some (n - 48)
  else if (97 <=? n) && (n <=? 102) then Some (n - 97 + 10)
  else if (65 <=? n) && (n <=? 70) then Some (n - 65 + 10)
  else None.

(** [url.QueryUnescape(s)]; [None] is the [EscapeError]. *)
Fixpoint QueryUnescape (s : string) : option string :=
  match s with
  | EmptyString => Some EmptyString
  | String c t =>
      if Ascii.eqb c "%" then
        match t with
        | String h1 (String h2 t') =>
            match unhex h1, unhex h2, QueryUnescape t' with
            | Some a, Some b, Some r =>
                Some (String (ascii_of_nat (a * 16 + b)) r)
            | _, _, _ => None
            end
        | _ => None
        end
      else
        match QueryUnescape t with
        | Some r => Some (String (if Ascii.eqb c "+" then " "%char else c) r)
        | None => None
        end
  end.

(** [strings.Cut(s, sep)] for a one-byte separator: the text before the
    first separator, the text after it, and whether there is one. *)
Fixpoint Cut (s : string) (sep : ascii) : string * string * bool :=
  match s with
  | EmptyString => (EmptyString, EmptyString, false)
  | String c t =>
      if Ascii.eqb c sep then (EmptyString, t, true)
      else let '(before, after, found) := Cut t sep in
           (String c before, after, found)
  end.

(** [m[key] = append(m[key], value)]; a new key goes to the end. *)
Fixpoint add (v : Values) (key value : string) : Values :=
  match v with
  | [] => [(key, [value])]
  | (k, vs) :: rest =>
      if String.eqb k key then (k, (vs ++ [value])%list) :: rest
      else (k, vs) :: add rest key value
  end.

(** One round of the loop of [parseQuery], on the text [key] before the
    next [&]; a pair that is not well formed is passed over. *)
Definition parsePair (m : Values) (key : string) : Values :=
  if strings.Contains key ";" then m
  else if String.eqb key "" then m
  else
    let '(key, value, _) := Cut key "=" in
    match QueryUnescape key with
    | None => m
    | Some key =>
        match QueryUnescape value with
        | None => m
        | Some value => add m key value
        end
    end.

(** [ParseQuery(query)] without its error, as [URL.Query()] uses it. *)
Definition ParseQuery (query : string) : Values :=
  match query with
  | EmptyString => []
  | _ => fold_left parsePair (strings.Split query "&") []
  end.

(** [URL.Query()] of the request for [uri]: the parsed text after the
    question mark. *)
Definition Query (uri : string) : Values :=
  let '(_, rawQuery, _) := Cut uri "?" in ParseQuery rawQuery.

Definition encodeKey (k : string) (vs : list string) : list string :=
  map (fun v => QueryEscape k ++ "=" ++ QueryEscape v) vs.

(** [Values.Encode()]: [key=value] pairs joined by [&]. *)
Definition Encode (v : Values) : string :=
  String.concat "&" (flat_map (fun kv => encodeKey (fst kv) (snd kv)) v).

End url.

(* ===================================================================== *)
(** * Package [sort] *)
(* ===================================================================== *)

Module sort.

Section Slice.
Context {A : Type}.

(** The comparison handed to [sort.Slice] reads two elements of the
    slice being sorted: [Less(i, j)] is [less data[i] data[j]]. *)
Variable less : A -> A -> bool.

(** [data.Swap(k, k+1)]. *)
Fixpoint swapAt (k : nat) (data : list A) {struct data} : list A :=
  match data with
  | a :: (b :: t) as rest =>
      match k with
      | 0 => b :: a :: t
      | S k' => a :: swapAt k' rest
      end
  | _ => data
  end.

(** [data.Swap(j, j-1)]. *)
Definition swapPrev (j : nat) (data : list A) : list A :=
  match j with
  | 0 => data
  | S k => swapAt k data
  end.

(** [for j := i; j > a && data.Less(j, j-1); j-- { data.Swap(j, j-1) }]
    with [a = 0]. *)
Fixpoint insertionStep (j : nat) (data : list A) : list A :=
  match j with
  | 0 => data
  | S j' =>
      match nth_error data j, nth_error data j' with
      | Some x, Some y =>
          if less x y then insertionStep j' (swapPrev j data) else data
      | _, _ => data
      end
  end.

(** [insertionSort(data, 0, len(data))]:
    [for i := a + 1; i < b; i++ { ... }]. *)
Definition insertionSort (data : list A) : list A :=
  fold_left (fun d i => insertionStep i d)
            (seq 1 (List.length data - 1)) data.

(** [sort.Slice(x, less)].  On a slice of at most twelve elements the
    library's pattern-defeating quicksort is this insertion sort and
    nothing else; the model runs it on every length.  On longer slices
    the library orders the elements by other exchanges, so only the
    properties that hold of any rearrangement of the input carry over. *)
Definition Slice (data : list A) : list A := insertionSort data.

End Slice.

End sort.

(* ===================================================================== *)
(** * Package [os]: the file system as the program sees it *)
(* ===================================================================== *)

Module os.

Definition PathSeparator : ascii := "/"%char.

Inductive Errno := ENOENT | ENOTDIR | EACCES | EIO.

Definition errnoText (e : Errno) : string :=
  match e with
  | ENOENT => "no such file or directory"
  | ENOTDIR => "not a directory"
  | EACCES => "permission denied"
  | EIO => "input/output error"
  end.

(** [*fs.PathError]. *)
Module PathError.
Record t := mk { Op : string; Path : string; Err : Errno }.
End PathError.

(** [err.Error()]. *)
Definition Error (e : PathError.t) : string :=
  PathError.Op e ++ " " ++ PathError.Path e ++ ": "
    ++ errnoText (PathError.Err e).

(** A Go result pair [(value, err)]. *)
Inductive result (A : Type) : Type :=
| ok : A -> result A
| err : PathError.t -> result A.
Arguments ok {A} _.
Arguments err {A} _.

(** [fs.FileInfo]. *)
Module FileInfo.
Record t := mk { Size : Z; ModTime : Z; IsDir : bool }.
End FileInfo.

(** [fs.DirEntry]; [Info] may fail on its own, for instance when the entry
    has gone since the directory was read. *)
Module DirEntry.
Record t := mk { Name : string; IsDir : bool; Info : result FileInfo.t }.
End DirEntry.

(** The state of the file system during one request. *)
Record FS := mkFS {
  ReadDir : string -> result (list DirEntry.t);
  Stat : string -> result FileInfo.t;
  Getwd : option string
}.

(** The names [ReadDir] can report: not empty, not [.] or [..], and with
    no separator in them. *)
Definition validName (n : string) : bool :=
  negb (String.eqb n "") && negb (String.eqb n ".") && negb (String.eqb n "..")
  && negb (existsb filepath.IsPathSeparator (list_ascii_of_string n)).

(** Every name [ReadDir] reports is such a name. *)
Definition NamesValid (fs : FS) : Prop :=
  forall name entries,
    ReadDir fs name = ok entries ->
    Forall (fun e => validName (DirEntry.Name e) = true) entries.

End os.

(* ===================================================================== *)
(** * Package [net/http]: what a handler writes *)
(* ===================================================================== *)

Module http.

Definition StatusSeeOther : nat := 303.
Definition StatusBadRequest : nat := 400.
Definition StatusNotFound : nat := 404.
Definition StatusInternalServerError : nat := 500.

(** The response of a handler: [Error] and [Redirect] carry the arguments
    of [http.Error(w, error, code)] and [http.Redirect(w, r, url, code)];
    [ExecuteTemplate] hands the page data to the template; [ServeFile]
    streams the file at [name] with the header
    [Content-Disposition: attachment; filename=<attachment>]; [Panic] is a
    run-time panic of the handler. *)
Inductive Response (D : Type) : Type :=
| Error (error : string) (code : nat)
| Redirect (location : string) (code : nat)
| ExecuteTemplate (template : string) (data : D)
| ServeFile (attachment : string) (name : string)
| Panic.
Arguments Error {D} _ _.
Arguments Redirect {D} _ _.
Arguments ExecuteTemplate {D} _ _.
Arguments ServeFile {D} _ _.
Arguments Panic {D}.

(** [http.NotFound(w, r)]. *)
Definition NotFound {D : Type} : Response D :=
  Error "404 page not found" StatusNotFound.

(** The status line of a response, when it has one of its own. *)
Definition status {D : Type} (r : Response D) : option nat :=
  match r with
  | Error _ code => Some code
  | Redirect _ code => Some code
  | ExecuteTemplate _ _ => Some 200
  | ServeFile _ _ => Some 200
  | Panic => None
  end.

End http.

(* ===================================================================== *)
(** * Package [main] *)
(* ===================================================================== *)

Module fileRow.
Record t := mk {
  Name : string;
  RelPath : string;
  IsDir : bool;
  SizeBytes : Z;
  ModTime : Z
}.
End fileRow.

Module crumb.
Record t := mk { Name : string; URL : string }.
End crumb.

Module pageData.
Record t := mk {
  Rows : list fileRow.t;
  Path : string; (* current relative path inside ROOT_DIR *)
  Q : string;
  Sort : string;
  Order : string;
  Breadcrumbs : list crumb.t
}.
End pageData.

Definition Response := http.Response pageData.t.

(** [pick(v, opts...)]; [None] is the run-time panic of [opts[0]] on an
    empty [opts]. *)
Definition pick (v : string) (opts : list string) : option string :=
  let v := strings.ToLower v in
  if existsb (String.eqb v) opts then Some v
  else nth_error opts 0.

(** [isWithin(p, root)]; [wd] is what [os.Getwd] answers. *)
Definition isWithin (wd : option string) (p root : string) : bool :=
  match filepath.Abs wd p with
  | None => false
  | Some pAbs =>
      match filepath.Abs wd root with
      | None => false
      | Some rootAbs =>
          let pAbs := filepath.Clean pAbs in
          let rootAbs := filepath.Clean rootAbs in
          let sep := String os.PathSeparator EmptyString in
          strings.HasPrefix (pAbs ++ sep) (rootAbs ++ sep)
          || String.eqb pAbs rootAbs
      end
  end.

(** The URL of the listing of [rel]: ["/?" + url.Values{"path": {rel}}.Encode()]. *)
Definition listingURL (rel : string) : string :=
  "/?" ++ url.Encode [("path", [rel])].

(** One round of the loop of [crumbsFor] over [parts]; the state is
    [(acc, out)]. *)
Definition crumbStep (st : string * list crumb.t) (p : string)
  : string * list crumb.t :=
  let '(acc, out) := st in
  if String.eqb p "." || String.eqb p "" then (acc, out)
  else
    let acc := if String.eqb acc "" then p else acc ++ "/" ++ p in
    (acc, (out ++ [crumb.mk p (listingURL acc)])%list).

(** [crumbsFor(rel)]. *)
Definition crumbsFor (rel : string) : list crumb.t :=
  if String.eqb rel "" then []
  else
    let parts := strings.Split (filepath.ToSlash rel) "/" in
    snd (fold_left crumbStep parts (EmptyString, [])).

(** The comparison [listHandler] passes to [sort.Slice], on the two rows
    [rows[i]] and [rows[j]]. *)
Definition rowLess (sortBy order : string) (ri rj : fileRow.t) : bool :=
  let less :=
    if String.eqb sortBy "size" then
      if negb (Bool.eqb (fileRow.IsDir ri) (fileRow.IsDir rj))
      then fileRow.IsDir ri && negb (fileRow.IsDir rj)
      else (fileRow.SizeBytes ri <? fileRow.SizeBytes rj)%Z
    else if String.eqb sortBy "mod" then
      (fileRow.ModTime ri <? fileRow.ModTime rj)%Z
    else (* name *)
      if negb (Bool.eqb (fileRow.IsDir ri) (fileRow.IsDir rj))
      then fileRow.IsDir ri && negb (fileRow.IsDir rj)
      else String.ltb (strings.ToLower (fileRow.Name ri))
                      (strings.ToLower (fileRow.Name rj)) in
  if String.eqb order "desc" then negb less else less.

(** The row [listHandler] builds for the entry [e] with metadata [info]. *)
Definition rowOf (rel : string) (e : os.DirEntry.t) (info : os.FileInfo.t)
  : fileRow.t :=
  fileRow.mk (os.DirEntry.Name e)
             (filepath.ToSlash (filepath.Join [rel; os.DirEntry.Name e]))
             (os.DirEntry.IsDir e)
             (os.FileInfo.Size info)
             (os.FileInfo.ModTime info).

(** The filter of [listHandler]:
    [q == "" || strings.Contains(strings.ToLower(row.Name), strings.ToLower(q))]. *)
Definition keeps (q name : string) : bool :=
  String.eqb q ""
  || strings.Contains (strings.ToLower name) (strings.ToLower q).

(** One round of the loop of [listHandler] over the directory entries. *)
Definition rowStep (rel q : string) (rows : list fileRow.t)
           (e : os.DirEntry.t) : list fileRow.t :=
  match os.DirEntry.Info e with
  | os.err _ => rows (* continue *)
  | os.ok info =>
      let row := rowOf rel e info in
      if keeps q (fileRow.Name row) then (rows ++ [row])%list else rows
  end.

(** The relative path both handlers compute from the [path] parameter. *)
Definition cleanRel (path : string) : string :=
  filepath.Clean (strings.TrimPrefix path "/").

(** [listHandler(w, r)]: [query] is [r.URL.Query()]. *)
Definition listHandler (fs : os.FS) (rootDir : string) (query : url.Values)
  : Response :=
  let q := strings.TrimSpace (url.Get query "q") in
  match pick (url.Get query "sort") ["name"; "size"; "mod"] with
  | None => http.Panic
  | Some sortBy =>
  match pick (url.Get query "order") ["asc"; "desc"] with
  | None => http.Panic
  | Some order =>
      let rel := cleanRel (url.Get query "path") in
      let rel := if String.eqb rel "." then EmptyString else rel in
      let abs := filepath.Join [rootDir; rel] in
      if negb (isWithin (os.Getwd fs) abs rootDir) then
        http.Error "invalid path" http.StatusBadRequest
      else
        match os.ReadDir fs abs with
        | os.err e => http.Error (os.Error e) http.StatusInternalServerError
        | os.ok entries =>
            let rows := fold_left (rowStep rel q) entries [] in
            (* sort (folders first for name/size) *)
            let rows := sort.Slice (rowLess sortBy order) rows in
            http.ExecuteTemplate "index.html"
              (pageData.mk rows rel q sortBy order (crumbsFor rel))
        end
  end end.

(** [downloadHandler(w, r)]. *)
Definition downloadHandler (fs : os.FS) (rootDir : string)
           (query : url.Values) : Response :=
  let rel := cleanRel (url.Get query "path") in
  let abs := filepath.Join [rootDir; rel] in
  if negb (isWithin (os.Getwd fs) abs rootDir) then
    http.Error "invalid path" http.StatusBadRequest
  else
    match os.Stat fs abs with
    | os.err _ => http.NotFound
    | os.ok info =>
        if os.FileInfo.IsDir info then
          http.Redirect (listingURL rel) http.StatusSeeOther
        else http.ServeFile (filepath.Base abs) abs
    end.

(** The candidate absolute path [listHandler] forms from the [path]
    parameter, before the containment test. *)
Definition candidate (rootDir path : string) : string :=
  let rel := cleanRel path in
  let rel := if String.eqb rel "." then EmptyString else rel in
  filepath.Join [rootDir; rel].

(** The path resolution of [listHandler]: the absolute path handed to the
    file system, or [None] for the ["invalid path"] answer. *)
Definition resolve (wd : option string) (rootDir path : string)
  : option string :=
  let abs := candidate rootDir path in
  if negb (isWithin wd abs rootDir) then None else Some abs.

(* ===================================================================== *)
(** * Specification-level definitions *)
(* ===================================================================== *)

(** The path [p] lies within [root]: the absolute forms of both exist, and
    the clean form of the one is that of the other or begins with it and
    the separator. *)
Definition Confined (wd : option string) (root p : string) : Prop :=
  exists pAbs rootAbs,
    filepath.Abs wd p = Some pAbs
    /\ filepath.Abs wd root = Some rootAbs
    /\ (filepath.Clean pAbs = filepath.Clean rootAbs
        \/ strings.HasPrefix
             (filepath.Clean pAbs)
             (filepath.Clean rootAbs ++ String os.PathSeparator "") = true).

(** The rows a listing of [entries] is to show: one row for every entry
    whose [Info] succeeds and whose name passes the filter, in the order of
    the entries, and none for the others. *)
Definition listedRows (rel q : string) (entries : list os.DirEntry.t)
  : list fileRow.t :=
  flat_map
    (fun e =>
       match os.DirEntry.Info e with
       | os.ok info =>
           if keeps q (os.DirEntry.Name e) then [rowOf rel e info] else []
       | os.err _ => []
       end)
    entries.

(** [Clean], element by element.  The state is the number of leading [..]
    elements kept and the real elements kept, the last one first; [rooted]
    paths keep no [..]. *)
Definition elemStep (rooted : bool) (st : nat * list string) (e : string)
  : nat * list string :=
  let '(dd, stack) := st in
  if String.eqb e "" || String.eqb e "." then st
  else if String.eqb e ".." then
    match stack with
    | _ :: stack' => (dd, stack')
    | [] => if rooted then st else (S dd, [])
    end
  else (dd, e :: stack).

Definition elemsOf (st : nat * list string) : list string :=
  (repeat ".." (fst st) ++ rev (snd st))%list.

Definition renderElems (rooted : bool) (st : nat * list string) : string :=
  let body := strings.Join (elemsOf st) "/" in
  if rooted then "/" ++ body
  else if String.eqb body "" then "." else body.

(** What the documentation of [Clean] describes: split the path at the
    separators, drop the empty and [.] elements, let every [..] take the
    element before it away (at the root it has nothing to take, in a
    relative path it stays when nothing is before it), and join what
    remains. *)
Definition cleanElems (path : string) : string :=
  let rooted := filepath.IsAbs path in
  renderElems rooted
    (fold_left (elemStep rooted) (strings.Split path "/") (0, [])).

(** A string with no separator in it. *)
Definition noSep (s : string) : bool :=
  negb (existsb filepath.IsPathSeparator (list_ascii_of_string s)).

(** The text in the buffer of [Clean] for a state of [elemStep]. *)
Definition bufText (rooted : bool) (st : nat * list string) : string :=
  (if rooted then "/" else "") ++ strings.Join (elemsOf st) "/".

(** The state of the loop of [Clean], [out] and [dotdot], stands for the
    state [st] of [elemStep]. *)
Definition CleanInv (rooted : bool) (st : nat * list string)
           (out : filepath.lazybuf) (dotdot : nat) : Prop :=
  out = rev (list_ascii_of_string (bufText rooted st))
  /\ dotdot = String.length (bufText rooted (fst st, []))
  /\ Forall (fun e => os.validName e = true) (snd st)
  /\ (rooted = true -> fst st = 0).

(** The separator a new element needs in front of it in the buffer that
    holds the elements [l]. *)
Definition sepFor (l : list string) : string :=
  match l with [] => "" | _ => "/" end.

(** The states [elemStep] reaches: the kept elements are real ones, and a
    rooted path keeps no [..]. *)
Definition WfState (rooted : bool) (st : nat * list string) : Prop :=
  Forall (fun e => os.validName e = true) (snd st)
  /\ (rooted = true -> fst st = 0).






(** The string [s] has no byte [x]. *)
Definition lacks (x : ascii) (s : string) : bool :=
  negb (existsb (Ascii.eqb x) (list_ascii_of_string s)).

(** The segments [crumbsFor] makes a breadcrumb of: not empty, not [.],
    and with no separator in them. *)
Definition crumbSeg (s : string) : bool :=
  negb (String.eqb s "") && negb (String.eqb s ".") && noSep s.

(** The breadcrumbs of the segments [segs] that come after the segments
    [pre]: each has its segment as the name and links to the listing of
    the path up to that segment. *)
Fixpoint crumbsOf (pre segs : list string) : list crumb.t :=
  match segs with
  | [] => []
  | s :: rest =>
      crumb.mk s (listingURL (strings.Join (pre ++ [s]) "/"))
      :: crumbsOf (pre ++ [s]) rest
  end.

(** The effective sort key and order for the raw parameters. *)
Definition sortKeyOf (v : string) : string :=
  let v := strings.ToLower v in
  if String.eqb v "size" then "size"
  else if String.eqb v "mod" then "mod" else "name".

Definition sortOrderOf (v : string) : string :=
  if String.eqb (strings.ToLower v) "desc" then "desc" else "asc".

(* ===================================================================== *)
(** * A file system for the examples *)
(* ===================================================================== *)

Module demo.

Definition file (name : string) (size mtime : Z) : os.DirEntry.t :=
  os.DirEntry.mk name false (os.ok (os.FileInfo.mk size mtime false)).

Definition dir (name : string) (size mtime : Z) : os.DirEntry.t :=
  os.DirEntry.mk name true (os.ok (os.FileInfo.mk size mtime true)).

(** An entry that has gone between [ReadDir] and [Info]. *)
Definition gone (name : string) : os.DirEntry.t :=
  os.DirEntry.mk name false
    (os.err (os.PathError.mk "lstat" name os.ENOENT)).

Definition tree : list (string * os.result (list os.DirEntry.t)) :=
  [ ("/data",
     os.ok [dir "locked" 4096 10; dir "names" 4096 20;
            dir "partial" 4096 30; dir "sizes" 4096 40]);
    ("/data/locked",
     os.err (os.PathError.mk "open" "/data/locked" os.EACCES));
    ("/data/names",
     os.ok [file "Readme.txt" 12 21; dir "docs" 4096 22;
            file "score.csv" 7 23]);
    ("/data/names/docs", os.ok []);
    ("/data/partial",
     os.ok [file "first" 1 31; gone "lost"; file "second" 2 32]);
    ("/data/sizes",
     os.ok [dir "dirA" 100 41; file "fileB" 1 42; file "fileZ" 50 43]);
    ("/data/sizes/dirA", os.ok [file "inner.txt" 5 44]) ].

Fixpoint lookup {A : Type} (l : list (string * A)) (k : string) : option A :=
  match l with
  | [] => None
  | (k', v) :: rest => if String.eqb k' k then Some v else lookup rest k
  end.

Definition readDir (name : string) : os.result (list os.DirEntry.t) :=
  match lookup tree name with
  | Some r => r
  | None =>
      match lookup [("/data/names/Readme.txt", tt);
                    ("/data/names/score.csv", tt);
                    ("/data/partial/first", tt);
                    ("/data/partial/second", tt);
                    ("/data/sizes/fileB", tt);
                    ("/data/sizes/fileZ", tt);
                    ("/data/sizes/dirA/inner.txt", tt)] name with
      | Some _ => os.err (os.PathError.mk "open" name os.ENOTDIR)
      | None => os.err (os.PathError.mk "open" name os.ENOENT)
      end
  end.

Definition stat (name : string) : os.result os.FileInfo.t :=
  match lookup tree name with
  | Some _ => os.ok (os.FileInfo.mk 4096 0 true)
  | None =>
      match readDir name with
      | os.err (os.PathError.mk _ _ os.ENOTDIR) =>
          os.ok (os.FileInfo.mk 1 0 false)
      | _ => os.err (os.PathError.mk "stat" name os.ENOENT)
      end
  end.

Definition fs : os.FS := os.mkFS readDir stat (Some "/").

Definition rootDir : string := "/data".

End demo.

(* ===================================================================== *)
(** * Package [main]: start-up and the template function [human] *)
(* ===================================================================== *)

(** [getenv(k, def)]; [env] is [os.Getenv], which answers the empty string
    for a variable that is not set. *)
Definition getenv (env : string -> string) (k def : string) : string :=
  let v := env k in
  if negb (String.eqb v "") then v else def.

(** [mustExist(path, what)]: [Some] is the message of [log.Fatalf]. *)
Definition mustExist (fs : os.FS) (path what : string) : option string :=
  match os.Stat fs path with
  | os.err e => Some (what ++ " not found at " ++ path ++ ": " ++ os.Error e)
  | os.ok _ => None
  end.

(** What [main] finds when it starts: the environment, the outcome of
    [os.MkdirAll] on the root ([Some] is its error), the outcome of parsing
    the embedded templates ([Some] is the text of its error) and the file
    system as it is after [MkdirAll]. *)
Module World.
Record t := mk {
  Getenv : string -> string;
  MkdirAll : string -> option os.PathError.t;
  ParseFS : option string;
  Files : os.FS
}.
End World.

(** How [main] goes on: [log.Fatal] with its message, or the server it
    starts, with the address it listens on and the value of the package
    variable [rootDir] its handlers read. *)
Inductive Startup : Type :=
| Fatal (msg : string)
| ListenAndServe (addr rootDir : string)
| ListenAndServeTLS (addr certFile keyFile rootDir : string).

(** [main()]. *)
Definition main (w : World.t) : Startup :=
  let env := World.Getenv w in
  let rootDir := getenv env "ROOT_DIR" "/data" in
  let addr := getenv env "HOST" "0.0.0.0" ++ ":" ++ getenv env "PORT" "8080" in
  let useTLS :=
    String.eqb (strings.ToLower (getenv env "USE_TLS" "false")) "true" in
  let certFile := getenv env "CERT_FILE" "certs/cert.pem" in
  let keyFile := getenv env "KEY_FILE" "certs/key.pem" in
  match World.MkdirAll w rootDir with
  | Some e => Fatal ("failed to ensure ROOT_DIR: " ++ os.Error e)
  | None =>
      match World.ParseFS w with
      | Some e => Fatal e
      | None =>
          if useTLS then
            match mustExist (World.Files w) certFile "certificate" with
            | Some m => Fatal m
            | None =>
                match mustExist (World.Files w) keyFile "private key" with
                | Some m => Fatal m
                | None => ListenAndServeTLS addr certFile keyFile rootDir
                end
            end
          else ListenAndServe addr rootDir
      end
  end.

(** [float64(sz)] for an integer [sz]: the nearest number with a
    significand of 53 bits, the even one of two that are as near; the
    result is an integer again. *)
Definition float64_of_int (n : Z) : Z :=
  let a := Z.abs n in
  if (a <? 2 ^ 53)%Z then n
  else
    let k := (Z.log2 a - 52)%Z in
    let q := Z.shiftr a k in
    let r := Z.land a (Z.ones k) in
    let half := (2 ^ (k - 1))%Z in
    let q' := if (half <? r)%Z || ((r =? half)%Z && Z.odd q)
              then (q + 1)%Z else q in
    (Z.sgn n * (q' * 2 ^ k))%Z.

(** The integer nearest to [x], the even one of two that are as near. *)
Definition roundHalfEven (x : Q) : Z :=
  let d := Z.pos (Qden x) in
  let q := (Qnum x / d)%Z in
  let r := (Qnum x mod d)%Z in
  if (2 * r <? d)%Z then q
  else if (d <? 2 * r)%Z then (q + 1)%Z
  else if Z.even q then q else (q + 1)%Z.

(** The decimal digits of a natural number. *)
Definition decimal (n : Z) : string :=
  NilZero.string_of_uint (N.to_uint (Z.to_N n)).

Definition twoDigits (n : Z) : string :=
  decimal (n / 10) ++ decimal (n mod 10).

(** [fmt.Sprintf("%.2f", x)]: [x] rounded to hundredths. *)
Definition formatF2 (x : Q) : string :=
  let h := Z.abs (roundHalfEven (x * 100)) in
  (if (Qnum x <? 0)%Z then "-" else "")
  ++ decimal (h / 100) ++ "." ++ twoDigits (h mod 100).

(** The units of [human]. *)
Definition units : list string := ["B"; "KB"; "MB"; "GB"; "TB"].

(** [for f >= k && i < len(u)-1 { f /= k; i++ }]; the loop runs at most
    [len(u)-1] times, the number of rounds [fuel] allows.  The divisions by
    [1024] are exact in [float64], so [f] is a rational number. *)
Fixpoint humanLoop (fuel : nat) (f : Q) (i : nat) : Q * nat :=
  match fuel with
  | O => (f, i)
  | S fuel' =>
      if Qle_bool 1024 f && (i <? List.length units - 1)
      then humanLoop fuel' (f / 1024) (S i)
      else (f, i)
  end.

(** What the source has between the quotes of the directory case, byte by
    byte. *)
Definition dirMark : string :=
  string_of_list_ascii
    (map ascii_of_nat [195; 162; 226; 130; 172; 226; 128; 157]).

(** The template function [human(sz, isDir)]; [None] is the panic of an
    index out of range in [u[i]]. *)
Definition human (sz : Z) (isDir : bool) : option string :=
  if isDir then Some dirMark
  else
    let f := inject_Z (float64_of_int sz) in
    let '(f, i) := humanLoop (List.length units - 1) f 0 in
    match nth_error units i with
    | Some u => Some (formatF2 f ++ " " ++ u)
    | None => None
    end.

(* ===================================================================== *)
(** * More specification-level definitions *)
(* ===================================================================== *)

(** The segments of a path [crumbsFor] does not pass over. *)
Definition keptSeg (s : string) : bool :=
  negb (String.eqb s "." || String.eqb s "").

(** [x] goes in at the end of [acc], which holds the elements already in
    order, the last one first, and moves towards the front past every
    element it is [less] than. *)
Fixpoint insertBack {A : Type} (less : A -> A -> bool) (x : A)
         (acc : list A) : list A :=
  match acc with
  | [] => [x]
  | y :: ys => if less x y then y :: insertBack less x ys else x :: acc
  end.

(** The slice [sort.Slice] sorts by insertion only. *)
Definition maxInsertion : nat := 12.

(** The demonstration file system with more in it outside the root. *)
Definition outsideFS : os.FS :=
  os.mkFS
    (fun name =>
       if String.eqb name "/etc" then os.ok [demo.file "passwd" 1 1]
       else demo.readDir name)
    (fun name =>
       if String.eqb name "/etc/passwd"
       then os.ok (os.FileInfo.mk 1 0 false)
       else demo.stat name)
    (Some "/").

(** A world set up for TLS: the switch in capitals, a certificate at a
    path of its own and the private key at the default one. *)
Definition tlsWorld : World.t :=
  World.mk
    (fun k =>
       if String.eqb k "USE_TLS" then "TRUE"
       else if String.eqb k "CERT_FILE" then "/etc/ssl/site.pem"
       else if String.eqb k "PORT" then "8443"
       else "")
    (fun _ => None)
    None
    (os.mkFS
       demo.readDir
       (fun name =>
          if String.eqb name "/etc/ssl/site.pem"
             || String.eqb name "certs/key.pem"
          then os.ok (os.FileInfo.mk 1 0 false)
          else demo.stat name)
       (Some "/")).

(** The world with nothing set and no certificate. *)
Definition plainWorld (useTLS : string) : World.t :=
  World.mk (fun k => if String.eqb k "USE_TLS" then useTLS else "")
           (fun _ => None) None demo.fs.

(* ===================================================================== *)
(** * The model on the library's own test table *)
(* ===================================================================== *)

Example clean_tests :
  map filepath.Clean
      ["abc"; "abc/def"; "a/b/c"; "."; ".."; "../.."; "../../abc"; "/abc"; "/";
       ""; "abc/"; "abc/def/"; "a/b/c/"; "./"; "../"; "../../"; "/abc/";
       "abc//def//ghi"; "abc//"; "abc/./def"; "/./abc/def"; "abc/.";
       "abc/def/ghi/../jkl"; "abc/def/../ghi/../jkl"; "abc/def/.."; "abc/def/../..";
       "/abc/def/../.."; "abc/def/../../.."; "/abc/def/../../..";
       "abc/def/../../../ghi/jkl/../../../mno"; "/../abc"; "a/../b:/../../c";
       "abc/./../def"; "abc//./../def"; "abc/../../././../def"]
  = ["abc"; "abc/def"; "a/b/c"; "."; ".."; "../.."; "../../abc"; "/abc"; "/";
     "."; "abc"; "abc/def"; "a/b/c"; "."; ".."; "../.."; "/abc";
     "abc/def/ghi"; "abc"; "abc/def"; "/abc/def"; "abc";
     "abc/def/jkl"; "abc/jkl"; "abc"; ".";
     "/"; ".."; "/";
     "../../mno"; "/abc"; "../c";
     "def"; "def"; "../../def"].
Proof. vm_compute. reflexivity. Qed.

(** The other library functions on inputs whose results the library's
    documentation and tests give. *)
Example library_examples :
  url.QueryEscape "a b&c/d=e?f" = "a+b%26c%2Fd%3De%3Ff"
  /\ url.QueryUnescape "a+b%26c%2fd" = Some "a b&c/d"
  /\ url.QueryUnescape "%zz" = None
  /\ url.Query "/?path=a%2Fb&q=x+y&sort=size"
     = [("path", ["a/b"]); ("q", ["x y"]); ("sort", ["size"])]
  /\ map filepath.Base [""; "/"; "///"; "a/b/"; "/data/sizes/fileB"; "abc"]
     = ["."; "/"; "/"; "b"; "fileB"; "abc"]
  /\ filepath.Join ["/data"; ""] = "/data"
  /\ filepath.Join [""; ""] = ""
  /\ filepath.Join ["a"; "../../b"] = "../b"
  /\ filepath.Abs (Some "/srv") "data/x" = Some "/srv/data/x"
  /\ filepath.Abs None "data" = None
  /\ strings.Split "a//b" "/" = ["a"; ""; "b"]
  /\ strings.Split "" "/" = [""]
  /\ strings.TrimSpace "  two words  " = "two words"
  /\ strings.TrimPrefix "//etc" "/" = "/etc"
  /\ strings.ToLower "ReadMe.TXT" = "readme.txt"
  /\ strings.Contains "readme.txt" "" = true.
Proof. vm_compute. repeat split; reflexivity. Qed.

(** [strings.TrimSpace] on white space beyond ASCII, byte by byte: the
    no-break space U+00A0, the thin space U+2009, the ideographic space
    U+3000 and the next line U+0085 are taken away with the ASCII ones; the
    zero width space U+200B is no white space, nor are the bytes [85] and
    [A0] that encode no rune, nor a no-break space of which the last byte
    is missing. *)
Example TrimSpace_white_space :
  map (fun l => map nat_of_ascii
                    (list_ascii_of_string
                       (strings.TrimSpace
                          (string_of_list_ascii (map ascii_of_nat l)))))
      [[32; 9; 82; 69; 10; 13]; [194; 160; 82; 69; 226; 128; 137];
       [227; 128; 128; 82; 194; 133]; [226; 128; 139; 82]; [133; 82; 160];
       [82; 32; 194]; [194; 160; 32; 226; 128; 168]]
  = [[82; 69]; [82; 69]; [82]; [226; 128; 139; 82]; [133; 82; 160];
     [82; 32; 194]; []].
Proof. vm_compute. reflexivity. Qed.

(* ===================================================================== *)
(** * Strings: prefixes, substrings, lower case *)
(* ===================================================================== *)

Lemma append_nil_r (s : string) : (s ++ "")%string = s.
Proof. induction s as [|c s IH]; simpl; congruence. Qed.

Lemma append_assoc (a b c : string) :
  ((a ++ b) ++ c)%string = (a ++ (b ++ c))%string.
Proof. induction a as [|x a IH]; simpl; congruence. Qed.

Lemma length_append (a b : string) :
  String.length (a ++ b) = String.length a + String.length b.
Proof. induction a as [|x a IH]; simpl; congruence. Qed.

(** [HasPrefix] is the prefix relation on byte strings. *)
Lemma HasPrefix_spec (s pre : string) :
  strings.HasPrefix s pre = true <-> exists t, s = (pre ++ t)%string.
Proof.
  revert s; induction pre as [|p pre IH]; intros s; simpl.
  - split; [intros _; now exists s | reflexivity].
  - destruct s as [|c s]; simpl.
    + split; [discriminate | intros [t H]; discriminate].
    + rewrite andb_true_iff, Ascii.eqb_eq, IH. split.
      * intros [-> [t ->]]. now exists t.
      * intros [t H]. injection H as -> ->. split; [reflexivity | now exists t].
Qed.

Lemma HasPrefix_refl (s : string) : strings.HasPrefix s s = true.
Proof. apply HasPrefix_spec. exists "". now rewrite append_nil_r. Qed.

Lemma HasPrefix_app (s t : string) : strings.HasPrefix (s ++ t) s = true.
Proof. apply HasPrefix_spec. now exists t. Qed.




(** ** Lower case and the sameness of letters *)






(** The step from the test [isWithin] makes, on both strings extended by
    the separator, to a prefix of the path itself. *)
Lemma HasPrefix_sep (p r : string) (sep : ascii) :
  strings.HasPrefix (p ++ String sep "") (r ++ String sep "") = true ->
  p = r \/ strings.HasPrefix p (r ++ String sep "") = true.
Proof.
  revert p; induction r as [|a r IH]; intros p H.
  - destruct p as [|c p]; [now left|]. right. simpl in *.
    now rewrite andb_true_r in *.
  - destruct p as [|c p]; simpl in H.
    + apply andb_true_iff in H as [_ H]. destruct r; discriminate.
    + apply andb_true_iff in H as [Hc H]. apply Ascii.eqb_eq in Hc as ->.
      destruct (IH _ H) as [-> | Hp]; [now left|].
      right. simpl. now rewrite Ascii.eqb_refl.
Qed.

(* ===================================================================== *)
(** * Splitting and joining at the separator *)
(* ===================================================================== *)

Lemma bytes_app (a b : string) :
  list_ascii_of_string (a ++ b)
  = (list_ascii_of_string a ++ list_ascii_of_string b)%list.
Proof. induction a as [|c a IH]; simpl; congruence. Qed.

Lemma length_bytes (s : string) :
  List.length (list_ascii_of_string s) = String.length s.
Proof. induction s as [|c s IH]; simpl; congruence. Qed.

Lemma noSep_cons (c : ascii) (s : string) :
  noSep (String c s) = negb (filepath.IsPathSeparator c) && noSep s.
Proof. unfold noSep. simpl. now rewrite negb_orb. Qed.

(** From [H : noSep (String c s) = true] to [Hc], the first byte is no
    separator, and [H] for the rest. *)
Ltac noSep_head H Hc :=
  rewrite noSep_cons, andb_true_iff, negb_true_iff in H;
  destruct H as [Hc H].

Lemma Split_not_nil (s : string) : strings.Split s "/" <> [].
Proof.
  destruct s as [|c s]; simpl; [discriminate|].
  destruct (Ascii.eqb c "/"); [discriminate|].
  destruct (strings.Split s "/"); discriminate.
Qed.

Lemma Split_noSep (e : string) :
  noSep e = true -> strings.Split e "/" = [e].
Proof.
  induction e as [|c e IH]; [reflexivity|]. intros He. noSep_head He Hc.
  simpl. unfold filepath.IsPathSeparator, filepath.Separator in Hc.
  now rewrite Hc, IH.
Qed.

Lemma Split_app (e rest : string) :
  noSep e = true ->
  strings.Split (e ++ String "/" rest) "/" = e :: strings.Split rest "/".
Proof.
  induction e as [|c e IH]; [reflexivity|]. intros He. noSep_head He Hc.
  simpl. unfold filepath.IsPathSeparator, filepath.Separator in Hc.
  now rewrite Hc, IH.
Qed.

Lemma Split_elems_noSep (s : string) :
  Forall (fun e => noSep e = true) (strings.Split s "/").
Proof.
  induction s as [|c s IH]; simpl; [now repeat constructor|].
  destruct (Ascii.eqb c "/") eqn:Hc; [now constructor|].
  pose proof (Split_not_nil s) as Hne.
  destruct (strings.Split s "/") as [|h r]; [contradiction|].
  inversion IH as [|? ? Hh Hr]; subst. constructor; [|assumption].
  rewrite noSep_cons. unfold filepath.IsPathSeparator, filepath.Separator.
  now rewrite Hc, Hh.
Qed.

Lemma Join_cons (e e2 : string) (r : list string) :
  strings.Join (e :: e2 :: r) "/"
  = e ++ String "/" (strings.Join (e2 :: r) "/").
Proof. reflexivity. Qed.

Lemma Join_Split (s : string) :
  strings.Join (strings.Split s "/") "/" = s.
Proof.
  induction s as [|c s IH]; [reflexivity|]. simpl.
  destruct (Ascii.eqb_spec c "/") as [->|Hc].
  - pose proof (Split_not_nil s) as Hne.
    destruct (strings.Split s "/") as [|h r]; [contradiction|].
    rewrite Join_cons, IH. reflexivity.
  - pose proof (Split_not_nil s) as Hne.
    destruct (strings.Split s "/") as [|h r]; [contradiction|].
    destruct r as [|h2 r]; simpl in *; now rewrite <- IH.
Qed.

Lemma Split_Join (elems : list string) :
  elems <> [] -> Forall (fun e => noSep e = true) elems ->
  strings.Split (strings.Join elems "/") "/" = elems.
Proof.
  induction elems as [|e elems IH]; [contradiction|]. intros _ Hall.
  inversion Hall as [|? ? He Hr]; subst.
  destruct elems as [|e2 r].
  - now apply Split_noSep.
  - rewrite Join_cons, Split_app by assumption.
    now rewrite IH.
Qed.

Lemma Join_app (a b : list string) :
  a <> [] -> b <> [] ->
  strings.Join (a ++ b) "/"
  = strings.Join a "/" ++ String "/" (strings.Join b "/").
Proof.
  induction a as [|x a IH]; [contradiction|]. intros _ Hb.
  destruct a as [|y a].
  - destruct b as [|z b]; [contradiction|]. reflexivity.
  - change ((x :: y :: a) ++ b)%list with (x :: y :: (a ++ b)%list).
    rewrite !Join_cons.
    change (y :: (a ++ b)%list) with ((y :: a) ++ b)%list.
    rewrite IH by (assumption || discriminate).
    now rewrite append_assoc.
Qed.

(* ===================================================================== *)
(** * [Clean] computes what its documentation describes *)
(* ===================================================================== *)

Section CleanRefinement.

(** Whether the path being cleaned begins with the separator. *)
Variable rooted : bool.

Lemma validName_facts (e : string) :
  os.validName e = true ->
  e <> "" /\ e <> "." /\ e <> ".." /\ noSep e = true.
Proof.
  unfold os.validName, noSep.
  rewrite !andb_true_iff, !negb_true_iff, !String.eqb_neq.
  tauto.
Qed.

Lemma validName_intro (e : string) :
  e <> "" -> e <> "." -> e <> ".." -> noSep e = true -> os.validName e = true.
Proof.
  unfold os.validName, noSep.
  rewrite !andb_true_iff, !negb_true_iff, !String.eqb_neq.
  tauto.
Qed.

(** The inner loop of the default case copies an element to its end. *)
Lemma cleanLoop_copy (e rest : string)
      (out : filepath.lazybuf) (d : nat) :
  noSep e = true -> filepath.elemEnds rest = true ->
  filepath.cleanLoop rooted (e ++ rest) true out d
  = filepath.cleanLoop rooted rest false
      (rev (list_ascii_of_string e) ++ out)%list d.
Proof.
  revert out; induction e as [|c e IH]; intros out He Hr.
  - destruct rest as [|c r]; [reflexivity|]. simpl in *. now rewrite Hr.
  - noSep_head He Hc. simpl. rewrite Hc, IH by assumption.
    now rewrite <- app_assoc.
Qed.

(** The first byte of a real element starts the default case. *)
Lemma cleanLoop_real (c : ascii) (e rest : string)
      (out : filepath.lazybuf) (d : nat) :
  os.validName (String c e) = true -> filepath.elemEnds rest = true ->
  filepath.cleanLoop rooted (String c e ++ rest) false out d
  = filepath.cleanLoop rooted (e ++ rest) true
      (c :: (if (rooted && negb (List.length out =? 1))
                || (negb rooted && negb (List.length out =? 0))
             then filepath.Separator :: out else out)) d.
Proof.
  intros Hv Hr. apply validName_facts in Hv as [_ [Hdot [Hdd Hns]]].
  noSep_head Hns Hc. simpl. rewrite Hc.
  destruct (Ascii.eqb_spec c ".") as [->|Hne]; simpl.
  - destruct e as [|c1 e]; [congruence|].
    noSep_head Hns Hc1. simpl. rewrite Hc1.
    destruct (Ascii.eqb_spec c1 ".") as [->|Hne1]; simpl; [|reflexivity].
    destruct e as [|c2 e]; [congruence|].
    noSep_head Hns Hc2. simpl. now rewrite Hc2.
  - destruct (e ++ rest); reflexivity.
Qed.

Lemma backtrack_sep (d : nat) (r b : list ascii) :
  Forall (fun c => filepath.IsPathSeparator c = false) r -> r <> [] ->
  d <= List.length b ->
  filepath.backtrack d (r ++ filepath.Separator :: b)%list = b.
Proof.
  induction r as [|c r IH]; [contradiction|]. intros Hall _ Hd.
  inversion Hall as [|? ? Hc Hr]; subst. simpl. rewrite Hc. simpl.
  replace (d <? _) with true
    by (symmetry; apply Nat.ltb_lt; rewrite length_app; simpl; lia).
  simpl. destruct r as [|c' r].
  - simpl. now rewrite andb_false_r.
  - apply IH; [assumption | discriminate | assumption].
Qed.

Lemma backtrack_start (d : nat) (r b : list ascii) :
  Forall (fun c => filepath.IsPathSeparator c = false) r -> r <> [] ->
  d = List.length b ->
  filepath.backtrack d (r ++ b)%list = b.
Proof.
  induction r as [|c r IH]; [contradiction|]. intros Hall _ Hd.
  inversion Hall as [|? ? Hc Hr]; subst. simpl. rewrite Hc.
  destruct r as [|c' r].
  - simpl. now rewrite Nat.ltb_irrefl.
  - replace (_ <? _) with true
      by (symmetry; apply Nat.ltb_lt; rewrite length_app; simpl; lia).
    simpl negb. simpl andb. apply IH; [assumption | discriminate | reflexivity].
Qed.

Lemma Join_snoc (l : list string) (e : string) :
  strings.Join (l ++ [e]) "/"
  = match l with
    | [] => e
    | _ => strings.Join l "/" ++ String "/" e
    end.
Proof.
  destruct l as [|x l]; [reflexivity|].
  now rewrite Join_app by discriminate.
Qed.

Lemma Join_eq_nil (l : list string) :
  Forall (fun e => e <> "") l -> strings.Join l "/" = "" -> l = [].
Proof.
  destruct l as [|x l]; [reflexivity|]. intros Hall H.
  inversion Hall as [|? ? Hx _]; subst.
  destruct l; [contradiction|]. rewrite Join_cons in H.
  destruct x; [contradiction | discriminate].
Qed.

Lemma elemsOf_nonempty (dd : nat) (stack : list string) :
  Forall (fun e => os.validName e = true) stack ->
  Forall (fun e => e <> "") (elemsOf (dd, stack)).
Proof.
  intros Hall. unfold elemsOf. simpl. apply Forall_app. split.
  - apply Forall_forall. intros x Hx. apply repeat_spec in Hx.
    subst. discriminate.
  - apply Forall_rev. apply Forall_impl with (2 := Hall).
    intros e He. now apply validName_facts in He.
Qed.

Lemma elemsOf_push (dd : nat) (e : string) (stack : list string) :
  elemsOf (dd, e :: stack) = (elemsOf (dd, stack) ++ [e])%list.
Proof. unfold elemsOf. simpl. now rewrite app_assoc. Qed.

Lemma bufText_push (dd : nat) (e : string)
      (stack : list string) :
  bufText rooted (dd, e :: stack)
  = bufText rooted (dd, stack) ++ sepFor (elemsOf (dd, stack)) ++ e.
Proof.
  unfold bufText. rewrite elemsOf_push, Join_snoc.
  destruct (elemsOf (dd, stack)); simpl.
  - now rewrite append_nil_r.
  - now rewrite append_assoc.
Qed.

Lemma bufText_length_nil (dd : nat) (stack : list string) :
  Forall (fun e => os.validName e = true) stack ->
  (rooted = true -> dd = 0) ->
  ((rooted && negb (String.length (bufText rooted (dd, stack)) =? 1))
   || (negb rooted && negb (String.length (bufText rooted (dd, stack)) =? 0)))
  = match elemsOf (dd, stack) with [] => false | _ => true end.
Proof.
  intros Hall Hroot. pose proof (elemsOf_nonempty dd stack Hall) as Hne.
  pose proof (Join_eq_nil _ Hne) as Hnil.
  unfold bufText. destruct rooted; simpl;
    destruct (elemsOf (dd, stack)) as [|x l] eqn:He; try reflexivity;
    destruct (strings.Join (x :: l) "/") eqn:Hj;
    solve [ discriminate (Hnil eq_refl) | reflexivity ].
Qed.

Lemma bufText_base_le (dd : nat) (stack : list string) :
  String.length (bufText rooted (dd, []))
  <= String.length (bufText rooted (dd, stack)).
Proof.
  induction stack as [|e stack IH]; [lia|].
  rewrite bufText_push, !length_append. lia.
Qed.

Lemma bufText_dotdot (dd : nat) :
  bufText false (S dd, [])
  = bufText false (dd, []) ++ sepFor (repeat ".." dd) ++ "..".
Proof.
  unfold bufText, elemsOf. simpl fst. simpl snd. rewrite !app_nil_r.
  change (repeat ".." (S dd)) with (".." :: repeat ".." dd).
  rewrite repeat_cons, Join_snoc.
  destruct (repeat ".." dd); reflexivity.
Qed.

Lemma rev_bytes_noSep (e : string) :
  noSep e = true ->
  Forall (fun c => filepath.IsPathSeparator c = false)
         (rev (list_ascii_of_string e)).
Proof.
  intros He. apply Forall_rev. induction e as [|c e IH]; [constructor|].
  noSep_head He Hc. constructor; auto.
Qed.

(** One element of the path, read by the loop of [Clean], is one step of
    [elemStep]. *)
Lemma cleanLoop_elem (e rest : string)
      (st : nat * list string) (out : filepath.lazybuf) (d : nat) :
  CleanInv rooted st out d ->
  noSep e = true -> filepath.elemEnds rest = true ->
  exists out' d',
    CleanInv rooted (elemStep rooted st e) out' d'
    /\ filepath.cleanLoop rooted (e ++ rest) false out d
       = filepath.cleanLoop rooted rest false out' d'.
Proof.
  destruct st as [dd stack]. intros [Hout [Hd [Hall Hroot]]] He Hr.
  simpl in Hd, Hall, Hroot. unfold elemStep.
  destruct (String.eqb_spec e "") as [->|Hne].
  { (* empty path element *)
    exists out, d. split; [now repeat split|reflexivity]. }
  destruct (String.eqb_spec e ".") as [->|Hndot].
  { (* . element *)
    exists out, d. split; [now repeat split|].
    simpl. now rewrite Hr. }
  simpl orb. cbv iota.
  destruct (String.eqb_spec e "..") as [->|Hndd].
  { (* .. element *)
    simpl append. cbn [filepath.cleanLoop]. simpl filepath.IsPathSeparator.
    cbv iota. simpl andb. rewrite Hr. cbv iota.
    destruct stack as [|e0 stack].
    - (* nothing to remove *)
      replace (d <? List.length out) with false
        by (subst out d; rewrite length_rev, length_bytes;
            symmetry; apply Nat.ltb_irrefl).
      destruct rooted; simpl negb; cbv iota.
      + exists out, d. split; [now repeat split|reflexivity].
      + assert ("."%char :: "."%char
                :: (if 0 <? List.length out
                    then filepath.Separator :: out else out)
                = rev (list_ascii_of_string (bufText false (S dd, []))))
          as Hout'.
        { rewrite bufText_dotdot, !bytes_app, !rev_app_distr.
          subst out. rewrite length_rev, length_bytes.
          unfold bufText, elemsOf. simpl fst. simpl snd. rewrite app_nil_r.
          simpl append.
          destruct (repeat ".." dd) as [|x l] eqn:Hrep; [reflexivity|].
          assert (strings.Join (x :: l) "/" <> "") as Hj.
          { intros Hj. apply Join_eq_nil in Hj; [discriminate|].
            rewrite <- Hrep. apply Forall_forall. intros y Hy.
            apply repeat_spec in Hy. subst. discriminate. }
          destruct (strings.Join (x :: l) "/") as [|c s] eqn:Hjoin;
            [contradiction|].
          reflexivity. }
        assert (S (S (List.length
                        (if 0 <? List.length out
                         then filepath.Separator :: out else out)))
                = String.length (bufText false (S dd, []))) as Hlen.
        { transitivity (List.length (rev (list_ascii_of_string
                                           (bufText false (S dd, []))))).
          - now rewrite <- Hout'.
          - now rewrite length_rev, length_bytes. }
        exists (rev (list_ascii_of_string (bufText false (S dd, [])))),
               (String.length (bufText false (S dd, []))).
        split; [repeat split; [constructor | discriminate]|].
        rewrite <- Hout', <- Hlen. reflexivity.
    - (* remove the last element *)
      pose proof (Forall_inv Hall) as He0.
      pose proof (Forall_inv_tail Hall) as Hstack. simpl in He0.
      apply validName_facts in He0 as [He0 [_ [_ Hns0]]].
      replace (d <? List.length out) with true.
      2:{ symmetry. apply Nat.ltb_lt. subst out d.
          rewrite length_rev, length_bytes, bufText_push, !length_append.
          pose proof (bufText_base_le dd stack).
          destruct e0; [contradiction|]. simpl. lia. }
      exists (filepath.backtrack d out), d. split; [|reflexivity].
      repeat split; simpl; try assumption.
      subst out. rewrite bufText_push, !bytes_app, !rev_app_distr.
      assert (rev (list_ascii_of_string e0) <> []) as Hrne.
      { destruct e0; [contradiction|]. simpl. intros H.
        apply app_eq_nil in H as [_ H]. discriminate. }
      destruct (elemsOf (dd, stack)) as [|x l] eqn:Hel.
      + simpl. rewrite app_nil_r. apply backtrack_start;
          [now apply rev_bytes_noSep | assumption|].
        rewrite length_rev, length_bytes. subst d.
        unfold elemsOf in Hel. simpl in Hel.
        apply app_eq_nil in Hel as [_ Hel].
        assert (stack = []) as ->
            by (destruct stack; [reflexivity|]; simpl in Hel;
                apply app_eq_nil in Hel as [_ Hel]; discriminate).
        reflexivity.
      + simpl. rewrite <- app_assoc. simpl app. apply backtrack_sep;
          [now apply rev_bytes_noSep | assumption|].
        rewrite length_rev, length_bytes. subst d.
        apply bufText_base_le. }
  (* real path element *)
  destruct e as [|c e]; [contradiction|].
  assert (os.validName (String c e) = true) as Hv
      by now apply validName_intro.
  rewrite cleanLoop_real by assumption.
  rewrite noSep_cons, andb_true_iff in He. destruct He as [_ He].
  rewrite cleanLoop_copy by assumption.
  eexists _, d. split; [|reflexivity].
  repeat split; simpl; try assumption; [|now constructor].
  rewrite bufText_push. subst out.
  rewrite length_rev, length_bytes, bufText_length_nil by assumption.
  rewrite !bytes_app, !rev_app_distr. simpl.
  destruct (elemsOf (dd, stack)); simpl; now rewrite <- !app_assoc.
Qed.

Lemma cleanLoop_elems (elems : list string)
      (st : nat * list string) (out : filepath.lazybuf) (d : nat) :
  elems <> [] -> Forall (fun e => noSep e = true) elems ->
  CleanInv rooted st out d ->
  exists d',
    CleanInv rooted (fold_left (elemStep rooted) elems st)
             (filepath.cleanLoop rooted (strings.Join elems "/") false out d)
             d'.
Proof.
  revert st out d; induction elems as [|e elems IH]; [contradiction|].
  intros st out d _ Hall Hinv.
  pose proof (Forall_inv Hall) as He.
  pose proof (Forall_inv_tail Hall) as Hrest. simpl in He.
  destruct elems as [|e2 r].
  - destruct (cleanLoop_elem e "" st out d Hinv He eq_refl)
      as [out' [d' [Hinv' Heq]]].
    simpl. rewrite append_nil_r in Heq. unfold strings.Join. simpl.
    rewrite Heq. simpl. now exists d'.
  - rewrite Join_cons.
    destruct (cleanLoop_elem e (String "/" (strings.Join (e2 :: r) "/"))
                             st out d Hinv He eq_refl)
      as [out' [d' [Hinv' Heq]]].
    rewrite Heq.
    change (filepath.cleanLoop rooted
              (String "/" (strings.Join (e2 :: r) "/")) false out' d')
      with (filepath.cleanLoop rooted (strings.Join (e2 :: r) "/")
                               false out' d').
    change (fold_left (elemStep rooted) (e :: e2 :: r) st)
      with (fold_left (elemStep rooted) (e2 :: r) (elemStep rooted st e)).
    apply IH; [discriminate | assumption | assumption].
Qed.

End CleanRefinement.

Lemma lb_string_bytes (s : string) :
  filepath.lb_string (rev (list_ascii_of_string s)) = s.
Proof.
  unfold filepath.lb_string.
  now rewrite rev_involutive, string_of_list_ascii_of_string.
Qed.

(** [Clean] computes what its documentation describes. *)
Theorem Clean_cleanElems (path : string) :
  filepath.Clean path = cleanElems path.
Proof.
  destruct path as [|c t]; [reflexivity|].
  unfold filepath.Clean, cleanElems, filepath.IsAbs.
  change (strings.HasPrefix (String c t) "/")
    with (filepath.IsPathSeparator c && true).
  rewrite andb_true_r.
  destruct (filepath.IsPathSeparator c) eqn:Hc.
  - apply Ascii.eqb_eq in Hc. subst c. simpl strings.Split.
    change (fold_left (elemStep true) ("" :: strings.Split t "/") (0, []))
      with (fold_left (elemStep true) (strings.Split t "/") (0, [])).
    destruct (cleanLoop_elems true (strings.Split t "/") (0, [])
                [filepath.Separator] 1 (Split_not_nil t)
                (Split_elems_noSep t))
      as [d' [Hout [_ [Hall _]]]].
    { repeat split; auto. }
    rewrite Join_Split in Hout. rewrite Hout.
    rewrite length_rev, length_bytes.
    change (String.length (bufText true ?st) =? 0) with false.
    cbv iota. rewrite lb_string_bytes. reflexivity.
  - destruct (cleanLoop_elems false (strings.Split (String c t) "/") (0, [])
                [] 0 (Split_not_nil _) (Split_elems_noSep _))
      as [d' [Hout [_ [Hall _]]]].
    { repeat split; auto; discriminate. }
    rewrite Join_Split in Hout. rewrite Hout.
    rewrite length_rev, length_bytes. unfold renderElems, bufText.
    simpl append.
    destruct (strings.Join _ "/") as [|x s]; [reflexivity|].
    change (String.length (String x s) =? 0) with false.
    change (String.eqb (String x s) "") with false.
    cbv iota. now rewrite lb_string_bytes.
Qed.


(* ===================================================================== *)
(** * The shape of a cleaned path *)
(* ===================================================================== *)

Lemma elemStep_wf (rooted : bool) (st : nat * list string) (e : string) :
  noSep e = true -> WfState rooted st -> WfState rooted (elemStep rooted st e).
Proof.
  destruct st as [dd stack]. intros He [Hall Hroot]. simpl in *.
  unfold elemStep.
  destruct (String.eqb_spec e "") as [E1|H1]; [now split|].
  destruct (String.eqb_spec e ".") as [E2|H2]; [now split|].
  simpl orb. cbv iota.
  destruct (String.eqb_spec e "..") as [E3|H3].
  - destruct stack as [|e0 stack].
    + destruct rooted; split; simpl; auto; discriminate.
    + split; simpl; [now apply Forall_inv_tail in Hall | assumption].
  - split; simpl; [|assumption].
    constructor; [now apply validName_intro | assumption].
Qed.

Lemma fold_elemStep_wf (rooted : bool) (elems : list string)
      (st : nat * list string) :
  Forall (fun e => noSep e = true) elems -> WfState rooted st ->
  WfState rooted (fold_left (elemStep rooted) elems st).
Proof.
  revert st; induction elems as [|e elems IH]; intros st Hall Hst;
    [assumption|].
  simpl. apply IH; [now apply Forall_inv_tail in Hall|].
  apply elemStep_wf; [now apply Forall_inv in Hall | assumption].
Qed.

(** Every cleaned path is the rendering of a well-formed state. *)
Lemma Clean_shape (path : string) :
  exists st,
    WfState (filepath.IsAbs path) st
    /\ filepath.Clean path = renderElems (filepath.IsAbs path) st.
Proof.
  rewrite Clean_cleanElems. unfold cleanElems. eexists. split; [|reflexivity].
  apply fold_elemStep_wf; [apply Split_elems_noSep|].
  split; [constructor | reflexivity].
Qed.

Lemma fold_push (rooted : bool) (elems : list string)
      (dd : nat) (stack : list string) :
  Forall (fun e => os.validName e = true) elems ->
  fold_left (elemStep rooted) elems (dd, stack)
  = (dd, (rev elems ++ stack)%list).
Proof.
  revert stack; induction elems as [|e elems IH]; intros stack Hall;
    [reflexivity|].
  pose proof (Forall_inv Hall) as He. simpl in He.
  apply validName_facts in He as [H1 [H2 [H3 _]]].
  apply String.eqb_neq in H1, H2, H3.
  simpl. rewrite H1, H2, H3. simpl.
  rewrite IH by now apply Forall_inv_tail in Hall.
  now rewrite <- app_assoc.
Qed.

Lemma fold_dotdots (n dd : nat) :
  fold_left (elemStep false) (repeat ".." n) (dd, []) = (n + dd, []).
Proof.
  revert dd; induction n as [|n IH]; intros dd; [reflexivity|].
  simpl. rewrite IH. f_equal. lia.
Qed.

(** Reading the elements of a well-formed state gives the state back. *)
Lemma fold_elemsOf (rooted : bool) (st : nat * list string) :
  WfState rooted st ->
  fold_left (elemStep rooted) (elemsOf st) (0, []) = st.
Proof.
  destruct st as [dd stack]. intros [Hall Hroot]. simpl in *.
  unfold elemsOf. simpl. rewrite fold_left_app.
  destruct rooted.
  - rewrite Hroot by reflexivity. simpl.
    rewrite fold_push by now apply Forall_rev.
    now rewrite rev_involutive, app_nil_r.
  - rewrite fold_dotdots, Nat.add_0_r.
    rewrite fold_push by now apply Forall_rev.
    now rewrite rev_involutive, app_nil_r.
Qed.

Lemma elemsOf_noSep (st : nat * list string) :
  Forall (fun e => os.validName e = true) (snd st) ->
  Forall (fun e => noSep e = true) (elemsOf st).
Proof.
  intros Hall. unfold elemsOf. apply Forall_app. split.
  - apply Forall_forall. intros x Hx. apply repeat_spec in Hx. now subst.
  - apply Forall_rev. apply Forall_impl with (2 := Hall).
    intros e He. now apply validName_facts in He.
Qed.

Lemma elemsOf_first_not_sep (st : nat * list string) (c : ascii) (s : string) :
  Forall (fun e => os.validName e = true) (snd st) ->
  strings.Join (elemsOf st) "/" = String c s ->
  filepath.IsPathSeparator c = false.
Proof.
  intros Hall Hj. pose proof (elemsOf_noSep st Hall) as Hns.
  pose proof (elemsOf_nonempty (fst st) (snd st) Hall) as Hne.
  rewrite <- surjective_pairing in Hne.
  destruct (elemsOf st) as [|x l]; [discriminate|].
  apply Forall_inv in Hns. apply Forall_inv in Hne.
  destruct x as [|c' x]; [contradiction|].
  rewrite noSep_cons, andb_true_iff, negb_true_iff in Hns.
  destruct l; simpl in Hj; injection Hj as <- _; tauto.
Qed.

Lemma IsAbs_render (rooted : bool) (st : nat * list string) :
  WfState rooted st -> filepath.IsAbs (renderElems rooted st) = rooted.
Proof.
  intros [Hall Hroot]. unfold renderElems. destruct rooted; [reflexivity|].
  destruct (strings.Join (elemsOf st) "/") as [|c s] eqn:Hj; [reflexivity|].
  change (String.eqb (String c s) "") with false. cbv iota.
  unfold filepath.IsAbs.
  change (strings.HasPrefix (String c s) "/")
    with (filepath.IsPathSeparator c && true).
  now rewrite (elemsOf_first_not_sep st c s Hall Hj).
Qed.

Lemma fold_Split_render (rooted : bool) (st : nat * list string) :
  WfState rooted st ->
  fold_left (elemStep rooted) (strings.Split (renderElems rooted st) "/")
            (0, [])
  = st.
Proof.
  intros Hwf. pose proof Hwf as [Hall Hroot].
  pose proof (elemsOf_noSep st Hall) as Hns.
  pose proof (fold_elemsOf rooted st Hwf) as Hfold.
  unfold renderElems. destruct (elemsOf st) as [|x l] eqn:Hel.
  - destruct rooted; exact Hfold.
  - assert (strings.Join (x :: l) "/" <> "") as Hj.
    { intros Hj. apply Join_eq_nil in Hj; [discriminate|].
      rewrite <- Hel, (surjective_pairing st). now apply elemsOf_nonempty. }
    destruct rooted.
    + change (strings.Split ("/" ++ ?b) "/") with ("" :: strings.Split b "/").
      rewrite Split_Join by (assumption || discriminate). exact Hfold.
    + apply String.eqb_neq in Hj. rewrite Hj.
      rewrite Split_Join by (assumption || discriminate). exact Hfold.
Qed.

(** A rendered state is clean already. *)
Lemma cleanElems_render (rooted : bool) (st : nat * list string) :
  WfState rooted st ->
  cleanElems (renderElems rooted st) = renderElems rooted st.
Proof.
  intros Hwf. unfold cleanElems.
  now rewrite IsAbs_render, fold_Split_render.
Qed.

Theorem Clean_idempotent (path : string) :
  filepath.Clean (filepath.Clean path) = filepath.Clean path.
Proof.
  destruct (Clean_shape path) as [st [Hwf ->]].
  rewrite Clean_cleanElems. now apply cleanElems_render.
Qed.

Lemma IsAbs_Clean (path : string) :
  filepath.IsAbs (filepath.Clean path) = filepath.IsAbs path.
Proof.
  destruct (Clean_shape path) as [st [Hwf ->]].
  now apply IsAbs_render.
Qed.

(* ===================================================================== *)
(** * Path confinement (C1) *)
(* ===================================================================== *)

Lemma Join_two_nonempty (a b : string) :
  a <> "" -> filepath.Join [a; b] = filepath.Clean (a ++ String "/" b).
Proof.
  intros Ha. unfold filepath.Join. apply String.eqb_neq in Ha. now rewrite Ha.
Qed.

Lemma IsAbs_nonempty (s : string) : filepath.IsAbs s = true -> s <> "".
Proof. intros H ->. discriminate. Qed.

Lemma IsAbs_app (a b : string) :
  filepath.IsAbs a = true -> filepath.IsAbs (a ++ b) = true.
Proof.
  unfold filepath.IsAbs. rewrite !HasPrefix_spec. intros [t ->].
  exists (t ++ b). now rewrite append_assoc.
Qed.

(** Under an absolute root the candidate path is absolute and clean, and
    [filepath.Abs] leaves it and the cleaned root as they are. *)
Lemma Abs_of_joined (wd : option string) (rootDir rel : string) :
  filepath.IsAbs rootDir = true ->
  let abs := filepath.Join [rootDir; rel] in
  filepath.IsAbs abs = true
  /\ filepath.Clean abs = abs
  /\ filepath.Abs wd abs = Some abs
  /\ filepath.Abs wd rootDir = Some (filepath.Clean rootDir).
Proof.
  intros Hroot abs. subst abs.
  rewrite Join_two_nonempty by now apply IsAbs_nonempty.
  assert (filepath.IsAbs (filepath.Clean (rootDir ++ String "/" rel)) = true)
    as Habs by (rewrite IsAbs_Clean; now apply IsAbs_app).
  unfold filepath.Abs. rewrite Habs, Hroot, !Clean_idempotent. auto.
Qed.

(** From a prefix of the path to the test [isWithin] makes. *)
Lemma HasPrefix_sep_conv (p r : string) (sep : ascii) :
  p = r \/ strings.HasPrefix p (r ++ String sep "") = true ->
  strings.HasPrefix (p ++ String sep "") (r ++ String sep "") = true.
Proof.
  intros [->|H]; [apply HasPrefix_refl|].
  apply HasPrefix_spec in H as [t ->]. apply HasPrefix_spec.
  exists (t ++ String sep ""). now rewrite !append_assoc.
Qed.

(** The containment test decides [Confined]. *)
Lemma isWithin_spec (wd : option string) (p root : string) :
  isWithin wd p root = true <-> Confined wd root p.
Proof.
  unfold isWithin, Confined. split.
  - intros Hin.
    destruct (filepath.Abs wd p) as [pAbs|]; [|discriminate].
    destruct (filepath.Abs wd root) as [rootAbs|]; [|discriminate].
    exists pAbs, rootAbs. repeat split.
    apply orb_true_iff in Hin as [Hpre | Heq].
    + now apply HasPrefix_sep.
    + left. now apply String.eqb_eq.
  - intros [pAbs [rootAbs [-> [-> H]]]].
    apply orb_true_iff. left. now apply HasPrefix_sep_conv.
Qed.

(** C1.  For every root directory, working directory and path parameter,
    the resolution yields its candidate path exactly when the candidate is
    confined -- its absolute clean form equals that of the root or has it,
    followed by the separator, as a prefix -- and rejects the path exactly
    when it is not.  When the root is absolute the path yielded is itself
    absolute and clean: it is the cleaned root or begins with the cleaned
    root and the separator. *)
Theorem resolve_confined (wd : option string) (rootDir path : string) :
  match resolve wd rootDir path with
  | None => ~ Confined wd rootDir (candidate rootDir path)
  | Some abs =>
      abs = candidate rootDir path
      /\ Confined wd rootDir abs
      /\ (if filepath.IsAbs rootDir
          then filepath.IsAbs abs = true
               /\ (abs = filepath.Clean rootDir
                   \/ strings.HasPrefix
                        abs (filepath.Clean rootDir ++ String os.PathSeparator "")
                      = true)
          else True)
  end.
Proof.
  unfold resolve.
  remember (candidate rootDir path) as abs eqn:Eabs.
  destruct (isWithin wd abs rootDir) eqn:Hin; cbn [negb]; cbv iota.
  - apply isWithin_spec in Hin. split; [reflexivity|]. split; [assumption|].
    destruct Hin as [pAbs [rootAbs [Hp [Hr Hconf]]]].
    destruct (filepath.IsAbs rootDir) eqn:Hroot; [|exact I].
    unfold candidate in Eabs.
    destruct (Abs_of_joined wd rootDir
                (if String.eqb (cleanRel path) "." then "" else cleanRel path)
                Hroot) as [Habs [Hclean [Hp' Hr']]].
    rewrite <- Eabs in Habs, Hclean, Hp'.
    split; [assumption|].
    assert (pAbs = abs) as -> by congruence.
    assert (rootAbs = filepath.Clean rootDir) as -> by congruence.
    now rewrite Hclean, Clean_idempotent in Hconf.
  - intros Hc. apply isWithin_spec in Hc. congruence.
Qed.

(** Resolutions under the root [/data]. *)
Example resolve_examples :
  map (resolve (Some "/") "/data")
      [""; "/"; "../../etc/passwd"; "a/../b"; "a/b/"; "../secret";
       "a/../../b"; "../database"; "..%2f"; "a//b/./c"]
  = [Some "/data"; Some "/data"; None; Some "/data/b"; Some "/data/a/b"; None;
     None; None; Some "/data/..%2f"; Some "/data/a/b/c"].
Proof. vm_compute. reflexivity. Qed.

(** [downloadHandler] answers with the bad request exactly when its
    candidate path fails the containment test. *)
Lemma downloadHandler_invalid (fs : os.FS) (rootDir : string)
      (query : url.Values) :
  isWithin (os.Getwd fs)
           (filepath.Join [rootDir; cleanRel (url.Get query "path")]) rootDir
  = false ->
  downloadHandler fs rootDir query
  = http.Error "invalid path" http.StatusBadRequest.
Proof. intros H. unfold downloadHandler. now rewrite H. Qed.

(* ===================================================================== *)
(** * The query string of a listing URL *)
(* ===================================================================== *)

Lemma QueryUnescape_escapeByte (c : ascii) (t : string) :
  url.QueryUnescape (url.escapeByte c ++ t)
  = match url.QueryUnescape t with
    | Some r => Some (String c r)
    | None => None
    end.
Proof.
  destruct c as [[] [] [] [] [] [] [] []]; reflexivity.
Qed.

Lemma QueryUnescape_app (s t : string) :
  url.QueryUnescape (url.QueryEscape s ++ t)
  = match url.QueryUnescape t with
    | Some r => Some (s ++ r)
    | None => None
    end.
Proof.
  induction s as [|c s IH]; simpl.
  - now destruct (url.QueryUnescape t).
  - rewrite append_assoc, QueryUnescape_escapeByte, IH.
    now destruct (url.QueryUnescape t).
Qed.

(** Unescaping undoes escaping. *)
Lemma QueryUnescape_QueryEscape (s : string) :
  url.QueryUnescape (url.QueryEscape s) = Some s.
Proof.
  rewrite <- (append_nil_r (url.QueryEscape s)), QueryUnescape_app.
  simpl. now rewrite append_nil_r.
Qed.

Lemma lacks_cons (x c : ascii) (s : string) :
  lacks x (String c s) = negb (Ascii.eqb x c) && lacks x s.
Proof. unfold lacks. simpl. now rewrite negb_orb. Qed.

(** From [H : lacks x (String c s) = true] to [Hc : Ascii.eqb c x = false]
    and [H] for the rest. *)
Ltac lacks_head H Hc :=
  rewrite lacks_cons, andb_true_iff, negb_true_iff in H;
  destruct H as [Hc H]; rewrite Ascii.eqb_sym in Hc.

Lemma lacks_app (x : ascii) (a b : string) :
  lacks x (a ++ b) = lacks x a && lacks x b.
Proof.
  induction a as [|c a IH]; [reflexivity|]. simpl.
  now rewrite !lacks_cons, IH, andb_assoc.
Qed.

(** The bytes [escape] writes are none of [&], [;] and [=]. *)
Lemma escapeByte_lacks (c : ascii) :
  lacks "&" (url.escapeByte c) = true
  /\ lacks ";" (url.escapeByte c) = true
  /\ lacks "=" (url.escapeByte c) = true.
Proof.
  destruct c as [[] [] [] [] [] [] [] []]; repeat split; reflexivity.
Qed.

Lemma QueryEscape_lacks (s : string) :
  lacks "&" (url.QueryEscape s) = true
  /\ lacks ";" (url.QueryEscape s) = true
  /\ lacks "=" (url.QueryEscape s) = true.
Proof.
  induction s as [|c s [IH1 [IH2 IH3]]]; [now repeat split|]. simpl.
  destruct (escapeByte_lacks c) as [H1 [H2 H3]].
  now rewrite !lacks_app, H1, H2, H3, IH1, IH2, IH3.
Qed.

Lemma lacks_Split (x : ascii) (s : string) :
  lacks x s = true -> strings.Split s x = [s].
Proof.
  induction s as [|c s IH]; [reflexivity|]. intros Hs. lacks_head Hs Hc.
  simpl. now rewrite Hc, IH.
Qed.

Lemma lacks_Contains (x : ascii) (s : string) :
  lacks x s = true -> strings.Contains s (String x "") = false.
Proof.
  induction s as [|c s IH]; [reflexivity|]. intros Hs. lacks_head Hs Hc.
  simpl. now rewrite Hc, IH.
Qed.

Lemma Cut_app (x : ascii) (k v : string) :
  lacks x k = true -> url.Cut (k ++ String x v) x = (k, v, true).
Proof.
  induction k as [|c k IH]; intros Hk; simpl.
  - now rewrite Ascii.eqb_refl.
  - lacks_head Hk Hc. now rewrite Hc, IH.
Qed.

(** The request for the listing URL of [rel] carries [rel] as its [path]
    parameter, and nothing else. *)
Theorem Query_listingURL (rel : string) :
  url.Query (listingURL rel) = [("path", [rel])].
Proof.
  destruct (QueryEscape_lacks rel) as [Hamp [Hsemi Heq]].
  change (url.Query (listingURL rel))
    with (url.ParseQuery ("path=" ++ url.QueryEscape rel)).
  change (url.ParseQuery ("path=" ++ url.QueryEscape rel))
    with (fold_left url.parsePair
            (strings.Split ("path=" ++ url.QueryEscape rel) "&") []).
  rewrite lacks_Split by (rewrite lacks_app, Hamp; reflexivity).
  cbn [fold_left]. unfold url.parsePair.
  rewrite lacks_Contains by (rewrite lacks_app, Hsemi; reflexivity).
  change ("path=" ++ url.QueryEscape rel)
    with ("path" ++ String "=" (url.QueryEscape rel)).
  rewrite Cut_app by reflexivity.
  rewrite QueryUnescape_QueryEscape. reflexivity.
Qed.

(* ===================================================================== *)
(** * Breadcrumbs (C5) *)
(* ===================================================================== *)

Lemma crumbSeg_facts (s : string) :
  crumbSeg s = true -> s <> "" /\ s <> "." /\ noSep s = true.
Proof.
  unfold crumbSeg.
  rewrite !andb_true_iff, !negb_true_iff, !String.eqb_neq. tauto.
Qed.

Lemma crumbStep_seg (pre : list string) (out : list crumb.t) (p : string) :
  Forall (fun s => crumbSeg s = true) pre -> crumbSeg p = true ->
  crumbStep (strings.Join pre "/", out) p
  = (strings.Join (pre ++ [p]) "/",
     (out ++ [crumb.mk p (listingURL (strings.Join (pre ++ [p]) "/"))])%list).
Proof.
  intros Hpre Hp. apply crumbSeg_facts in Hp as [H1 [H2 _]].
  apply String.eqb_neq in H1, H2. unfold crumbStep. rewrite H1, H2. simpl orb.
  cbv iota. rewrite Join_snoc. destruct pre as [|x pre]; [reflexivity|].
  assert (strings.Join (x :: pre) "/" <> "") as Hj.
  { intros Hj. apply Join_eq_nil in Hj; [discriminate|].
    apply Forall_impl with (2 := Hpre). intros s Hs.
    now apply crumbSeg_facts in Hs. }
  apply String.eqb_neq in Hj. now rewrite Hj.
Qed.

Lemma crumbStep_fold (segs pre : list string) (out : list crumb.t) :
  Forall (fun s => crumbSeg s = true) pre ->
  Forall (fun s => crumbSeg s = true) segs ->
  fold_left crumbStep segs (strings.Join pre "/", out)
  = (strings.Join (pre ++ segs) "/", (out ++ crumbsOf pre segs)%list).
Proof.
  revert pre out; induction segs as [|p segs IH]; intros pre out Hpre Hsegs.
  - simpl. now rewrite !app_nil_r.
  - pose proof (Forall_inv Hsegs) as Hp. simpl in Hp.
    apply Forall_inv_tail in Hsegs.
    cbn [fold_left]. rewrite crumbStep_seg by assumption.
    rewrite IH; [|apply Forall_app; split; [assumption|now constructor]
                 |assumption].
    now rewrite <- !app_assoc.
Qed.

Lemma crumbsFor_Join (segs : list string) :
  Forall (fun s => crumbSeg s = true) segs ->
  crumbsFor (strings.Join segs "/") = crumbsOf [] segs.
Proof.
  intros Hsegs. unfold crumbsFor, filepath.ToSlash.
  destruct segs as [|x segs]; [reflexivity|].
  assert (strings.Join (x :: segs) "/" <> "") as Hj.
  { intros Hj. apply Join_eq_nil in Hj; [discriminate|].
    apply Forall_impl with (2 := Hsegs). intros s Hs.
    now apply crumbSeg_facts in Hs. }
  apply String.eqb_neq in Hj. rewrite Hj.
  rewrite Split_Join;
    [|discriminate
     |apply Forall_impl with (2 := Hsegs); intros s Hs;
      now apply crumbSeg_facts in Hs].
  change (@EmptyString, @nil crumb.t) with (strings.Join [] "/", @nil crumb.t).
  now rewrite crumbStep_fold by (assumption || constructor).
Qed.

Lemma crumbsOf_length (pre segs : list string) :
  List.length (crumbsOf pre segs) = List.length segs.
Proof.
  revert pre; induction segs as [|s segs IH]; intros pre; simpl; congruence.
Qed.

Lemma crumbsOf_nth (pre segs : list string) (i : nat) (s : string) :
  nth_error segs i = Some s ->
  nth_error (crumbsOf pre segs) i
  = Some (crumb.mk s (listingURL
                        (strings.Join (pre ++ firstn (S i) segs) "/"))).
Proof.
  revert pre i; induction segs as [|x segs IH]; intros pre i Hi.
  - destruct i; discriminate.
  - destruct i as [|i]; simpl in Hi.
    + injection Hi as ->. reflexivity.
    + simpl crumbsOf. simpl nth_error. rewrite (IH _ _ Hi).
      rewrite <- app_assoc. reflexivity.
Qed.

(** C5.  The empty relative path has no breadcrumbs.  A relative path that
    joins [n] segments, none of them empty or [.], with the separator has
    exactly [n] breadcrumbs; the [i]-th one is named after the [i]-th
    segment and its URL is the listing URL whose [path] parameter is the
    first [i] segments joined with the separator. *)
Theorem breadcrumbs_of_segments (segs : list string)
        (Hsegs : Forall (fun s => crumbSeg s = true) segs) :
  crumbsFor "" = []
  /\ List.length (crumbsFor (strings.Join segs "/")) = List.length segs
  /\ forall i s,
      nth_error segs i = Some s ->
      exists c,
        nth_error (crumbsFor (strings.Join segs "/")) i = Some c
        /\ crumb.Name c = s
        /\ crumb.URL c = listingURL (strings.Join (firstn (S i) segs) "/")
        /\ url.Get (url.Query (crumb.URL c)) "path"
           = strings.Join (firstn (S i) segs) "/".
Proof.
  split; [reflexivity|]. rewrite crumbsFor_Join by assumption.
  split; [apply crumbsOf_length|]. intros i s Hi.
  eexists. split; [apply crumbsOf_nth, Hi|]. simpl.
  repeat split. now rewrite Query_listingURL.
Qed.

Lemma breadcrumbs_of_segments_witness :
  crumbsFor "a/b/c"
  = [crumb.mk "a" (listingURL "a"); crumb.mk "b" (listingURL "a/b");
     crumb.mk "c" (listingURL "a/b/c")]
  /\ List.length (crumbsFor (strings.Join ["a"; "b"; "c"] "/")) = 3
  /\ exists c,
      nth_error (crumbsFor (strings.Join ["a"; "b"; "c"] "/")) 1 = Some c
      /\ crumb.Name c = "b"
      /\ crumb.URL c = listingURL (strings.Join (firstn 2 ["a"; "b"; "c"]) "/")
      /\ url.Get (url.Query (crumb.URL c)) "path"
         = strings.Join (firstn 2 ["a"; "b"; "c"]) "/".
Proof.
  assert (Forall (fun s => crumbSeg s = true) ["a"; "b"; "c"]) as Hsegs
      by (repeat constructor).
  destruct (breadcrumbs_of_segments ["a"; "b"; "c"] Hsegs) as [_ [Hlen Hnth]].
  split; [vm_compute; reflexivity|]. split; [exact Hlen|].
  exact (Hnth 1 "b" eq_refl).
Defined.

(** The breadcrumbs of [a/b/c]: the names, the URLs, and the [path]
    parameters the URLs carry. *)
Example breadcrumbs_abc :
  map crumb.Name (crumbsFor "a/b/c") = ["a"; "b"; "c"]
  /\ map crumb.URL (crumbsFor "a/b/c")
     = ["/?path=a"; "/?path=a%2Fb"; "/?path=a%2Fb%2Fc"]
  /\ map (fun c => url.Get (url.Query (crumb.URL c)) "path") (crumbsFor "a/b/c")
     = ["a"; "a/b"; "a/b/c"].
Proof. vm_compute. repeat split; reflexivity. Qed.

(* ===================================================================== *)
(** * Paths made of real elements only *)
(* ===================================================================== *)

Lemma render_valid (elems : list string) :
  elems <> [] -> Forall (fun e => os.validName e = true) elems ->
  WfState false (0, rev elems)
  /\ renderElems false (0, rev elems) = strings.Join elems "/".
Proof.
  intros Hne Hall. split.
  - split; simpl; [now apply Forall_rev | discriminate].
  - unfold renderElems, elemsOf. simpl. rewrite rev_involutive.
    assert (strings.Join elems "/" <> "") as Hj.
    { intros Hj. apply Join_eq_nil in Hj; [contradiction|].
      apply Forall_impl with (2 := Hall). intros e He.
      now apply validName_facts in He. }
    apply String.eqb_neq in Hj. now rewrite Hj.
Qed.

(** A path of real elements is clean, relative, and has no [..]. *)
Lemma Clean_valid (elems : list string) :
  elems <> [] -> Forall (fun e => os.validName e = true) elems ->
  filepath.Clean (strings.Join elems "/") = strings.Join elems "/"
  /\ filepath.IsAbs (strings.Join elems "/") = false
  /\ ~ In ".." (strings.Split (strings.Join elems "/") "/").
Proof.
  intros Hne Hall. destruct (render_valid elems Hne Hall) as [Hwf Hr].
  rewrite <- Hr. rewrite Clean_cleanElems, cleanElems_render by assumption.
  rewrite IsAbs_render by assumption. repeat split.
  rewrite Hr, Split_Join;
    [|assumption
     |apply Forall_impl with (2 := Hall); intros e He;
      now apply validName_facts in He].
  intros Hin. rewrite Forall_forall in Hall. apply Hall in Hin. discriminate.
Qed.

(** A cleaned path that is relative and has no [..] element is [.] or a
    path of real elements. *)
Lemma Clean_plain (path : string) :
  filepath.IsAbs (filepath.Clean path) = false ->
  ~ In ".." (strings.Split (filepath.Clean path) "/") ->
  filepath.Clean path = "."
  \/ exists elems,
      elems <> [] /\ Forall (fun e => os.validName e = true) elems
      /\ filepath.Clean path = strings.Join elems "/".
Proof.
  destruct (Clean_shape path) as [[dd stack] [Hwf ->]].
  rewrite IsAbs_render by assumption. intros -> Hdd.
  destruct Hwf as [Hall _]. simpl in Hall.
  pose proof (elemsOf_noSep (dd, stack) Hall) as Hns.
  pose proof (elemsOf_nonempty dd stack Hall) as Hne.
  unfold renderElems in *.
  destruct (String.eqb_spec (strings.Join (elemsOf (dd, stack)) "/") "")
    as [Hj|Hj]; [now left|]. right.
  assert (elemsOf (dd, stack) <> []) as Hnil
      by (intros E; rewrite E in Hj; now apply Hj).
  rewrite Split_Join in Hdd by assumption.
  destruct dd as [|dd]; [|exfalso; apply Hdd; now left].
  exists (rev stack). unfold elemsOf in *. simpl in *.
  repeat split; [assumption | now apply Forall_rev].
Qed.

Lemma Join_onto_plain (rel name : string) :
  os.validName name = true ->
  rel = ""
  \/ (exists elems,
         elems <> [] /\ Forall (fun e => os.validName e = true) elems
         /\ rel = strings.Join elems "/") ->
  filepath.Join [rel; name]
  = (if String.eqb rel "" then name else rel ++ String "/" name)
  /\ filepath.IsAbs (filepath.Join [rel; name]) = false
  /\ ~ In ".." (strings.Split (filepath.Join [rel; name]) "/").
Proof.
  intros Hname [->|[elems [Hne [Hall ->]]]].
  - assert (filepath.Join [""; name] = filepath.Clean (strings.Join [name] "/"))
      as ->.
    { pose proof Hname as Hn. apply validName_facts in Hn as [Hn _].
      apply String.eqb_neq in Hn. unfold filepath.Join. simpl.
      now rewrite Hn. }
    destruct (Clean_valid [name]) as [-> [Habs Hdd]];
      [discriminate | now constructor|].
    now repeat split.
  - assert (strings.Join elems "/" <> "") as Hj.
    { intros Hj. apply Join_eq_nil in Hj; [contradiction|].
      apply Forall_impl with (2 := Hall). intros e He.
      now apply validName_facts in He. }
    rewrite Join_two_nonempty by assumption.
    apply String.eqb_neq in Hj. rewrite Hj.
    assert (strings.Join elems "/" ++ String "/" name
            = strings.Join (elems ++ [name]) "/") as ->.
    { rewrite Join_snoc. destruct elems; [contradiction|reflexivity]. }
    destruct (Clean_valid (elems ++ [name])) as [-> [Habs Hdd]].
    + intros E. apply app_eq_nil in E as [_ E]. discriminate.
    + apply Forall_app. split; [assumption | now constructor].
    + now repeat split.
Qed.

(* ===================================================================== *)
(** * Cleaning a path again under the root *)
(* ===================================================================== *)

Lemma Split_append (a b : string) :
  strings.Split (a ++ String "/" b) "/"
  = (strings.Split a "/" ++ strings.Split b "/")%list.
Proof.
  induction a as [|c a IH]; [reflexivity|]. simpl.
  destruct (Ascii.eqb c "/"); rewrite IH; [reflexivity|].
  pose proof (Split_not_nil a) as Hne.
  destruct (strings.Split a "/"); [contradiction | reflexivity].
Qed.

Lemma IsAbs_append (a b : string) :
  a <> "" -> filepath.IsAbs (a ++ b) = filepath.IsAbs a.
Proof. destruct a; [contradiction | reflexivity]. Qed.

(** [Clean] of a path under [root] reads the elements of [root] and then
    those of the path. *)
Lemma Clean_under (root b : string) :
  root <> "" ->
  filepath.Clean (root ++ String "/" b)
  = renderElems (filepath.IsAbs root)
      (fold_left (elemStep (filepath.IsAbs root)) (strings.Split b "/")
         (fold_left (elemStep (filepath.IsAbs root))
                    (strings.Split root "/") (0, []))).
Proof.
  intros Hroot. rewrite Clean_cleanElems. unfold cleanElems.
  now rewrite IsAbs_append, Split_append, fold_left_app.
Qed.

Lemma elemStep_skip (rooted : bool) (st : nat * list string) :
  elemStep rooted st "" = st /\ elemStep rooted st "." = st.
Proof. destruct st. split; reflexivity. Qed.

Lemma fold_skip_sep (rooted : bool) (b : string) (st : nat * list string) :
  fold_left (elemStep rooted) (strings.Split ("/" ++ b) "/") st
  = fold_left (elemStep rooted) (strings.Split b "/") st.
Proof.
  change (strings.Split ("/" ++ b) "/") with ("" :: strings.Split b "/").
  cbn [fold_left]. now rewrite (proj1 (elemStep_skip rooted st)).
Qed.

Lemma fold_dot (rooted : bool) (st : nat * list string) :
  fold_left (elemStep rooted) (strings.Split "." "/") st
  = fold_left (elemStep rooted) (strings.Split "" "/") st.
Proof.
  change (strings.Split "." "/") with ["."].
  change (strings.Split "" "/") with [""].
  cbn [fold_left]. destruct (elemStep_skip rooted st) as [-> ->]. reflexivity.
Qed.

Lemma TrimPrefix_relative (s : string) :
  filepath.IsAbs s = false -> strings.TrimPrefix s "/" = s.
Proof. unfold strings.TrimPrefix, filepath.IsAbs. now intros ->. Qed.

(** The listing of a cleaned relative path reads the directory the path
    names under the root: cleaning it once more, and taking [.] for the
    root, does not change the candidate path. *)
Lemma Join_cleanRel_again (root path : string) :
  root <> "" ->
  let rel := cleanRel path in
  let rel' := cleanRel rel in
  filepath.Join [root; if String.eqb rel' "." then "" else rel']
  = filepath.Join [root; rel].
Proof.
  intros Hroot rel rel'. subst rel rel'. unfold cleanRel.
  set (p := strings.TrimPrefix path "/").
  destruct (Clean_shape p) as [st [Hwf Hshape]].
  pose proof Hwf as [Hall Hzero].
  pose proof (IsAbs_Clean p) as Habs.
  destruct (filepath.IsAbs p) eqn:Hp.
  - (* the cleaned path begins with the separator *)
    rewrite Hshape. unfold renderElems.
    change (strings.TrimPrefix ("/" ++ ?b) "/") with b.
    destruct (elemsOf st) as [|x l] eqn:Hel.
    + change (strings.Join [] "/") with "".
      change (filepath.Clean "") with ".".
      change (String.eqb "." ".") with true. cbv iota.
      rewrite !Join_two_nonempty, !Clean_under by assumption.
      now rewrite fold_skip_sep.
    + assert (x :: l = rev (snd st)) as Hrev.
      { rewrite <- Hel. unfold elemsOf. rewrite Hzero by reflexivity.
        reflexivity. }
      destruct (Clean_valid (x :: l)) as [Hc [_ _]];
        [discriminate | rewrite Hrev; now apply Forall_rev|].
      rewrite Hc.
      assert (strings.Join (x :: l) "/" <> ".") as Hdot.
      { intros E. pose proof (f_equal (fun s => strings.Split s "/") E) as E'.
        cbv beta in E'. rewrite Split_Join in E';
          [|discriminate|rewrite <- Hel; now apply elemsOf_noSep].
        change (strings.Split "." "/") with ["."] in E'.
        injection E' as -> _.
        rewrite Hrev in Hel. pose proof (Forall_rev Hall) as Hall'.
        rewrite <- Hrev in Hall'. apply Forall_inv in Hall'. discriminate. }
      apply String.eqb_neq in Hdot. rewrite Hdot.
      rewrite !Join_two_nonempty, !Clean_under by assumption.
      now rewrite fold_skip_sep.
  - (* the cleaned path is relative *)
    rewrite TrimPrefix_relative by assumption.
    rewrite Clean_idempotent.
    destruct (String.eqb_spec (filepath.Clean p) ".") as [->|]; [|reflexivity].
    rewrite !Join_two_nonempty, !Clean_under by assumption.
    now rewrite fold_dot.
Qed.

(* ===================================================================== *)
(** * [sort.Slice] rearranges its input *)
(* ===================================================================== *)

Section SortFacts.
Context {A : Type} (less : A -> A -> bool).

Lemma swapAt_perm (k : nat) (data : list A) :
  Permutation (sort.swapAt k data) data.
Proof.
  revert k; induction data as [|a l IH]; intros k; simpl; auto.
  destruct l as [|b t]; auto.
  destruct k as [|k]; [apply perm_swap | apply perm_skip, IH].
Qed.

Lemma swapPrev_perm (j : nat) (data : list A) :
  Permutation (sort.swapPrev j data) data.
Proof. destruct j; simpl; [auto | apply swapAt_perm]. Qed.

Lemma insertionStep_perm (j : nat) (data : list A) :
  Permutation (sort.insertionStep less j data) data.
Proof.
  revert data; induction j as [|j IH]; intros data;
    cbn [sort.insertionStep]; auto.
  destruct (nth_error data (S j)) as [x|]; auto.
  destruct (nth_error data j) as [y|]; auto.
  destruct (less x y); auto.
  etransitivity; [apply IH | apply swapPrev_perm].
Qed.

Lemma Slice_perm (data : list A) : Permutation (sort.Slice less data) data.
Proof.
  unfold sort.Slice, sort.insertionSort.
  generalize (seq 1 (List.length data - 1)). intros idx.
  revert data; induction idx as [|i idx IH]; intros data; simpl; auto.
  etransitivity; [apply IH | apply insertionStep_perm].
Qed.

End SortFacts.

(* ===================================================================== *)
(** * The listing loop *)
(* ===================================================================== *)

Lemma rowStep_fold (rel q : string) (entries : list os.DirEntry.t)
      (acc : list fileRow.t) :
  fold_left (rowStep rel q) entries acc = (acc ++ listedRows rel q entries)%list.
Proof.
  revert acc; induction entries as [|e entries IH]; intros acc; simpl.
  - now rewrite app_nil_r.
  - rewrite IH. unfold rowStep. destruct (os.DirEntry.Info e) as [info|err]; simpl.
    + destruct (keeps q (os.DirEntry.Name e)); simpl; [|reflexivity].
      now rewrite <- app_assoc.
    + reflexivity.
Qed.

Lemma pick_sort (v : string) :
  pick v ["name"; "size"; "mod"] = Some (sortKeyOf v).
Proof.
  unfold pick, sortKeyOf. simpl.
  destruct (String.eqb_spec (strings.ToLower v) "name") as [->|]; [reflexivity|].
  destruct (String.eqb_spec (strings.ToLower v) "size") as [->|]; [reflexivity|].
  destruct (String.eqb_spec (strings.ToLower v) "mod") as [->|]; reflexivity.
Qed.

Lemma pick_order (v : string) :
  pick v ["asc"; "desc"] = Some (sortOrderOf v).
Proof.
  unfold pick, sortOrderOf. simpl.
  destruct (String.eqb_spec (strings.ToLower v) "asc") as [->|]; [reflexivity|].
  destruct (String.eqb_spec (strings.ToLower v) "desc") as [->|]; reflexivity.
Qed.

(** [listHandler] in terms of [resolve]: the bad-request answer is the
    rejection, and the file system is asked about the resolved path only. *)
Lemma listHandler_resolve (fs : os.FS) (rootDir : string) (query : url.Values) :
  listHandler fs rootDir query =
  let q := strings.TrimSpace (url.Get query "q") in
  let sortBy := sortKeyOf (url.Get query "sort") in
  let order := sortOrderOf (url.Get query "order") in
  let rel := cleanRel (url.Get query "path") in
  let rel := if String.eqb rel "." then "" else rel in
  match resolve (os.Getwd fs) rootDir (url.Get query "path") with
  | None => http.Error "invalid path" http.StatusBadRequest
  | Some abs =>
      match os.ReadDir fs abs with
      | os.err e => http.Error (os.Error e) http.StatusInternalServerError
      | os.ok entries =>
          http.ExecuteTemplate "index.html"
            (pageData.mk (sort.Slice (rowLess sortBy order) (listedRows rel q entries))
                         rel q sortBy order (crumbsFor rel))
      end
  end.
Proof.
  unfold listHandler, resolve. rewrite pick_sort, pick_order. cbv zeta.
  destruct (negb (isWithin _ _ _)); [reflexivity|].
  destruct (os.ReadDir fs _); [|reflexivity].
  now rewrite rowStep_fold.
Qed.

Lemma resolve_isWithin (wd : option string) (rootDir path abs : string) :
  resolve wd rootDir path = Some abs -> isWithin wd abs rootDir = true.
Proof.
  unfold resolve.
  destruct (isWithin wd _ rootDir) eqn:Hin; cbn [negb]; cbv iota;
    [|discriminate].
  intros [= <-]. exact Hin.
Qed.


Lemma In_listedRows (rel q : string) (entries : list os.DirEntry.t)
      (row : fileRow.t) :
  In row (listedRows rel q entries)
  <-> exists e info,
      In e entries /\ os.DirEntry.Info e = os.ok info
      /\ keeps q (os.DirEntry.Name e) = true /\ row = rowOf rel e info.
Proof.
  unfold listedRows. rewrite in_flat_map. split.
  - intros [e [He Hrow]]. destruct (os.DirEntry.Info e) as [info|] eqn:Hinfo;
      [|contradiction].
    destruct (keeps q (os.DirEntry.Name e)) eqn:Hk; [|contradiction].
    destruct Hrow as [<-|[]]. now exists e, info.
  - intros [e [info [He [Hinfo [Hk ->]]]]]. exists e. split; [assumption|].
    rewrite Hinfo, Hk. now left.
Qed.



(** ** White space around a string of ASCII bytes *)















(* ===================================================================== *)
(** * Filtering (C4) *)
(* ===================================================================== *)


(** The query ["RE"] keeps ["Readme.txt"] and ["score.csv"] and drops
    ["docs"], in the loop and in the page the handler produces. *)
Example filter_RE :
  map (keeps "RE") ["Readme.txt"; "score.csv"; "docs"] = [true; true; false]
  /\ match listHandler demo.fs demo.rootDir [("path", ["names"]); ("q", ["RE"])] with
     | http.ExecuteTemplate _ data =>
         map fileRow.Name (pageData.Rows data) = ["Readme.txt"; "score.csv"]
     | _ => False
     end.
Proof. vm_compute. split; reflexivity. Qed.



(* ===================================================================== *)
(** * Entries whose metadata cannot be read (C7) *)
(* ===================================================================== *)



(** The listing of a directory with a vanished entry shows the two others. *)
Example listing_partial :
  match listHandler demo.fs demo.rootDir [("path", ["partial"])] with
  | http.ExecuteTemplate _ data =>
      map fileRow.Name (pageData.Rows data) = ["first"; "second"]
  | _ => False
  end.
Proof. vm_compute. reflexivity. Qed.

(* ===================================================================== *)
(** * Failure of the directory read (C3) *)
(* ===================================================================== *)

(** C3, as the program has it.  Whatever the reason the directory cannot be
    read -- it does not exist, it is not a directory, permission is denied or
    the read fails -- the listing answers with the one status
    [StatusInternalServerError], the text of the error as the body. *)
Theorem listing_read_failure_is_server_error
        (fs : os.FS) (rootDir : string) (query : url.Values)
        (abs : string) (e : os.PathError.t)
        (Hres : resolve (os.Getwd fs) rootDir (url.Get query "path") = Some abs)
        (Hdir : os.ReadDir fs abs = os.err e) :
  listHandler fs rootDir query
  = http.Error (os.Error e) http.StatusInternalServerError.
Proof. rewrite listHandler_resolve. cbv zeta. now rewrite Hres, Hdir. Qed.

Lemma listing_read_failure_is_server_error_witness :
  listHandler demo.fs demo.rootDir [("path", ["locked"])]
  = http.Error (os.Error (os.PathError.mk "open" "/data/locked" os.EACCES))
               http.StatusInternalServerError.
Proof.
  apply (listing_read_failure_is_server_error demo.fs demo.rootDir
           [("path", ["locked"])] "/data/locked").
  - vm_compute. reflexivity.
  - vm_compute. reflexivity.
Defined.

(** A directory that does not exist and a path that names a file are
    answered with status 500, the status of a directory that may not be
    read, and not with [StatusNotFound]. *)
Lemma listing_missing_directory_is_not_notfound :
  os.ReadDir demo.fs "/data/missing"
  = os.err (os.PathError.mk "open" "/data/missing" os.ENOENT)
  /\ listHandler demo.fs demo.rootDir [("path", ["missing"])]
     = http.Error "open /data/missing: no such file or directory" 500
  /\ listHandler demo.fs demo.rootDir [("path", ["names/score.csv"])]
     = http.Error "open /data/names/score.csv: not a directory" 500
  /\ http.status (listHandler demo.fs demo.rootDir [("path", ["missing"])])
     = http.status (listHandler demo.fs demo.rootDir [("path", ["locked"])])
  /\ http.status (listHandler demo.fs demo.rootDir [("path", ["missing"])])
     <> Some http.StatusNotFound.
Proof. vm_compute. repeat split; discriminate. Qed.

(* ===================================================================== *)
(** * Sort key and order parameters (C8, C10) *)
(* ===================================================================== *)








(** The page echoes the lower-cased parameters. *)
Example echo_lowered :
  match listHandler demo.fs demo.rootDir
          [("path", ["sizes"]); ("sort", ["Size"]); ("order", ["DESC"])] with
  | http.ExecuteTemplate _ data =>
      pageData.Sort data = "size" /\ pageData.Order data = "desc"
  | _ => False
  end.
Proof. vm_compute. split; reflexivity. Qed.

(* ===================================================================== *)
(** * Directories and descending order (C2) *)
(* ===================================================================== *)

(** Under the keys [name] and [size] with the order [desc] the comparison
    puts a file before a directory, and never a directory before a file. *)
Lemma rowLess_desc_file_before_directory (sortBy : string) (d f : fileRow.t) :
  String.eqb sortBy "mod" = false ->
  fileRow.IsDir d = true -> fileRow.IsDir f = false ->
  rowLess sortBy "desc" f d = true /\ rowLess sortBy "desc" d f = false.
Proof.
  intros Hk Hd Hf. unfold rowLess. rewrite Hk, Hd, Hf. simpl.
  destruct (String.eqb sortBy "size"); split; reflexivity.
Qed.

(** With the order [asc] the directory is first. *)
Lemma rowLess_asc_directory_before_file (sortBy : string) (d f : fileRow.t) :
  String.eqb sortBy "mod" = false ->
  fileRow.IsDir d = true -> fileRow.IsDir f = false ->
  rowLess sortBy "asc" d f = true /\ rowLess sortBy "asc" f d = false.
Proof.
  intros Hk Hd Hf. unfold rowLess. rewrite Hk, Hd, Hf. simpl.
  destruct (String.eqb sortBy "size"); split; reflexivity.
Qed.

(** A directory and a file, in either order, come out of the descending
    sort with the file first. *)
Lemma Slice_desc_pair (sortBy : string) (d f : fileRow.t) :
  String.eqb sortBy "mod" = false ->
  fileRow.IsDir d = true -> fileRow.IsDir f = false ->
  sort.Slice (rowLess sortBy "desc") [d; f] = [f; d]
  /\ sort.Slice (rowLess sortBy "desc") [f; d] = [f; d].
Proof.
  intros Hk Hd Hf.
  destruct (rowLess_desc_file_before_directory sortBy d f Hk Hd Hf) as [H1 H2].
  unfold sort.Slice, sort.insertionSort. simpl. now rewrite H1, H2.
Qed.

(** C2, on the program.  The rows [dirA] (a directory, size 100), [fileB]
    (size 1) and [fileZ] (size 50), sorted by [size] in the order [desc],
    come out as [fileZ], [fileB], [dirA]: the negation that descending order
    applies to the comparison takes the directory-first rule with it. *)
Theorem size_desc_puts_directory_last :
  let dirA := fileRow.mk "dirA" "sizes/dirA" true 100 41 in
  let fileB := fileRow.mk "fileB" "sizes/fileB" false 1 42 in
  let fileZ := fileRow.mk "fileZ" "sizes/fileZ" false 50 43 in
  sort.Slice (rowLess "size" "desc") [dirA; fileB; fileZ] = [fileZ; fileB; dirA]
  /\ sort.Slice (rowLess "size" "asc") [dirA; fileB; fileZ] = [dirA; fileB; fileZ]
  /\ match listHandler demo.fs demo.rootDir
             [("path", ["sizes"]); ("sort", ["size"]); ("order", ["desc"])] with
     | http.ExecuteTemplate _ data => pageData.Rows data = [fileZ; fileB; dirA]
     | _ => False
     end.
Proof. vm_compute. repeat split; reflexivity. Qed.

(* ===================================================================== *)
(** * The relative paths of the rows (C9) *)
(* ===================================================================== *)

Lemma demo_names_valid : os.NamesValid demo.fs.
Proof.
  intros name entries.
  change (os.ReadDir demo.fs name) with (demo.readDir name).
  unfold demo.readDir, demo.tree. cbn [demo.lookup].
  repeat (match goal with
          | |- context [String.eqb ?k name] => destruct (String.eqb k name)
          end; try discriminate;
          try (intros [= <-]; repeat constructor)).
Qed.

(** C9, as the program has it.  The relative path of every row of a listing
    is the relative path of the listed directory joined with the name of
    the entry.  When the relative path of the listed directory does not
    begin with the separator and has no [..] element, the relative path of
    the row is that path, the separator and the name (the name alone at the
    root), does not begin with the separator and has no [..] element. *)
Theorem row_paths_extend_listed_path
        (fs : os.FS) (rootDir : string) (query : url.Values)
        (t : string) (data : pageData.t) (row : fileRow.t)
        (Hfs : os.NamesValid fs)
        (Hpage : listHandler fs rootDir query = http.ExecuteTemplate t data)
        (Hrow : In row (pageData.Rows data)) :
  fileRow.RelPath row
  = filepath.ToSlash (filepath.Join [pageData.Path data; fileRow.Name row])
  /\ (filepath.IsAbs (pageData.Path data) = false ->
      ~ In ".." (strings.Split (pageData.Path data) "/") ->
      fileRow.RelPath row
      = (if String.eqb (pageData.Path data) "" then fileRow.Name row
         else pageData.Path data ++ String "/" (fileRow.Name row))
      /\ filepath.IsAbs (fileRow.RelPath row) = false
      /\ ~ In ".." (strings.Split (fileRow.RelPath row) "/")).
Proof.
  rewrite listHandler_resolve in Hpage. cbv zeta in Hpage.
  destruct (resolve _ _ _) as [abs|]; [|discriminate].
  destruct (os.ReadDir fs abs) as [entries|] eqn:Hdir; [|discriminate].
  injection Hpage as _ <-. cbn [pageData.Rows pageData.Path] in *.
  eapply Permutation_in in Hrow; [|apply Slice_perm].
  apply In_listedRows in Hrow as [e [info [He [_ [_ ->]]]]].
  cbn [rowOf fileRow.RelPath fileRow.Name]. split; [reflexivity|].
  assert (os.validName (os.DirEntry.Name e) = true) as Hname.
  { pose proof (Hfs abs entries Hdir) as Hall.
    rewrite Forall_forall in Hall. now apply Hall. }
  unfold cleanRel, filepath.ToSlash.
  set (p := strings.TrimPrefix (url.Get query "path") "/").
  intros Habs Hdd. apply Join_onto_plain; [assumption|].
  destruct (String.eqb_spec (filepath.Clean p) ".") as [Hdot|Hdot];
    [now left|]. right.
  destruct (Clean_plain p Habs Hdd) as [?|?]; [contradiction | assumption].
Qed.

Lemma row_paths_extend_listed_path_witness :
  let row := fileRow.mk "dirA" "sizes/dirA" true 100 41 in
  fileRow.RelPath row = filepath.ToSlash (filepath.Join ["sizes"; "dirA"])
  /\ (filepath.IsAbs "sizes" = false ->
      ~ In ".." (strings.Split "sizes" "/") ->
      fileRow.RelPath row = "sizes/dirA"
      /\ filepath.IsAbs (fileRow.RelPath row) = false
      /\ ~ In ".." (strings.Split (fileRow.RelPath row) "/")).
Proof.
  apply (row_paths_extend_listed_path demo.fs demo.rootDir
           [("path", ["sizes"])] "index.html"
           (pageData.mk
              [fileRow.mk "dirA" "sizes/dirA" true 100 41;
               fileRow.mk "fileB" "sizes/fileB" false 1 42;
               fileRow.mk "fileZ" "sizes/fileZ" false 50 43]
              "sizes" "" "name" "asc" [crumb.mk "sizes" "/?path=sizes"])
           (fileRow.mk "dirA" "sizes/dirA" true 100 41)).
  - exact demo_names_valid.
  - vm_compute. reflexivity.
  - simpl. now left.
Defined.

(** Two listings that pass the containment test and whose rows have a
    relative path with a [..] element, or one that begins with the
    separator: the path [../data/sizes] under the root [/data], and the
    path [//sizes/dirA]. *)
Lemma row_paths_with_dotdot_and_leading_separator :
  resolve (os.Getwd demo.fs) demo.rootDir "../data/sizes" = Some "/data/sizes"
  /\ match listHandler demo.fs demo.rootDir [("path", ["../data/sizes"])] with
     | http.ExecuteTemplate _ data =>
         map fileRow.RelPath (pageData.Rows data)
         = ["../data/sizes/dirA"; "../data/sizes/fileB"; "../data/sizes/fileZ"]
     | _ => False
     end
  /\ In ".." (strings.Split "../data/sizes/dirA" "/")
  /\ resolve (os.Getwd demo.fs) demo.rootDir "//sizes/dirA"
     = Some "/data/sizes/dirA"
  /\ match listHandler demo.fs demo.rootDir [("path", ["//sizes/dirA"])] with
     | http.ExecuteTemplate _ data =>
         map fileRow.RelPath (pageData.Rows data) = ["/sizes/dirA/inner.txt"]
     | _ => False
     end
  /\ strings.HasPrefix "/sizes/dirA/inner.txt" "/" = true.
Proof. vm_compute. repeat split; try reflexivity. now left. Qed.

(* ===================================================================== *)
(** * Download of a directory (C6) *)
(* ===================================================================== *)

(** C6.  When the path of a download request passes the containment test
    and names a directory, the answer streams no file: it is the redirect,
    with the status [StatusSeeOther], to the listing URL whose [path]
    parameter is the relative path of the request; and under a root that is
    set the listing of that parameter reads the directory the download
    request named. *)
Theorem download_of_directory_redirects
        (fs : os.FS) (rootDir : string) (query : url.Values)
        (info : os.FileInfo.t)
        (Hin : isWithin (os.Getwd fs)
                 (filepath.Join [rootDir; cleanRel (url.Get query "path")])
                 rootDir = true)
        (Hstat : os.Stat fs
                   (filepath.Join [rootDir; cleanRel (url.Get query "path")])
                 = os.ok info)
        (Hdir : os.FileInfo.IsDir info = true) :
  let rel := cleanRel (url.Get query "path") in
  downloadHandler fs rootDir query
  = http.Redirect (listingURL rel) http.StatusSeeOther
  /\ url.Get (url.Query (listingURL rel)) "path" = rel
  /\ (rootDir <> "" ->
      resolve (os.Getwd fs) rootDir rel
      = Some (filepath.Join [rootDir; rel])).
Proof.
  intros rel. subst rel. split; [|split].
  - unfold downloadHandler. now rewrite Hin, Hstat, Hdir.
  - now rewrite Query_listingURL.
  - intros Hroot. unfold resolve, candidate.
    rewrite (Join_cleanRel_again rootDir (url.Get query "path") Hroot).
    now rewrite Hin.
Qed.

Lemma download_of_directory_redirects_witness :
  downloadHandler demo.fs demo.rootDir [("path", ["sizes/dirA/"])]
  = http.Redirect "/?path=sizes%2FdirA" http.StatusSeeOther
  /\ url.Get (url.Query "/?path=sizes%2FdirA") "path" = "sizes/dirA"
  /\ (demo.rootDir <> "" ->
      resolve (os.Getwd demo.fs) demo.rootDir "sizes/dirA"
      = Some "/data/sizes/dirA").
Proof.
  apply (download_of_directory_redirects demo.fs demo.rootDir
           [("path", ["sizes/dirA/"])] (os.FileInfo.mk 4096 0 true)).
  - vm_compute. reflexivity.
  - vm_compute. reflexivity.
  - reflexivity.
Defined.

(** A file is streamed, a path that names nothing is not found, and the
    root itself is a directory like any other. *)
Example download_examples :
  downloadHandler demo.fs demo.rootDir [("path", ["sizes/fileB"])]
  = http.ServeFile "fileB" "/data/sizes/fileB"
  /\ downloadHandler demo.fs demo.rootDir [("path", ["sizes/none"])]
     = http.NotFound
  /\ downloadHandler demo.fs demo.rootDir [("path", [""])]
     = http.Redirect "/?path=." http.StatusSeeOther
  /\ downloadHandler demo.fs demo.rootDir [("path", ["../data2"])]
     = http.Error "invalid path" http.StatusBadRequest.
Proof. vm_compute. repeat split; reflexivity. Qed.

(* ===================================================================== *)
(** * The handlers read inside the root only (X1, X2) *)
(* ===================================================================== *)

Lemma outsideFS_same_inside :
  os.Getwd demo.fs = os.Getwd outsideFS
  /\ (forall p, isWithin (os.Getwd demo.fs) p demo.rootDir = true ->
                os.ReadDir demo.fs p = os.ReadDir outsideFS p)
  /\ (forall p, isWithin (os.Getwd demo.fs) p demo.rootDir = true ->
                os.Stat demo.fs p = os.Stat outsideFS p).
Proof.
  split; [reflexivity|]. split; intros p Hin; simpl.
  - destruct (String.eqb_spec p "/etc") as [->|]; [|reflexivity].
    vm_compute in Hin. discriminate.
  - destruct (String.eqb_spec p "/etc/passwd") as [->|]; [|reflexivity].
    vm_compute in Hin. discriminate.
Qed.

(** X1.  The response of the listing depends on the file system inside
    the root only: on two file systems with the same working directory and
    the same [ReadDir] for every path that passes the containment test, the
    handler answers alike, whatever the request. *)
Theorem listing_never_reads_outside_root
        (fs1 fs2 : os.FS) (rootDir : string) (query : url.Values)
        (Hwd : os.Getwd fs1 = os.Getwd fs2)
        (Hsame : forall p, isWithin (os.Getwd fs1) p rootDir = true ->
                           os.ReadDir fs1 p = os.ReadDir fs2 p) :
  listHandler fs1 rootDir query = listHandler fs2 rootDir query.
Proof.
  rewrite !listHandler_resolve. cbv zeta. rewrite <- Hwd.
  destruct (resolve (os.Getwd fs1) rootDir (url.Get query "path"))
    as [abs|] eqn:Hres; [|reflexivity].
  now rewrite (Hsame abs (resolve_isWithin _ _ _ _ Hres)).
Qed.

Lemma listing_never_reads_outside_root_witness :
  listHandler demo.fs demo.rootDir [("path", ["../etc"])]
  = listHandler outsideFS demo.rootDir [("path", ["../etc"])].
Proof.
  apply (listing_never_reads_outside_root demo.fs outsideFS demo.rootDir
           [("path", ["../etc"])]).
  - reflexivity.
  - exact (proj1 (proj2 outsideFS_same_inside)).
Defined.

(** X2.  The same for the download: on two file systems with the same
    working directory and the same [Stat] for every path that passes the
    containment test, the handler answers alike. *)
Theorem download_never_reads_outside_root
        (fs1 fs2 : os.FS) (rootDir : string) (query : url.Values)
        (Hwd : os.Getwd fs1 = os.Getwd fs2)
        (Hsame : forall p, isWithin (os.Getwd fs1) p rootDir = true ->
                           os.Stat fs1 p = os.Stat fs2 p) :
  downloadHandler fs1 rootDir query = downloadHandler fs2 rootDir query.
Proof.
  unfold downloadHandler. rewrite <- Hwd.
  destruct (isWithin (os.Getwd fs1) _ rootDir) eqn:Hin; cbn [negb]; cbv iota;
    [|reflexivity].
  now rewrite (Hsame _ Hin).
Qed.

Lemma download_never_reads_outside_root_witness :
  downloadHandler demo.fs demo.rootDir [("path", ["../etc/passwd"])]
  = downloadHandler outsideFS demo.rootDir [("path", ["../etc/passwd"])].
Proof.
  apply (download_never_reads_outside_root demo.fs outsideFS demo.rootDir
           [("path", ["../etc/passwd"])]).
  - reflexivity.
  - exact (proj2 (proj2 outsideFS_same_inside)).
Defined.

(* ===================================================================== *)
(** * The containment test at its edges (X3, X4) *)
(* ===================================================================== *)

Lemma HasPrefix_cancel (r a b : string) :
  strings.HasPrefix (r ++ a) (r ++ b) = strings.HasPrefix a b.
Proof.
  induction r as [|c r IH]; [reflexivity|]. simpl.
  now rewrite Ascii.eqb_refl, IH.
Qed.

Lemma append_cancel (r a b : string) : r ++ a = r ++ b -> a = b.
Proof.
  induction r as [|c r IH]; intros H; [exact H|].
  simpl in H. injection H as H. now apply IH.
Qed.

(** The containment test on a clean absolute path under a clean absolute
    root. *)
Lemma isWithin_clean (wd : option string) (p root : string) :
  filepath.IsAbs p = true -> filepath.Clean p = p ->
  filepath.IsAbs root = true ->
  isWithin wd p root
  = strings.HasPrefix (p ++ "/") (filepath.Clean root ++ "/")
    || String.eqb p (filepath.Clean root).
Proof.
  intros Hp Hcp Hr. unfold isWithin, filepath.Abs.
  now rewrite Hp, Hr, Hcp, Hcp, Clean_idempotent.
Qed.

(** A clean absolute path does not begin with two separators. *)
Lemma clean_absolute_second_byte (p : string) :
  filepath.IsAbs p = true -> filepath.Clean p = p ->
  strings.HasPrefix (p ++ "/") "//" = String.eqb p "/".
Proof.
  intros Hp Hcp. destruct (Clean_shape p) as [st [[Hall _] Hshape]].
  rewrite Hp, Hcp in Hshape. unfold renderElems in Hshape. subst p.
  destruct (strings.Join (elemsOf st) "/") as [|c s] eqn:Hj; [reflexivity|].
  pose proof (elemsOf_first_not_sep st c s Hall Hj) as Hc.
  unfold filepath.IsPathSeparator, filepath.Separator in Hc.
  simpl. rewrite Hc. simpl.
  destruct (Ascii.eqb_spec "/" "/"); [|contradiction]. reflexivity.
Qed.

Lemma candidate_absolute (rootDir path : string) :
  filepath.IsAbs rootDir = true ->
  filepath.IsAbs (candidate rootDir path) = true
  /\ filepath.Clean (candidate rootDir path) = candidate rootDir path.
Proof.
  intros Hroot. unfold candidate.
  destruct (Abs_of_joined None rootDir
              (if String.eqb (cleanRel path) "." then "" else cleanRel path)
              Hroot) as [H1 [H2 _]].
  now split.
Qed.

(** X3.  Under a root whose clean form is the separator alone, the
    resolution yields the root itself when the candidate is the root and
    rejects every other path: the root followed by the separator is then
    two separators, which no clean path begins with. *)
Theorem root_slash_admits_only_itself
        (wd : option string) (rootDir path : string)
        (Habs : filepath.IsAbs rootDir = true)
        (Hroot : filepath.Clean rootDir = "/") :
  resolve wd rootDir path
  = if String.eqb (candidate rootDir path) "/" then Some "/" else None.
Proof.
  unfold resolve.
  destruct (candidate_absolute rootDir path Habs) as [Hp Hcp].
  rewrite (isWithin_clean wd _ rootDir Hp Hcp Habs), Hroot.
  change ("/" ++ "/") with "//".
  rewrite (clean_absolute_second_byte _ Hp Hcp), orb_diag.
  destruct (String.eqb_spec (candidate rootDir path) "/") as [->|];
    reflexivity.
Qed.

Lemma root_slash_admits_only_itself_witness :
  resolve (Some "/") "/" "etc" = None /\ resolve (Some "/") "/" "a/.." = Some "/".
Proof.
  split.
  - exact (root_slash_admits_only_itself (Some "/") "/" "etc" eq_refl eq_refl).
  - exact (root_slash_admits_only_itself (Some "/") "/" "a/.." eq_refl eq_refl).
Defined.

(** X4.  A path that extends the text of the root without a separator
    after it is outside: under a clean absolute root [r], the clean path
    [r ++ s], where [s] is not empty and does not begin with the separator,
    fails the containment test. *)
Theorem sibling_with_root_prefix_is_outside
        (wd : option string) (r s : string)
        (Habs : filepath.IsAbs r = true)
        (Hr : filepath.Clean r = r)
        (Hp : filepath.Clean (r ++ s) = r ++ s)
        (Hne : s <> "")
        (Hs : strings.HasPrefix s "/" = false) :
  isWithin wd (r ++ s) r = false.
Proof.
  rewrite isWithin_clean; [|now apply IsAbs_app|assumption|assumption].
  rewrite Hr, append_assoc, HasPrefix_cancel.
  apply orb_false_iff. split.
  - destruct s as [|c s]; [contradiction|]. simpl in *.
    now rewrite andb_true_r in *.
  - apply String.eqb_neq. intros E.
    rewrite <- (append_nil_r r) in E at 2.
    apply append_cancel in E. contradiction.
Qed.

Lemma sibling_with_root_prefix_is_outside_witness :
  isWithin (Some "/") ("/data" ++ "base") "/data" = false.
Proof.
  apply (sibling_with_root_prefix_is_outside (Some "/") "/data" "base");
    try reflexivity.
  discriminate.
Defined.

(* ===================================================================== *)
(** * The breadcrumbs of any path (X5) *)
(* ===================================================================== *)

Lemma crumbStep_passes (st : string * list crumb.t) (s : string) :
  keptSeg s = false -> crumbStep st s = st.
Proof.
  unfold keptSeg, crumbStep. rewrite negb_false_iff. intros ->.
  now destruct st.
Qed.

Lemma crumbStep_filter (l : list string) (st : string * list crumb.t) :
  fold_left crumbStep l st = fold_left crumbStep (filter keptSeg l) st.
Proof.
  revert st; induction l as [|s l IH]; intros st; [reflexivity|]. simpl.
  destruct (keptSeg s) eqn:Hs; simpl.
  - apply IH.
  - rewrite crumbStep_passes by assumption. apply IH.
Qed.

Lemma kept_segments_crumbSeg (rel : string) :
  Forall (fun s => crumbSeg s = true)
         (filter keptSeg (strings.Split rel "/")).
Proof.
  apply Forall_forall. intros s Hs. apply filter_In in Hs as [Hin Hk].
  pose proof (Split_elems_noSep rel) as Hns. rewrite Forall_forall in Hns.
  unfold crumbSeg. rewrite (Hns s Hin), andb_true_r.
  unfold keptSeg in Hk. rewrite negb_orb in Hk. now rewrite andb_comm.
Qed.

Lemma crumbsFor_kept (rel : string) :
  crumbsFor rel = crumbsOf [] (filter keptSeg (strings.Split rel "/")).
Proof.
  unfold crumbsFor, filepath.ToSlash.
  destruct (String.eqb_spec rel "") as [->|Hne]; [reflexivity|].
  rewrite crumbStep_filter.
  change (@EmptyString, @nil crumb.t) with (strings.Join [] "/", @nil crumb.t).
  rewrite crumbStep_fold; [reflexivity | constructor|].
  apply kept_segments_crumbSeg.
Qed.

Lemma crumbsOf_names (pre segs : list string) :
  map crumb.Name (crumbsOf pre segs) = segs.
Proof.
  revert pre; induction segs as [|s segs IH]; intros pre; simpl;
    [reflexivity|]. now rewrite IH.
Qed.

Lemma nth_error_crumbsOf (pre segs : list string) (i : nat) (c : crumb.t) :
  nth_error (crumbsOf pre segs) i = Some c ->
  exists s, nth_error segs i = Some s
            /\ c = crumb.mk s (listingURL
                                 (strings.Join (pre ++ firstn (S i) segs) "/")).
Proof.
  intros Hc.
  destruct (nth_error segs i) as [s|] eqn:Hs.
  - exists s. split; [reflexivity|].
    rewrite (crumbsOf_nth pre segs i s Hs) in Hc. now injection Hc as <-.
  - apply nth_error_None in Hs. rewrite <- (crumbsOf_length pre) in Hs.
    apply nth_error_None in Hs. congruence.
Qed.

(** X5.  For every relative path, the breadcrumbs are those of its
    segments that are neither empty nor [.], in their order: a leading, a
    trailing or a doubled separator and a [.] make no breadcrumb (a [..]
    makes one).  Each breadcrumb is named after its segment and the [path]
    parameter of its URL is the segments up to it joined by the
    separator. *)
Theorem breadcrumbs_of_any_path (rel : string) :
  let segs := filter keptSeg (strings.Split rel "/") in
  map crumb.Name (crumbsFor rel) = segs
  /\ forall i c,
      nth_error (crumbsFor rel) i = Some c ->
      url.Get (url.Query (crumb.URL c)) "path"
      = strings.Join (firstn (S i) segs) "/".
Proof.
  cbv zeta. rewrite crumbsFor_kept. split; [apply crumbsOf_names|].
  intros i c Hc. apply nth_error_crumbsOf in Hc as [s [_ ->]].
  simpl. now rewrite Query_listingURL.
Qed.

(** The breadcrumbs of a path with separators and dots to pass over. *)
Example breadcrumbs_passed_over :
  map crumb.Name (crumbsFor "/a//./b/../c/") = ["a"; "b"; ".."; "c"]
  /\ map (fun c => url.Get (url.Query (crumb.URL c)) "path")
         (crumbsFor "/a//./b/../c/")
     = ["a"; "a/b"; "a/b/.."; "a/b/../c"].
Proof. vm_compute. split; reflexivity. Qed.

(* ===================================================================== *)
(** * From a page to the next request (X6, X7, X8) *)
(* ===================================================================== *)

(** The relative path of a page: the cleaned parameter, the empty string
    for [.]. *)
Lemma page_path (fs : os.FS) (rootDir : string) (query : url.Values)
      (t : string) (data : pageData.t) :
  listHandler fs rootDir query = http.ExecuteTemplate t data ->
  pageData.Path data
  = (if String.eqb (cleanRel (url.Get query "path")) "." then ""
     else cleanRel (url.Get query "path"))
  /\ exists abs entries,
      resolve (os.Getwd fs) rootDir (url.Get query "path") = Some abs
      /\ abs = filepath.Join [rootDir; pageData.Path data]
      /\ os.ReadDir fs abs = os.ok entries
      /\ Permutation (pageData.Rows data)
           (listedRows (pageData.Path data) (pageData.Q data) entries).
Proof.
  intros Hpage. rewrite listHandler_resolve in Hpage. cbv zeta in Hpage.
  destruct (resolve _ _ _) as [abs|] eqn:Hres; [|discriminate].
  destruct (os.ReadDir fs abs) as [entries|] eqn:Hdir; [|discriminate].
  injection Hpage as _ <-. cbn [pageData.Path pageData.Rows pageData.Q].
  split; [reflexivity|]. exists abs, entries. repeat split; try assumption.
  - unfold resolve, candidate in Hres.
    destruct (negb _); [discriminate|]. now injection Hres as <-.
  - apply Slice_perm.
Qed.

(** Reading the text of a rendered state, in either mode, is reading its
    elements. *)
Lemma fold_Split_render_any (m r : bool) (P st : nat * list string) :
  WfState m P ->
  fold_left (elemStep r) (strings.Split (renderElems m P) "/") st
  = fold_left (elemStep r) (elemsOf P) st.
Proof.
  intros [Hall _]. pose proof (elemsOf_noSep P Hall) as Hns.
  unfold renderElems. destruct (elemsOf P) as [|x l] eqn:Hel.
  - destruct m; simpl; destruct (elemStep_skip r st) as [H1 H2].
    + now rewrite H1, H1.
    + now rewrite H2.
  - assert (strings.Join (x :: l) "/" <> "") as Hj.
    { intros Hj. apply Join_eq_nil in Hj; [discriminate|].
      rewrite <- Hel, (surjective_pairing P). now apply elemsOf_nonempty. }
    destruct m.
    + rewrite fold_skip_sep, Split_Join by (assumption || discriminate).
      reflexivity.
    + apply String.eqb_neq in Hj. rewrite Hj.
      now rewrite Split_Join by (assumption || discriminate).
Qed.

(** A rendered state with an element in it is not the text [.]. *)
Lemma render_not_dot (P : nat * list string) :
  Forall (fun e => os.validName e = true) (snd P) ->
  elemsOf P <> [] ->
  renderElems false P = strings.Join (elemsOf P) "/"
  /\ renderElems false P <> ".".
Proof.
  intros Hall Hne. pose proof (elemsOf_noSep P Hall) as Hns.
  assert (strings.Join (elemsOf P) "/" <> "") as Hj.
  { intros Hj. apply Join_eq_nil in Hj; [contradiction|].
    rewrite (surjective_pairing P). now apply elemsOf_nonempty. }
  unfold renderElems. apply String.eqb_neq in Hj. rewrite Hj.
  split; [reflexivity|]. intros E.
  pose proof (f_equal (fun s => strings.Split s "/") E) as E'.
  cbv beta in E'. rewrite Split_Join in E' by assumption.
  change (strings.Split "." "/") with ["."] in E'.
  unfold elemsOf in E'.
  destruct (fst P) as [|dd]; simpl in E'.
  - pose proof (Forall_rev Hall) as Hall'. rewrite E' in Hall'.
    apply Forall_inv in Hall'. discriminate.
  - discriminate.
Qed.

(** The relative path computed from the text of a state that ends in a
    real element is that state, read as a relative path. *)
Lemma cleanRel_render (m : bool) (P : nat * list string) :
  WfState m P -> snd P <> [] ->
  cleanRel (renderElems m P) = renderElems false P
  /\ renderElems false P <> ".".
Proof.
  intros [Hall Hzero] Hne.
  assert (elemsOf P <> []) as Hel.
  { unfold elemsOf. intros E. apply app_eq_nil in E as [_ E].
    apply (f_equal (@rev string)) in E. rewrite rev_involutive in E.
    contradiction. }
  destruct (render_not_dot P Hall Hel) as [Hr Hdot]. split; [|assumption].
  assert (WfState false P) as Hwf by (split; [assumption | discriminate]).
  unfold cleanRel. destruct m.
  - unfold renderElems at 1. change (strings.TrimPrefix ("/" ++ ?b) "/") with b.
    rewrite <- Hr, Clean_cleanElems. now apply cleanElems_render.
  - rewrite TrimPrefix_relative by now apply IsAbs_render.
    rewrite Clean_cleanElems. now apply cleanElems_render.
Qed.

Lemma render_nonempty (m : bool) (P : nat * list string) :
  renderElems m P <> "".
Proof.
  unfold renderElems. destruct m; [discriminate|].
  destruct (String.eqb_spec (strings.Join (elemsOf P) "/") "");
    [discriminate | assumption].
Qed.

Lemma elemStep_push (m : bool) (st : nat * list string) (name : string) :
  os.validName name = true ->
  elemStep m st name = (fst st, name :: snd st).
Proof.
  intros Hn. apply validName_facts in Hn as [Hn1 [Hn2 [Hn3 _]]].
  apply String.eqb_neq in Hn1, Hn2, Hn3.
  destruct st as [dd stack]. unfold elemStep. now rewrite Hn1, Hn2, Hn3.
Qed.

(** The state the relative path of a page renders. *)
Lemma page_path_shape (path : string) :
  let rel := if String.eqb (cleanRel path) "." then "" else cleanRel path in
  exists m P,
    WfState m P
    /\ cleanRel path = renderElems m P
    /\ (forall r st,
           fold_left (elemStep r) (strings.Split rel "/") st
           = fold_left (elemStep r) (elemsOf P) st).
Proof.
  cbv zeta. unfold cleanRel.
  set (p := strings.TrimPrefix path "/").
  destruct (Clean_shape p) as [P [Hwf Hshape]].
  exists (filepath.IsAbs p), P.
  split; [assumption|]. split; [assumption|]. intros r st.
  destruct (String.eqb_spec (filepath.Clean p) ".") as [Hdot|Hdot].
  - rewrite <- (fold_Split_render_any (filepath.IsAbs p) r P st Hwf).
    rewrite <- Hshape, Hdot.
    change (strings.Split "" "/") with [""].
    change (strings.Split "." "/") with ["."].
    simpl. now destruct (elemStep_skip r st) as [-> ->].
  - rewrite Hshape. now apply fold_Split_render_any.
Qed.

(** The relative path of a row is the state of the page's path with the
    name of the entry on top. *)
Lemma row_path_shape (path name : string) :
  os.validName name = true ->
  let rel := if String.eqb (cleanRel path) "." then "" else cleanRel path in
  exists m P,
    WfState m P
    /\ (forall r st,
           fold_left (elemStep r) (strings.Split rel "/") st
           = fold_left (elemStep r) (elemsOf P) st)
    /\ filepath.Join [rel; name] = renderElems m (fst P, name :: snd P).
Proof.
  intros Hname. cbv zeta.
  destruct (page_path_shape path) as [m [P [Hwf [Hshape Hfold]]]].
  cbv zeta in Hfold.
  exists m, P. split; [assumption|]. split; [assumption|].
  destruct (String.eqb_spec (cleanRel path) ".") as [Hdot|Hdot].
  - (* the root *)
    rewrite Hdot in Hshape.
    assert (m = false) as ->
        by (rewrite <- (IsAbs_render m P Hwf), <- Hshape; reflexivity).
    assert (elemsOf P = []) as Hel.
    { destruct (elemsOf P) as [|x l] eqn:Hel; [reflexivity|]. exfalso.
      destruct (render_not_dot P (proj1 Hwf)) as [_ Hnd];
        [rewrite Hel; discriminate|]. now apply Hnd. }
    destruct P as [dd stack]. unfold elemsOf in Hel. simpl in Hel.
    apply app_eq_nil in Hel as [Hdd Hst].
    assert (dd = 0) as -> by (destruct dd; [reflexivity | discriminate]).
    assert (stack = []) as ->
        by (destruct stack; [reflexivity|]; simpl in Hst;
            apply app_eq_nil in Hst as [_ Hst]; discriminate).
    destruct (Clean_valid [name]) as [Hc _];
      [discriminate | now constructor|].
    pose proof Hname as Hn. apply validName_facts in Hn as [Hn _].
    apply String.eqb_neq in Hn.
    unfold filepath.Join. simpl String.eqb. cbv iota. rewrite Hn, Hc.
    destruct (render_valid [name]) as [_ Hr];
      [discriminate | now constructor|].
    now rewrite <- Hr.
  - rewrite Join_two_nonempty by (rewrite Hshape; apply render_nonempty).
    rewrite Clean_cleanElems. unfold cleanElems.
    rewrite IsAbs_append by (rewrite Hshape; apply render_nonempty).
    rewrite Split_append, fold_left_app, Hshape.
    rewrite IsAbs_render, fold_Split_render by assumption.
    rewrite Split_noSep by now apply validName_facts in Hname.
    cbn [fold_left]. now rewrite elemStep_push.
Qed.

(** The candidate path of the link of a row: the listed directory, the
    separator and the name of the entry.  It is the candidate of the
    listing, which takes [.] for the root, and of the download, which does
    not. *)
Lemma candidate_of_row (rootDir path name : string) :
  filepath.IsAbs rootDir = true ->
  os.validName name = true ->
  candidate rootDir path <> "/" ->
  let rel := if String.eqb (cleanRel path) "." then "" else cleanRel path in
  let link := filepath.Join [rel; name] in
  candidate rootDir link = candidate rootDir path ++ String "/" name
  /\ filepath.Join [rootDir; cleanRel link]
     = candidate rootDir path ++ String "/" name.
Proof.
  intros Hroot Hname Hnot rel link.
  destruct (row_path_shape path name Hname) as [m [P [Hwf [Hfold Hjoin]]]].
  fold rel in Hfold, Hjoin. fold link in Hjoin.
  assert (WfState m (fst P, name :: snd P)) as Hwf'.
  { split; simpl; [constructor; [assumption | apply Hwf] | apply Hwf]. }
  destruct (cleanRel_render m _ Hwf') as [Hclean Hdot]; [discriminate|].
  rewrite <- Hjoin in Hclean.
  assert (rootDir <> "") as Hne by now apply IsAbs_nonempty.
  set (R := fold_left (elemStep true) (strings.Split rootDir "/") (0, [])).
  assert (WfState true R) as HR.
  { apply fold_elemStep_wf; [apply Split_elems_noSep|].
    split; [constructor | reflexivity]. }
  set (S1 := fold_left (elemStep true) (strings.Split rel "/") R).
  assert (WfState true S1) as HS1
      by (apply fold_elemStep_wf; [apply Split_elems_noSep | assumption]).
  assert (candidate rootDir path = renderElems true S1) as Habs.
  { unfold candidate. fold rel.
    now rewrite Join_two_nonempty, Clean_under, Hroot by assumption. }
  assert (filepath.Join [rootDir; cleanRel link]
          = candidate rootDir path ++ String "/" name) as Hlink.
  { rewrite Join_two_nonempty, Clean_under, Hroot by assumption.
    fold R. rewrite Hclean.
    rewrite (fold_Split_render_any false true)
      by (split; [apply Hwf' | discriminate]).
    rewrite elemsOf_push, fold_left_app, <- Hfold. fold S1.
    cbn [fold_left]. rewrite elemStep_push by assumption.
    rewrite Habs in *. destruct S1 as [dd s1]. destruct HS1 as [_ Hzero].
    simpl in Hzero. rewrite Hzero in * by reflexivity.
    unfold renderElems, elemsOf in *. simpl in *.
    rewrite Join_snoc. destruct (rev s1) as [|x l]; [now exfalso|].
    reflexivity. }
  split; [|exact Hlink].
  unfold candidate at 1. apply String.eqb_neq in Hdot.
  rewrite Hclean in *. rewrite Hdot. exact Hlink.
Qed.

(** With the listed directory inside a root other than the separator, the
    link of a row is inside too. *)
Lemma isWithin_row (wd : option string) (rootDir abs name : string) :
  filepath.IsAbs rootDir = true ->
  filepath.IsAbs abs = true -> filepath.Clean abs = abs ->
  filepath.Clean (abs ++ String "/" name) = abs ++ String "/" name ->
  isWithin wd abs rootDir = true ->
  isWithin wd (abs ++ String "/" name) rootDir = true.
Proof.
  intros Hroot Habs Hclean Hclean' Hin.
  rewrite isWithin_clean in Hin by assumption.
  rewrite isWithin_clean; [|now apply IsAbs_app|assumption|assumption].
  assert (strings.HasPrefix (abs ++ "/") (filepath.Clean rootDir ++ "/") = true)
    as Hpre.
  { apply orb_true_iff in Hin as [H|H]; [exact H|].
    apply String.eqb_eq in H. rewrite H. apply HasPrefix_refl. }
  apply orb_true_iff. left.
  apply HasPrefix_spec in Hpre as [t Ht]. apply HasPrefix_spec.
  exists (t ++ name ++ "/").
  transitivity ((abs ++ "/") ++ (name ++ "/")).
  { rewrite !append_assoc. reflexivity. }
  rewrite Ht. now rewrite !append_assoc.
Qed.

(** Under a root other than the separator nothing inside is the
    separator. *)
Lemma inside_not_slash (wd : option string) (rootDir : string) :
  filepath.IsAbs rootDir = true ->
  filepath.Clean rootDir <> "/" ->
  isWithin wd "/" rootDir = false.
Proof.
  intros Hroot Hne. rewrite isWithin_clean by (reflexivity || assumption).
  apply orb_false_iff. split.
  - destruct (strings.HasPrefix _ _) eqn:H; [|reflexivity]. exfalso.
    apply HasPrefix_spec in H as [t H]. apply Hne.
    destruct (filepath.Clean rootDir) as [|c [|c' r]] eqn:E.
    + pose proof (IsAbs_Clean rootDir) as Ha. rewrite E, Hroot in Ha.
      discriminate.
    + simpl in H. now injection H as <- _.
    + apply (f_equal String.length) in H. simpl in H.
      rewrite !length_append in H. simpl in H. lia.
  - apply String.eqb_neq. congruence.
Qed.

Lemma row_of_page (fs : os.FS) (rootDir : string) (query : url.Values)
      (t : string) (data : pageData.t) (row : fileRow.t) :
  os.NamesValid fs ->
  listHandler fs rootDir query = http.ExecuteTemplate t data ->
  In row (pageData.Rows data) ->
  os.validName (fileRow.Name row) = true
  /\ fileRow.RelPath row
     = filepath.Join [pageData.Path data; fileRow.Name row].
Proof.
  intros Hfs Hpage Hrow.
  destruct (page_path fs rootDir query t data Hpage)
    as [_ [abs [entries [_ [_ [Hdir Hperm]]]]]].
  eapply Permutation_in in Hrow; [|exact Hperm].
  apply In_listedRows in Hrow as [e [info [He [_ [_ ->]]]]].
  cbn [rowOf fileRow.RelPath fileRow.Name]. split; [|reflexivity].
  pose proof (Hfs abs entries Hdir) as Hall.
  rewrite Forall_forall in Hall. now apply Hall.
Qed.

(** The link of a row resolves to the entry. *)
Lemma row_link_resolves (fs : os.FS) (rootDir : string) (query : url.Values)
      (t : string) (data : pageData.t) (row : fileRow.t) :
  filepath.IsAbs rootDir = true ->
  filepath.Clean rootDir <> "/" ->
  os.NamesValid fs ->
  listHandler fs rootDir query = http.ExecuteTemplate t data ->
  In row (pageData.Rows data) ->
  exists abs,
    resolve (os.Getwd fs) rootDir (url.Get query "path") = Some abs
    /\ resolve (os.Getwd fs) rootDir (fileRow.RelPath row)
       = Some (abs ++ String "/" (fileRow.Name row))
    /\ filepath.Join [rootDir; cleanRel (fileRow.RelPath row)]
       = abs ++ String "/" (fileRow.Name row)
    /\ isWithin (os.Getwd fs) (abs ++ String "/" (fileRow.Name row)) rootDir
       = true.
Proof.
  intros Hroot Hne Hfs Hpage Hrow.
  destruct (row_of_page fs rootDir query t data row Hfs Hpage Hrow)
    as [Hname Hrel].
  destruct (page_path fs rootDir query t data Hpage)
    as [Hpath [abs [entries [Hres [_ _]]]]].
  exists abs. split; [assumption|].
  pose proof (resolve_isWithin _ _ _ _ Hres) as Hin.
  assert (abs = candidate rootDir (url.Get query "path")) as Habs.
  { unfold resolve in Hres. destruct (negb _); [discriminate|].
    now injection Hres as <-. }
  assert (abs <> "/") as Hslash.
  { intros E. rewrite E in Hin.
    rewrite inside_not_slash in Hin by assumption. discriminate. }
  destruct (candidate_of_row rootDir (url.Get query "path")
                             (fileRow.Name row) Hroot Hname)
    as [Hcand Hdl]; [now rewrite <- Habs|].
  rewrite <- Hpath, <- Hrel, <- Habs in Hcand, Hdl.
  destruct (candidate_absolute rootDir (url.Get query "path") Hroot)
    as [Ha Hc]. rewrite <- Habs in Ha, Hc.
  destruct (candidate_absolute rootDir (fileRow.RelPath row) Hroot)
    as [_ Hc']. rewrite Hcand in Hc'.
  pose proof (isWithin_row (os.Getwd fs) rootDir abs (fileRow.Name row)
                Hroot Ha Hc Hc' Hin) as Hin'.
  repeat split; try assumption.
  unfold resolve. now rewrite Hcand, Hin'.
Qed.

Lemma stripTrailingSlashes_name (a name : string) :
  name <> "" -> noSep name = true ->
  filepath.stripTrailingSlashes (a ++ name) = a ++ name.
Proof.
  intros Hne Hns. induction a as [|c a IH].
  - simpl. clear Hne. induction name as [|c t IHt]; [reflexivity|].
    noSep_head Hns Hc. simpl. rewrite (IHt Hns), Hc. now destruct t.
  - simpl. rewrite IH. destruct (a ++ name) eqn:E; [|reflexivity].
    destruct a; [contradiction | discriminate].
Qed.

Lemma lastElem_name (a name : string) :
  noSep name = true ->
  filepath.lastElem (a ++ String "/" name) = name.
Proof.
  intros Hns. induction a as [|c a IH].
  - simpl. unfold noSep in Hns. apply negb_true_iff in Hns. now rewrite Hns.
  - simpl. rewrite IH.
    replace (existsb _ _) with true; [reflexivity|].
    symmetry. apply existsb_exists. exists "/"%char. split; [|reflexivity].
    rewrite bytes_app. apply in_or_app. right. now left.
Qed.

(** The last element of a path that ends in a name is the name. *)
Lemma Base_name (a name : string) :
  os.validName name = true ->
  filepath.Base (a ++ String "/" name) = name.
Proof.
  intros Hv. apply validName_facts in Hv as [Hne [_ [_ Hns]]].
  unfold filepath.Base.
  destruct (a ++ String "/" name) eqn:E; [destruct a; discriminate|].
  rewrite <- E.
  change (a ++ String "/" name) with (a ++ "/" ++ name).
  rewrite <- append_assoc, stripTrailingSlashes_name by assumption.
  rewrite append_assoc. change ("/" ++ name) with (String "/" name).
  rewrite lastElem_name by assumption.
  destruct name; [contradiction | reflexivity].
Qed.

(** X6.  Under a root that is set, the relative path a page shows names
    the directory the page lists: given back as the [path] parameter it
    resolves as the parameter of the request did. *)
Theorem page_path_names_listed_directory
        (fs : os.FS) (rootDir : string) (query : url.Values)
        (t : string) (data : pageData.t)
        (Hroot : rootDir <> "")
        (Hpage : listHandler fs rootDir query = http.ExecuteTemplate t data) :
  resolve (os.Getwd fs) rootDir (pageData.Path data)
  = resolve (os.Getwd fs) rootDir (url.Get query "path").
Proof.
  destruct (page_path fs rootDir query t data Hpage) as [Hpath _].
  assert (candidate rootDir (pageData.Path data)
          = candidate rootDir (url.Get query "path")) as Hcand.
  { rewrite Hpath. unfold candidate at 1 2.
    destruct (String.eqb_spec (cleanRel (url.Get query "path")) ".")
      as [Hdot|Hdot]; [reflexivity|].
    apply (Join_cleanRel_again rootDir (url.Get query "path") Hroot). }
  unfold resolve. now rewrite Hcand.
Qed.

Lemma page_path_names_listed_directory_witness :
  resolve (os.Getwd demo.fs) demo.rootDir "/sizes/dirA"
  = resolve (os.Getwd demo.fs) demo.rootDir "//sizes/dirA/.".
Proof.
  apply (page_path_names_listed_directory demo.fs demo.rootDir
           [("path", ["//sizes/dirA/."])] "index.html"
           (pageData.mk
              [fileRow.mk "inner.txt" "/sizes/dirA/inner.txt" false 5 44]
              "/sizes/dirA" "" "name" "asc"
              [crumb.mk "sizes" "/?path=sizes";
               crumb.mk "dirA" "/?path=sizes%2FdirA"])).
  - discriminate.
  - vm_compute. reflexivity.
Defined.

(** X7.  Under an absolute root other than the separator, the relative
    path of every row of a page, given back as the [path] parameter, is
    not rejected: it resolves to the listed directory, the separator and
    the name of the entry. *)
Theorem row_links_resolve_to_entries
        (fs : os.FS) (rootDir : string) (query : url.Values)
        (t : string) (data : pageData.t) (row : fileRow.t)
        (Habs : filepath.IsAbs rootDir = true)
        (Hroot : filepath.Clean rootDir <> "/")
        (Hfs : os.NamesValid fs)
        (Hpage : listHandler fs rootDir query = http.ExecuteTemplate t data)
        (Hrow : In row (pageData.Rows data)) :
  exists abs,
    resolve (os.Getwd fs) rootDir (url.Get query "path") = Some abs
    /\ resolve (os.Getwd fs) rootDir (fileRow.RelPath row)
       = Some (abs ++ String "/" (fileRow.Name row)).
Proof.
  destruct (row_link_resolves fs rootDir query t data row
              Habs Hroot Hfs Hpage Hrow) as [abs [H1 [H2 _]]].
  now exists abs.
Qed.

Lemma row_links_resolve_to_entries_witness :
  exists abs,
    resolve (os.Getwd demo.fs) demo.rootDir "../data/sizes" = Some abs
    /\ resolve (os.Getwd demo.fs) demo.rootDir "../data/sizes/dirA"
       = Some (abs ++ String "/" "dirA").
Proof.
  apply (row_links_resolve_to_entries demo.fs demo.rootDir
           [("path", ["../data/sizes"])] "index.html"
           (pageData.mk
              [fileRow.mk "dirA" "../data/sizes/dirA" true 100 41;
               fileRow.mk "fileB" "../data/sizes/fileB" false 1 42;
               fileRow.mk "fileZ" "../data/sizes/fileZ" false 50 43]
              "../data/sizes" "" "name" "asc"
              [crumb.mk ".." "/?path=..";
               crumb.mk "data" "/?path=..%2Fdata";
               crumb.mk "sizes" "/?path=..%2Fdata%2Fsizes"])
           (fileRow.mk "dirA" "../data/sizes/dirA" true 100 41)).
  - reflexivity.
  - discriminate.
  - exact demo_names_valid.
  - vm_compute. reflexivity.
  - simpl. now left.
Defined.

(** X8.  Under an absolute root other than the separator, the download
    of the relative path of a row whose entry [Stat] reports as a file
    streams that entry, the file at the listed directory, the separator
    and the name, with the name of the entry as the name of the
    attachment. *)
Theorem download_of_listed_file
        (fs : os.FS) (rootDir : string) (query : url.Values)
        (t : string) (data : pageData.t) (row : fileRow.t)
        (abs : string) (info : os.FileInfo.t)
        (Habs : filepath.IsAbs rootDir = true)
        (Hroot : filepath.Clean rootDir <> "/")
        (Hfs : os.NamesValid fs)
        (Hpage : listHandler fs rootDir query = http.ExecuteTemplate t data)
        (Hrow : In row (pageData.Rows data))
        (Hres : resolve (os.Getwd fs) rootDir (url.Get query "path") = Some abs)
        (Hstat : os.Stat fs (abs ++ String "/" (fileRow.Name row)) = os.ok info)
        (Hfile : os.FileInfo.IsDir info = false) :
  downloadHandler fs rootDir [("path", [fileRow.RelPath row])]
  = http.ServeFile (fileRow.Name row) (abs ++ String "/" (fileRow.Name row)).
Proof.
  destruct (row_link_resolves fs rootDir query t data row
              Habs Hroot Hfs Hpage Hrow) as [abs' [H1 [_ [Hdl Hin]]]].
  assert (abs' = abs) as -> by congruence.
  destruct (row_of_page fs rootDir query t data row Hfs Hpage Hrow)
    as [Hname _].
  unfold downloadHandler.
  change (url.Get [("path", [fileRow.RelPath row])] "path")
    with (fileRow.RelPath row).
  rewrite Hdl, Hin, Hstat, Hfile. cbn [negb]. cbv iota.
  now rewrite Base_name.
Qed.

Lemma download_of_listed_file_witness :
  downloadHandler demo.fs demo.rootDir [("path", ["sizes/fileB"])]
  = http.ServeFile "fileB" ("/data/sizes" ++ String "/" "fileB").
Proof.
  apply (download_of_listed_file demo.fs demo.rootDir
           [("path", ["sizes"])] "index.html"
           (pageData.mk
              [fileRow.mk "dirA" "sizes/dirA" true 100 41;
               fileRow.mk "fileB" "sizes/fileB" false 1 42;
               fileRow.mk "fileZ" "sizes/fileZ" false 50 43]
              "sizes" "" "name" "asc" [crumb.mk "sizes" "/?path=sizes"])
           (fileRow.mk "fileB" "sizes/fileB" false 1 42)
           "/data/sizes" (os.FileInfo.mk 1 0 false)).
  - reflexivity.
  - discriminate.
  - exact demo_names_valid.
  - vm_compute. reflexivity.
  - simpl. right. now left.
  - vm_compute. reflexivity.
  - vm_compute. reflexivity.
  - reflexivity.
Defined.

(* ===================================================================== *)
(** * The order [sort.Slice] leaves the rows in *)
(* ===================================================================== *)

Section InsertionSort.
Context {A : Type} (less : A -> A -> bool).
Local Open Scope list_scope.

Lemma nth_error_middle (pre post : list A) (x : A) :
  nth_error (pre ++ x :: post) (List.length pre) = Some x.
Proof. induction pre as [|a pre IH]; [reflexivity | exact IH]. Qed.

Lemma swapAt_middle (pre post : list A) (y x : A) :
  sort.swapAt (List.length pre) (pre ++ y :: x :: post)
  = pre ++ x :: y :: post.
Proof.
  induction pre as [|a pre IH]; [reflexivity|].
  cbn [List.length app]. rewrite <- IH.
  destruct pre as [|b pre]; reflexivity.
Qed.

(** The inner loop of the insertion sort puts the element at [j] in its
    place among the [j] elements before it. *)
Lemma insertionStep_insertBack (acc post : list A) (x : A) :
  sort.insertionStep less (List.length acc) (rev acc ++ x :: post)
  = rev (insertBack less x acc) ++ post.
Proof.
  revert post; induction acc as [|y ys IH]; intros post; [reflexivity|].
  cbn [List.length sort.insertionStep].
  assert (rev (y :: ys) ++ x :: post = rev ys ++ y :: x :: post) as E
      by (simpl; now rewrite <- app_assoc).
  rewrite E.
  assert (List.length ys = List.length (rev ys)) as Hlen
      by now rewrite length_rev.
  replace (nth_error (rev ys ++ y :: x :: post) (S (List.length ys)))
    with (Some x).
  2:{ symmetry. change (rev ys ++ y :: x :: post)
        with (rev ys ++ [y] ++ x :: post).
      rewrite app_assoc.
      replace (S (List.length ys)) with (List.length (rev ys ++ [y]))
        by (rewrite length_app, length_rev; simpl; lia).
      apply nth_error_middle. }
  rewrite Hlen at 1. rewrite nth_error_middle.
  cbn [insertBack]. destruct (less x y).
  - unfold sort.swapPrev. rewrite Hlen, swapAt_middle, <- Hlen, IH.
    simpl. now rewrite <- app_assoc.
  - simpl. now rewrite <- !app_assoc.
Qed.

Lemma insertBack_length (x : A) (acc : list A) :
  List.length (insertBack less x acc) = S (List.length acc).
Proof.
  induction acc as [|y ys IH]; [reflexivity|]. simpl.
  destruct (less x y); simpl; congruence.
Qed.

Lemma insertion_rounds (rest acc : list A) :
  fold_left (fun d i => sort.insertionStep less i d)
            (seq (List.length acc) (List.length rest)) (rev acc ++ rest)
  = rev (fold_left (fun a x => insertBack less x a) rest acc).
Proof.
  revert acc; induction rest as [|x rest IH]; intros acc.
  - simpl. now rewrite app_nil_r.
  - cbn [List.length seq fold_left]. rewrite insertionStep_insertBack.
    rewrite <- (insertBack_length x acc). apply IH.
Qed.

(** The insertion sort takes the elements one by one, each to its place
    among those before it. *)
Lemma Slice_insertBack (data : list A) :
  sort.Slice less data
  = rev (fold_left (fun a x => insertBack less x a) data []).
Proof.
  unfold sort.Slice, sort.insertionSort. destruct data as [|x data];
    [reflexivity|].
  cbn [List.length fold_left insertBack Nat.sub]. rewrite Nat.sub_0_r.
  apply (insertion_rounds data [x]).
Qed.

(** [R a b]: the element [a] may stand before the element [b].  An
    element passes those it is [less] than and stops at the first it is
    not. *)
Variable R : A -> A -> Prop.
Hypothesis R_pass : forall x y, less x y = true -> R x y.
Hypothesis R_stop : forall x y, less x y = false -> R y x.
Hypothesis R_trans : forall a b c, R a b -> R b c -> R a c.

Lemma insertBack_sorted (x : A) (acc : list A) :
  Sorted (fun b a => R a b) acc ->
  Sorted (fun b a => R a b) (insertBack less x acc).
Proof.
  induction acc as [|y ys IH]; intros Hs; simpl.
  - repeat constructor.
  - destruct (less x y) eqn:Hxy.
    + apply Sorted_inv in Hs as [Hys Hhd]. constructor; [now apply IH|].
      destruct ys as [|z zs]; simpl.
      * constructor. now apply R_pass.
      * destruct (less x z); constructor.
        -- now apply HdRel_inv in Hhd.
        -- now apply R_pass.
    + constructor; [assumption|]. constructor. now apply R_stop.
Qed.

Lemma insertBack_fold_sorted (data acc : list A) :
  Sorted (fun b a => R a b) acc ->
  Sorted (fun b a => R a b)
         (fold_left (fun a x => insertBack less x a) data acc).
Proof.
  revert acc; induction data as [|x data IH]; intros acc Hs; [exact Hs|].
  simpl. apply IH. now apply insertBack_sorted.
Qed.

Lemma StronglySorted_split (P : A -> A -> Prop) (l l1 l2 l3 : list A)
      (x y : A) :
  StronglySorted P l -> l = l1 ++ x :: l2 ++ y :: l3 -> P x y.
Proof.
  intros Hs ->. induction l1 as [|a l1 IH].
  - simpl in Hs. apply StronglySorted_inv in Hs as [_ Hall].
    rewrite Forall_forall in Hall. apply Hall.
    apply in_or_app. right. now left.
  - simpl in Hs. apply StronglySorted_inv in Hs as [Hs _]. now apply IH.
Qed.

(** In the sorted slice every element may stand before every later
    one. *)
Lemma Slice_ordered (data l1 l2 l3 : list A) (a b : A) :
  sort.Slice less data = l1 ++ a :: l2 ++ b :: l3 -> R a b.
Proof.
  intros Hout. rewrite Slice_insertBack in Hout.
  assert (StronglySorted (fun b a => R a b)
            (fold_left (fun a x => insertBack less x a) data [])) as Hs.
  { apply Sorted_StronglySorted.
    - intros x y z Hxy Hyz. now apply (R_trans z y x).
    - apply insertBack_fold_sorted. constructor. }
  apply (f_equal (@rev A)) in Hout. rewrite rev_involutive in Hout.
  rewrite Hout in Hs.
  apply (StronglySorted_split _ _ (rev l3) (rev l2) (rev l1) b a Hs).
  rewrite rev_app_distr. simpl. rewrite rev_app_distr. simpl.
  now rewrite <- !app_assoc.
Qed.

End InsertionSort.


(** ** The comparison of [listHandler] *)

Lemma ltb_asym (s1 s2 : string) :
  String.ltb s1 s2 = true -> String.ltb s2 s1 = false.
Proof.
  unfold String.ltb. rewrite (String.compare_antisym s1 s2).
  destruct (String.compare s2 s1); simpl; congruence.
Qed.

Lemma ltb_negtrans (s1 s2 s3 : string) :
  String.ltb s1 s2 = false -> String.ltb s2 s3 = false ->
  String.ltb s1 s3 = false.
Proof.
  unfold String.ltb. intros H12 H23.
  destruct (String.compare s1 s2) eqn:E12; [|discriminate|].
  { apply String.compare_eq_iff in E12 as ->. exact H23. }
  destruct (String.compare s2 s3) eqn:E23; [|discriminate|].
  { apply String.compare_eq_iff in E23 as <-. now rewrite E12. }
  rewrite String.compare_antisym in E12, E23.
  assert (String.compare s2 s1 = Lt) as L21
      by (destruct (String.compare s2 s1); simpl in E12; congruence).
  assert (String.compare s3 s2 = Lt) as L32
      by (destruct (String.compare s3 s2); simpl in E23; congruence).
  pose proof (proj1 (OrderedTypeEx.String_as_OT.cmp_lt _ _) L21) as T21.
  pose proof (proj1 (OrderedTypeEx.String_as_OT.cmp_lt _ _) L32) as T32.
  pose proof (proj2 (OrderedTypeEx.String_as_OT.cmp_lt _ _)
                (OrderedTypeEx.String_as_OT.lt_trans _ _ _ T32 T21)) as L31.
  unfold OrderedTypeEx.String_as_OT.cmp in L31.
  rewrite String.compare_antisym, L31. reflexivity.
Qed.

(** Without the order ["desc"], the comparison is that of a strict order
    in which rows may tie: never both ways, ... *)
Lemma rowLess_asc_asym (sortBy : string) (x y : fileRow.t) :
  rowLess sortBy "asc" x y = true -> rowLess sortBy "asc" y x = false.
Proof.
  unfold rowLess. cbn [String.eqb Ascii.eqb Bool.eqb].
  destruct (String.eqb sortBy "size"); [|destruct (String.eqb sortBy "mod")].
  - destruct (fileRow.IsDir x), (fileRow.IsDir y); simpl; try congruence;
      intros H; apply Z.ltb_lt in H; apply Z.ltb_ge; lia.
  - intros H; apply Z.ltb_lt in H; apply Z.ltb_ge; lia.
  - destruct (fileRow.IsDir x), (fileRow.IsDir y); simpl; try congruence;
      apply ltb_asym.
Qed.

(** ... and a row that is before neither of two others leaves them as
    they are to each other. *)
Lemma rowLess_asc_negtrans (sortBy : string) (x y z : fileRow.t) :
  rowLess sortBy "asc" x y = false -> rowLess sortBy "asc" y z = false ->
  rowLess sortBy "asc" x z = false.
Proof.
  unfold rowLess. cbn [String.eqb Ascii.eqb Bool.eqb].
  destruct (String.eqb sortBy "size"); [|destruct (String.eqb sortBy "mod")].
  - destruct (fileRow.IsDir x), (fileRow.IsDir y), (fileRow.IsDir z);
      simpl; try congruence;
      intros H1 H2; apply Z.ltb_ge in H1, H2; apply Z.ltb_ge; lia.
  - intros H1 H2; apply Z.ltb_ge in H1, H2; apply Z.ltb_ge; lia.
  - destruct (fileRow.IsDir x), (fileRow.IsDir y), (fileRow.IsDir z);
      simpl; try congruence; apply ltb_negtrans.
Qed.

Lemma rowLess_desc (sortBy : string) (x y : fileRow.t) :
  rowLess sortBy "desc" x y = negb (rowLess sortBy "asc" x y).
Proof. reflexivity. Qed.

(** What the comparison says of two rows when the first is not before
    the second. *)
Lemma rowLess_asc_false (sortBy : string) (x y : fileRow.t) :
  rowLess sortBy "asc" x y = false ->
  if String.eqb sortBy "mod"
  then (fileRow.ModTime y <= fileRow.ModTime x)%Z
  else (fileRow.IsDir x = true -> fileRow.IsDir y = true)
       /\ (fileRow.IsDir x = fileRow.IsDir y ->
           if String.eqb sortBy "size"
           then (fileRow.SizeBytes y <= fileRow.SizeBytes x)%Z
           else String.ltb (strings.ToLower (fileRow.Name x))
                           (strings.ToLower (fileRow.Name y)) = false).
Proof.
  unfold rowLess. cbn [String.eqb Ascii.eqb Bool.eqb].
  destruct (String.eqb_spec sortBy "size") as [->|Hs].
  - cbn [String.eqb Ascii.eqb Bool.eqb].
    destruct (fileRow.IsDir x), (fileRow.IsDir y); simpl; intros H;
      try discriminate H;
      (split; [congruence | intros E; try discriminate E]);
      now apply Z.ltb_ge in H.
  - destruct (String.eqb sortBy "mod").
    + intros H; now apply Z.ltb_ge in H.
    + destruct (fileRow.IsDir x), (fileRow.IsDir y); simpl; intros H;
        try discriminate H;
        (split; [congruence | intros E; try discriminate E]);
        exact H.
Qed.

(** The rows of a page are the sorted slice. *)
Lemma page_rows_sorted (fs : os.FS) (rootDir : string) (query : url.Values)
      (t : string) (data : pageData.t) :
  listHandler fs rootDir query = http.ExecuteTemplate t data ->
  exists rows,
    pageData.Rows data
    = sort.Slice (rowLess (pageData.Sort data) (pageData.Order data)) rows.
Proof.
  rewrite listHandler_resolve. cbv zeta.
  destruct (resolve _ _ _); [|discriminate].
  destruct (os.ReadDir fs _); [|discriminate].
  intros [= _ <-]. simpl. eexists. reflexivity.
Qed.

(** X9.  On a page in the order ["asc"] with at most twelve rows (the
    lengths on which the library sorts by insertion), the rows never go
    down: of two rows, the earlier is not modified after the later under
    the key ["mod"]; under the other keys no file stands before a
    directory, and of two rows of one kind the earlier has the size that
    is not the greater, or, when both names are of ASCII bytes, the
    lower-cased name that is not the greater. *)
Theorem ascending_rows_never_go_down
        (fs : os.FS) (rootDir : string) (query : url.Values)
        (t : string) (data : pageData.t) (l1 l2 l3 : list fileRow.t)
        (a b : fileRow.t)
        (Hpage : listHandler fs rootDir query = http.ExecuteTemplate t data)
        (Hasc : pageData.Order data = "asc")
        (Hlen : List.length (pageData.Rows data) <= maxInsertion)
        (Hpos : pageData.Rows data = (l1 ++ a :: l2 ++ b :: l3)%list) :
  if String.eqb (pageData.Sort data) "mod"
  then (fileRow.ModTime a <= fileRow.ModTime b)%Z
  else (fileRow.IsDir b = true -> fileRow.IsDir a = true)
       /\ (fileRow.IsDir b = fileRow.IsDir a ->
           if String.eqb (pageData.Sort data) "size"
           then (fileRow.SizeBytes a <= fileRow.SizeBytes b)%Z
           else strings.isASCII (fileRow.Name a) = true ->
                strings.isASCII (fileRow.Name b) = true ->
                String.ltb (strings.ToLower (fileRow.Name b))
                           (strings.ToLower (fileRow.Name a)) = false).
Proof.
  destruct (page_rows_sorted fs rootDir query t data Hpage) as [rows Hrows].
  rewrite Hasc, Hpos in Hrows. symmetry in Hrows.
  assert (rowLess (pageData.Sort data) "asc" b a = false) as Hba.
  { apply (Slice_ordered (rowLess (pageData.Sort data) "asc")
             (fun x y => rowLess (pageData.Sort data) "asc" y x = false)
             (rowLess_asc_asym _) (fun x y H => H)
             (fun x y z H1 H2 => rowLess_asc_negtrans _ z y x H2 H1)
             rows l1 l2 l3 a b Hrows). }
  apply rowLess_asc_false in Hba.
  destruct (String.eqb (pageData.Sort data) "mod"); [exact Hba|].
  destruct Hba as [Hkind Hsame]. split; [exact Hkind|].
  intros E. specialize (Hsame E).
  destruct (String.eqb (pageData.Sort data) "size"); [exact Hsame|].
  intros _ _. exact Hsame.
Qed.

Lemma ascending_rows_never_go_down_witness :
  (true = true -> true = true)
  /\ String.ltb (strings.ToLower "names") (strings.ToLower "locked") = false.
Proof.
  destruct (ascending_rows_never_go_down demo.fs demo.rootDir
              [("sort", ["name"])] "index.html"
              (pageData.mk
                 [fileRow.mk "locked" "locked" true 4096 10;
                  fileRow.mk "names" "names" true 4096 20;
                  fileRow.mk "partial" "partial" true 4096 30;
                  fileRow.mk "sizes" "sizes" true 4096 40]
                 "" "" "name" "asc" [])
              [] []
              [fileRow.mk "partial" "partial" true 4096 30;
               fileRow.mk "sizes" "sizes" true 4096 40]
              (fileRow.mk "locked" "locked" true 4096 10)
              (fileRow.mk "names" "names" true 4096 20))
    as [Hkind Hname].
  - vm_compute. reflexivity.
  - reflexivity.
  - unfold maxInsertion. simpl. lia.
  - reflexivity.
  - split; [exact Hkind|]. apply Hname; reflexivity.
Defined.


(** X10.  On a page in the order ["desc"] with at most twelve rows, the
    rows never go up, and the kinds are turned round with them: of two
    rows, the earlier is not modified before the later under the key
    ["mod"]; under the other keys no directory stands before a file, and
    of two rows of one kind the earlier has the size that is not the
    smaller, or, when both names are of ASCII bytes, the lower-cased name
    that is not the smaller. *)
Theorem descending_rows_never_go_up
        (fs : os.FS) (rootDir : string) (query : url.Values)
        (t : string) (data : pageData.t) (l1 l2 l3 : list fileRow.t)
        (a b : fileRow.t)
        (Hpage : listHandler fs rootDir query = http.ExecuteTemplate t data)
        (Hdesc : pageData.Order data = "desc")
        (Hlen : List.length (pageData.Rows data) <= maxInsertion)
        (Hpos : pageData.Rows data = (l1 ++ a :: l2 ++ b :: l3)%list) :
  if String.eqb (pageData.Sort data) "mod"
  then (fileRow.ModTime b <= fileRow.ModTime a)%Z
  else (fileRow.IsDir a = true -> fileRow.IsDir b = true)
       /\ (fileRow.IsDir a = fileRow.IsDir b ->
           if String.eqb (pageData.Sort data) "size"
           then (fileRow.SizeBytes b <= fileRow.SizeBytes a)%Z
           else strings.isASCII (fileRow.Name a) = true ->
                strings.isASCII (fileRow.Name b) = true ->
                String.ltb (strings.ToLower (fileRow.Name a))
                           (strings.ToLower (fileRow.Name b)) = false).
Proof.
  destruct (page_rows_sorted fs rootDir query t data Hpage) as [rows Hrows].
  rewrite Hdesc, Hpos in Hrows. symmetry in Hrows.
  assert (rowLess (pageData.Sort data) "asc" a b = false) as Hab.
  { apply (Slice_ordered (rowLess (pageData.Sort data) "desc")
             (fun x y => rowLess (pageData.Sort data) "asc" x y = false))
      with (data := rows) (l1 := l1) (l2 := l2) (l3 := l3);
      [| | |exact Hrows].
    - intros x y H. rewrite rowLess_desc in H.
      now apply negb_true_iff in H.
    - intros x y H. rewrite rowLess_desc in H. apply negb_false_iff in H.
      now apply rowLess_asc_asym.
    - intros x y z. apply rowLess_asc_negtrans. }
  apply rowLess_asc_false in Hab.
  destruct (String.eqb (pageData.Sort data) "mod"); [exact Hab|].
  destruct Hab as [Hkind Hsame]. split; [exact Hkind|].
  intros E. specialize (Hsame E).
  destruct (String.eqb (pageData.Sort data) "size"); [exact Hsame|].
  intros _ _. exact Hsame.
Qed.

Lemma descending_rows_never_go_up_witness :
  (true = true -> true = true)
  /\ String.ltb (strings.ToLower "sizes") (strings.ToLower "partial") = false.
Proof.
  destruct (descending_rows_never_go_up demo.fs demo.rootDir
              [("sort", ["name"]); ("order", ["desc"])] "index.html"
              (pageData.mk
                 [fileRow.mk "sizes" "sizes" true 4096 40;
                  fileRow.mk "partial" "partial" true 4096 30;
                  fileRow.mk "names" "names" true 4096 20;
                  fileRow.mk "locked" "locked" true 4096 10]
                 "" "" "name" "desc" [])
              [] []
              [fileRow.mk "names" "names" true 4096 20;
               fileRow.mk "locked" "locked" true 4096 10]
              (fileRow.mk "sizes" "sizes" true 4096 40)
              (fileRow.mk "partial" "partial" true 4096 30))
    as [Hkind Hname].
  - vm_compute. reflexivity.
  - reflexivity.
  - unfold maxInsertion. simpl. lia.
  - reflexivity.
  - split; [exact Hkind|]. apply Hname; reflexivity.
Defined.

(** X11.  In the order ["desc"] the comparison is not that of a strict
    order: it puts every row before itself, and of two rows that tie
    under the key (the same kind and size, or name up to case, or time)
    it puts each before the other. *)
Theorem descending_comparison_is_reflexive
        (sortBy : string) (x y : fileRow.t) :
  rowLess sortBy "desc" x x = true
  /\ (rowLess sortBy "asc" x y = false ->
      rowLess sortBy "asc" y x = false ->
      rowLess sortBy "desc" x y = true /\ rowLess sortBy "desc" y x = true).
Proof.
  split.
  - rewrite rowLess_desc. apply negb_true_iff.
    destruct (rowLess sortBy "asc" x x) eqn:E; [|reflexivity].
    now rewrite (rowLess_asc_asym _ _ _ E) in E.
  - intros H1 H2. rewrite !rowLess_desc, H1, H2. now split.
Qed.

(* ===================================================================== *)
(** * The template function [human] *)
(* ===================================================================== *)

Lemma Qdiv_1024 (n : Z) (d : positive) :
  ((n # d) / 1024)%Q = (n # (d * 1024)).
Proof.
  unfold Qdiv, Qmult, Qinv. simpl Qnum. simpl Qden.
  now rewrite Z.mul_1_r.
Qed.

Lemma Qle_bool_1024 (n : Z) (d : positive) :
  Qle_bool 1024 (n # d) = (1024 * Z.pos d <=? n)%Z.
Proof. unfold Qle_bool. simpl Qnum. simpl Qden. now rewrite Z.mul_1_r. Qed.

(** The loop of [human] from the round [i] on: it stops at the first of
    the rounds [i], [i+1], ... at which the number is under [1024], and
    at the last unit. *)
Lemma humanLoop_spec (fuel : nat) (n : Z) (i : nat) :
  i + fuel = 4 ->
  exists j,
    i <= j <= 4
    /\ humanLoop fuel (n # Z.to_pos (1024 ^ Z.of_nat i)) i
       = (n # Z.to_pos (1024 ^ Z.of_nat j), j)
    /\ (i < j -> (1024 ^ Z.of_nat j <= n)%Z)
    /\ (j < 4 -> (n < 1024 ^ Z.of_nat (S j))%Z).
Proof.
  revert i; induction fuel as [|fuel IH]; intros i Hi.
  - exists i. simpl. repeat split; lia.
  - cbn [humanLoop]. rewrite Qle_bool_1024, Qdiv_1024.
    change (List.length units - 1) with 4.
    assert (0 < 1024 ^ Z.of_nat i)%Z as Hpos by (apply Z.pow_pos_nonneg; lia).
    rewrite Z2Pos.id by assumption.
    assert (1024 ^ Z.of_nat (S i) = 1024 * 1024 ^ Z.of_nat i)%Z as Hpow
        by (rewrite Nat2Z.inj_succ, Z.pow_succ_r; lia).
    assert ((Z.to_pos (1024 ^ Z.of_nat i) * 1024)%positive
            = Z.to_pos (1024 ^ Z.of_nat (S i))) as Hden.
    { rewrite Hpow, Z2Pos.inj_mul by lia. simpl Z.to_pos. lia. }
    rewrite Hden.
    destruct (Z.leb_spec (1024 * 1024 ^ Z.of_nat i) n) as [Hle|Hlt].
    + assert ((i <? 4) = true) as -> by (apply Nat.ltb_lt; lia). simpl andb.
      destruct (IH (S i)) as [j [Hj [Hloop [Hlow Hup]]]]; [lia|].
      exists j. split; [lia|]. split; [exact Hloop|]. split; [|exact Hup].
      intros _. destruct (Nat.eq_dec j (S i)) as [->|Hne]; [lia|].
      apply Hlow. lia.
    + simpl andb. exists i. split; [lia|]. split; [reflexivity|].
      split; [lia|]. intros _. lia.
Qed.

(** X12.  For a file, [human] never fails on its index: it prints the
    size, as the [float64] it is turned into, divided by [1024^i] and
    rounded to hundredths, and the [i]-th of the units after it, where
    [1024^i] is the greatest power of [1024] up to the fourth that the
    size reaches (the zeroth for a size under [1024]). *)
Theorem human_scales_to_unit (sz : Z) :
  exists (i : nat) (u : string),
    nth_error units i = Some u
    /\ human sz false
       = Some (formatF2 (float64_of_int sz # Z.to_pos (1024 ^ Z.of_nat i))
               ++ " " ++ u)
    /\ (0 < i -> (1024 ^ Z.of_nat i <= float64_of_int sz)%Z)
    /\ (i < 4 -> (float64_of_int sz < 1024 ^ Z.of_nat (S i))%Z)
    /\ ((Z.abs sz < 2 ^ 53)%Z -> float64_of_int sz = sz).
Proof.
  destruct (humanLoop_spec 4 (float64_of_int sz) 0 eq_refl)
    as [j [Hj [Hloop [Hlow Hup]]]].
  assert (exists u, nth_error units j = Some u) as [u Hu].
  { destruct (nth_error units j) eqn:E; [eauto|].
    apply nth_error_None in E. simpl in E. lia. }
  exists j, u. split; [exact Hu|]. split; [|split; [exact Hlow|split]].
  - unfold human. change (List.length units - 1) with 4.
    change (inject_Z (float64_of_int sz))
      with (float64_of_int sz # Z.to_pos (1024 ^ Z.of_nat 0)).
    rewrite Hloop, Hu. reflexivity.
  - exact Hup.
  - intros Hsmall. unfold float64_of_int.
    now apply Z.ltb_lt in Hsmall as ->.
Qed.

Lemma decimal_zero : decimal 0 = "0".
Proof. reflexivity. Qed.

(** X13.  A file of under [1024] bytes is shown with its size in decimal
    digits, two zeros after the point and the unit [B]. *)
Theorem human_of_small_file (sz : Z)
        (Hsz : (0 <= sz < 1024)%Z) :
  human sz false = Some (decimal sz ++ ".00 B").
Proof.
  unfold human. change (List.length units - 1) with 4.
  assert (float64_of_int sz = sz) as ->.
  { unfold float64_of_int.
    assert ((Z.abs sz <? 2 ^ 53)%Z = true) as ->; [|reflexivity].
    apply Z.ltb_lt. change (2 ^ 53)%Z with 9007199254740992%Z. lia. }
  cbn [humanLoop]. unfold inject_Z. rewrite Qle_bool_1024.
  assert ((1024 * 1 <=? sz)%Z = false) as -> by (apply Z.leb_gt; lia).
  cbn [andb nth_error units].
  unfold formatF2, roundHalfEven. simpl Qnum. simpl Qden.
  rewrite Z.div_1_r, Z.mod_1_r. cbn [Z.mul Z.ltb Z.compare].
  assert ((sz <? 0)%Z = false) as -> by (apply Z.ltb_ge; lia).
  rewrite Z.abs_eq by lia.
  rewrite Z.div_mul, Z.mod_mul by lia.
  change (twoDigits 0) with "00". rewrite !append_assoc. reflexivity.
Qed.

Lemma human_of_small_file_witness : human 512 false = Some "512.00 B".
Proof. apply (human_of_small_file 512). lia. Defined.

(** Sizes at and about the steps between the units, a size that does not
    fit the significand of a [float64], and a directory. *)
Example human_examples :
  map (fun sz => human sz false)
      [0; 1023; 1024; 1536; 1048575; 1048576; 123456789;
       1099511627776; 1125899906842624; 9223372036854775807]%Z
  = map Some
      ["0.00 B"; "1023.00 B"; "1.00 KB"; "1.50 KB"; "1024.00 KB"; "1.00 MB";
       "117.74 MB"; "1.00 TB"; "1024.00 TB"; "8388608.00 TB"]
  /\ human 4096 true = Some dirMark.
Proof. vm_compute. split; reflexivity. Qed.

(* ===================================================================== *)
(** * Start-up *)
(* ===================================================================== *)

Lemma getenv_nonempty (env : string -> string) (k def : string) :
  def <> "" -> getenv env k def <> "".
Proof.
  intros Hdef. unfold getenv.
  destruct (String.eqb_spec (env k) "") as [E|E]; simpl; assumption.
Qed.

Lemma getenv_set (env : string -> string) (k def : string) :
  env k <> "" -> getenv env k def = env k.
Proof.
  intros Hset. unfold getenv. apply String.eqb_neq in Hset.
  now rewrite Hset.
Qed.

Lemma getenv_unset (env : string -> string) (k def : string) :
  env k = "" -> getenv env k def = def.
Proof. intros Hunset. unfold getenv. now rewrite Hunset. Qed.

(** The switch of [main] in terms of the variable itself. *)
Lemma useTLS_spec (env : string -> string) :
  String.eqb (strings.ToLower (getenv env "USE_TLS" "false")) "true" = true
  <-> strings.ToLower (env "USE_TLS") = "true".
Proof.
  rewrite String.eqb_eq.
  destruct (String.eqb_spec (env "USE_TLS") "") as [E|E].
  - rewrite getenv_unset, E by assumption. split; discriminate.
  - now rewrite getenv_set.
Qed.

(** X14.  The variable [USE_TLS] alone, read without regard to case,
    says which server [main] starts: when it is [true] no server
    without TLS is started, whatever else fails, and when it is anything
    else, or not set, none with TLS is. *)
Theorem tls_follows_the_switch (w : World.t) :
  (strings.ToLower (World.Getenv w "USE_TLS") = "true" ->
   forall addr root, main w <> ListenAndServe addr root)
  /\ (strings.ToLower (World.Getenv w "USE_TLS") <> "true" ->
      forall addr cert key root,
        main w <> ListenAndServeTLS addr cert key root).
Proof.
  split.
  - intros Hon addr root. apply useTLS_spec in Hon.
    unfold main. cbv zeta. rewrite Hon.
    destruct (World.MkdirAll w _); [discriminate|].
    destruct (World.ParseFS w); [discriminate|].
    destruct (mustExist _ _ "certificate"); [discriminate|].
    destruct (mustExist _ _ "private key"); discriminate.
  - intros Hoff addr cert key root.
    assert (String.eqb
              (strings.ToLower (getenv (World.Getenv w) "USE_TLS" "false"))
              "true" = false) as Hsw.
    { destruct (String.eqb _ "true") eqn:E; [|reflexivity].
      apply useTLS_spec in E. contradiction. }
    unfold main. cbv zeta. rewrite Hsw.
    destruct (World.MkdirAll w _); [discriminate|].
    destruct (World.ParseFS w); discriminate.
Qed.

(** X15.  The server with TLS is started only on a certificate and a
    private key that [Stat] finds, at the paths the variables [CERT_FILE]
    and [KEY_FILE] give, or [certs/cert.pem] and [certs/key.pem] when they
    are not set. *)
Theorem tls_needs_certificate_and_key
        (w : World.t) (addr cert key root : string)
        (Hmain : main w = ListenAndServeTLS addr cert key root) :
  cert = getenv (World.Getenv w) "CERT_FILE" "certs/cert.pem"
  /\ key = getenv (World.Getenv w) "KEY_FILE" "certs/key.pem"
  /\ (exists info, os.Stat (World.Files w) cert = os.ok info)
  /\ (exists info, os.Stat (World.Files w) key = os.ok info).
Proof.
  unfold main in Hmain. cbv zeta in Hmain.
  destruct (World.MkdirAll w _); [discriminate|].
  destruct (World.ParseFS w); [discriminate|].
  destruct (String.eqb _ "true"); [|discriminate].
  unfold mustExist in Hmain.
  destruct (os.Stat (World.Files w) (getenv _ "CERT_FILE" _)) as [i1|e1] eqn:H1;
    [|discriminate].
  destruct (os.Stat (World.Files w) (getenv _ "KEY_FILE" _)) as [i2|e2] eqn:H2;
    [|discriminate].
  injection Hmain as _ <- <- _. repeat split; eauto.
Qed.

(** X16.  Whichever server [main] starts, the root its handlers are given
    is not empty, [MkdirAll] has made sure of it, the templates have been
    parsed, and the address is the host, a colon and the port, neither of
    them empty. *)
Theorem server_starts_on_prepared_root (w : World.t) :
  match main w with
  | Fatal _ => True
  | ListenAndServe addr root | ListenAndServeTLS addr _ _ root =>
      root <> ""
      /\ root = getenv (World.Getenv w) "ROOT_DIR" "/data"
      /\ World.MkdirAll w root = None
      /\ World.ParseFS w = None
      /\ exists host port,
          addr = host ++ ":" ++ port /\ host <> "" /\ port <> ""
  end.
Proof.
  assert (getenv (World.Getenv w) "ROOT_DIR" "/data" <> "") as Hroot
      by (apply getenv_nonempty; discriminate).
  assert (exists host port,
             getenv (World.Getenv w) "HOST" "0.0.0.0" ++ ":"
             ++ getenv (World.Getenv w) "PORT" "8080"
             = host ++ ":" ++ port /\ host <> "" /\ port <> "") as Haddr.
  { eexists _, _. split; [reflexivity|].
    split; apply getenv_nonempty; discriminate. }
  unfold main. cbv zeta.
  destruct (World.MkdirAll w _) eqn:Hmk; [exact I|].
  destruct (World.ParseFS w) eqn:Hparse; [exact I|].
  destruct (String.eqb _ "true").
  - destruct (mustExist _ _ "certificate"); [exact I|].
    destruct (mustExist _ _ "private key"); [exact I|].
    repeat split; assumption.
  - repeat split; assumption.
Qed.

Lemma tls_needs_certificate_and_key_witness :
  "/etc/ssl/site.pem"
  = getenv (World.Getenv tlsWorld) "CERT_FILE" "certs/cert.pem"
  /\ "certs/key.pem"
     = getenv (World.Getenv tlsWorld) "KEY_FILE" "certs/key.pem"
  /\ (exists info,
         os.Stat (World.Files tlsWorld) "/etc/ssl/site.pem" = os.ok info)
  /\ (exists info,
         os.Stat (World.Files tlsWorld) "certs/key.pem" = os.ok info).
Proof.
  apply (tls_needs_certificate_and_key tlsWorld "0.0.0.0:8443"
           "/etc/ssl/site.pem" "certs/key.pem" "/data").
  vm_compute. reflexivity.
Defined.

(** With nothing set [main] serves [/data] on [0.0.0.0:8080] without
    TLS; with the switch on and no certificate it stops. *)
Example main_examples :
  main (plainWorld "") = ListenAndServe "0.0.0.0:8080" "/data"
  /\ main (plainWorld "yes") = ListenAndServe "0.0.0.0:8080" "/data"
  /\ main (plainWorld "True")
     = Fatal ("certificate not found at certs/cert.pem: "
              ++ "stat certs/cert.pem: no such file or directory")
  /\ main tlsWorld
     = ListenAndServeTLS "0.0.0.0:8443" "/etc/ssl/site.pem" "certs/key.pem"
                         "/data".
Proof. vm_compute. repeat split; reflexivity. Qed.

(* ===================================================================== *)
(** * The breadcrumbs of a page *)
(* ===================================================================== *)

Lemma elemsOf_kept (P : nat * list string) :
  Forall (fun e => os.validName e = true) (snd P) ->
  filter keptSeg (elemsOf P) = elemsOf P.
Proof.
  intros Hall. apply forallb_filter_id. apply forallb_forall.
  intros e He. unfold elemsOf in He. apply in_app_or in He as [He|He].
  - apply repeat_spec in He. now subst.
  - apply in_rev in He. rewrite Forall_forall in Hall.
    destruct (validName_facts e (Hall e He)) as [H1 [H2 _]].
    unfold keptSeg. apply String.eqb_neq in H1, H2. now rewrite H1, H2.
Qed.

(** The segments of a clean path that make a breadcrumb are its elements;
    without a leading separator it is these joined. *)
Lemma kept_of_render (m : bool) (P : nat * list string) :
  WfState m P -> renderElems m P <> "." ->
  filter keptSeg (strings.Split (renderElems m P) "/") = elemsOf P
  /\ strings.TrimPrefix (renderElems m P) "/" = strings.Join (elemsOf P) "/".
Proof.
  intros Hwf Hdot. pose proof Hwf as [Hall _].
  pose proof (elemsOf_noSep P Hall) as Hns.
  pose proof (elemsOf_kept P Hall) as Hkept.
  assert (strings.Join (elemsOf P) "/" = "" -> elemsOf P = []) as Hnil.
  { intros Hj. apply Join_eq_nil in Hj; [assumption|].
    rewrite (surjective_pairing P). now apply elemsOf_nonempty. }
  destruct m.
  - unfold renderElems.
    change (strings.TrimPrefix ("/" ++ ?b) "/") with b.
    split; [|reflexivity].
    change (strings.Split ("/" ++ ?b) "/") with ("" :: strings.Split b "/").
    cbn [filter keptSeg String.eqb orb negb].
    destruct (elemsOf P) as [|x l] eqn:Hel; [reflexivity|].
    rewrite Split_Join by (assumption || discriminate). exact Hkept.
  - rewrite TrimPrefix_relative by now apply IsAbs_render.
    unfold renderElems in *.
    destruct (String.eqb_spec (strings.Join (elemsOf P) "/") "") as [Hj|Hj];
      [contradiction|].
    split; [|reflexivity].
    rewrite Split_Join; [exact Hkept | | assumption].
    intros Hel. rewrite Hel in Hj. now apply Hj.
Qed.

Lemma Join_elems_relative (P : nat * list string) :
  Forall (fun e => os.validName e = true) (snd P) ->
  filepath.IsAbs (strings.Join (elemsOf P) "/") = false.
Proof.
  intros Hall.
  destruct (strings.Join (elemsOf P) "/") as [|c s] eqn:Hj; [reflexivity|].
  unfold filepath.IsAbs.
  change (strings.HasPrefix (String c s) "/")
    with (filepath.IsPathSeparator c && true).
  now rewrite (elemsOf_first_not_sep P c s Hall Hj).
Qed.

Lemma page_breadcrumbs (fs : os.FS) (rootDir : string) (query : url.Values)
      (t : string) (data : pageData.t) :
  listHandler fs rootDir query = http.ExecuteTemplate t data ->
  pageData.Breadcrumbs data = crumbsFor (pageData.Path data).
Proof.
  rewrite listHandler_resolve. cbv zeta.
  destruct (resolve _ _ _); [|discriminate].
  destruct (os.ReadDir fs _); [|discriminate].
  intros [= _ <-]. reflexivity.
Qed.

(** X17.  The breadcrumbs of a page end at the page: the [path]
    parameter of the last one is the relative path of the page, less a
    separator at its head, and under a root that is set it resolves as
    the parameter of the request did. *)
Theorem breadcrumbs_end_at_the_page
        (fs : os.FS) (rootDir : string) (query : url.Values)
        (t : string) (data : pageData.t)
        (before : list crumb.t) (c : crumb.t)
        (Hpage : listHandler fs rootDir query = http.ExecuteTemplate t data)
        (Hlast : pageData.Breadcrumbs data = (before ++ [c])%list) :
  url.Get (url.Query (crumb.URL c)) "path"
  = strings.TrimPrefix (pageData.Path data) "/"
  /\ (rootDir <> "" ->
      resolve (os.Getwd fs) rootDir (url.Get (url.Query (crumb.URL c)) "path")
      = resolve (os.Getwd fs) rootDir (url.Get query "path")).
Proof.
  rewrite (page_breadcrumbs fs rootDir query t data Hpage) in Hlast.
  destruct (page_path fs rootDir query t data Hpage) as [Hpath _].
  set (p := url.Get query "path") in *.
  destruct (Clean_shape (strings.TrimPrefix p "/")) as [P [Hwf Hshape]].
  fold (cleanRel p) in Hshape.
  destruct (String.eqb_spec (cleanRel p) ".") as [Hdot|Hdot'].
  { rewrite Hpath in Hlast. destruct before; discriminate. }
  pose proof Hdot' as Hdot. rewrite Hshape in Hdot.
  destruct (kept_of_render _ P Hwf Hdot) as [Hkept Htrim].
  rewrite <- Hshape in Hkept, Htrim. rewrite <- Hpath in Hkept, Htrim.
  rewrite crumbsFor_kept, Hkept in Hlast.
  assert (nth_error (crumbsOf [] (elemsOf P)) (List.length before) = Some c)
    as Hc.
  { rewrite Hlast, nth_error_app2, Nat.sub_diag by lia. reflexivity. }
  apply nth_error_crumbsOf in Hc as [s [_ ->]].
  assert (firstn (S (List.length before)) (elemsOf P) = elemsOf P) as Hall.
  { apply firstn_all2. rewrite <- (crumbsOf_length [] (elemsOf P)), Hlast.
    rewrite length_app. simpl. lia. }
  cbn [crumb.URL app]. rewrite Hall, Query_listingURL, Htrim.
  split; [reflexivity|]. intros Hroot.
  assert (cleanRel (strings.Join (elemsOf P) "/") = cleanRel (cleanRel p))
    as Hrel.
  { unfold cleanRel at 1 2. fold (cleanRel p).
    rewrite TrimPrefix_relative
      by (apply Join_elems_relative; now destruct Hwf).
    now rewrite <- Htrim, Hpath. }
  change (url.Get [("path", [strings.Join (elemsOf P) "/"])] "path")
    with (strings.Join (elemsOf P) "/").
  unfold resolve, candidate. rewrite Hrel.
  rewrite (Join_cleanRel_again rootDir p Hroot).
  now rewrite (proj2 (String.eqb_neq _ _) Hdot').
Qed.

Lemma breadcrumbs_end_at_the_page_witness :
  url.Get (url.Query "/?path=sizes%2FdirA") "path"
  = strings.TrimPrefix "/sizes/dirA" "/"
  /\ (demo.rootDir <> "" ->
      resolve (os.Getwd demo.fs) demo.rootDir
              (url.Get (url.Query "/?path=sizes%2FdirA") "path")
      = resolve (os.Getwd demo.fs) demo.rootDir "//sizes/dirA/.").
Proof.
  apply (breadcrumbs_end_at_the_page demo.fs demo.rootDir
           [("path", ["//sizes/dirA/."])] "index.html"
           (pageData.mk
              [fileRow.mk "inner.txt" "/sizes/dirA/inner.txt" false 5 44]
              "/sizes/dirA" "" "name" "asc"
              [crumb.mk "sizes" "/?path=sizes";
               crumb.mk "dirA" "/?path=sizes%2FdirA"])
           [crumb.mk "sizes" "/?path=sizes"]
           (crumb.mk "dirA" "/?path=sizes%2FdirA")).
  - vm_compute. reflexivity.
  - reflexivity.
Defined.

(* ===================================================================== *)
(** * What a download streams *)
(* ===================================================================== *)

(** X18.  A download streams only what passes the containment test and
    [Stat] reports as there and not a directory, under the last element
    of its path as the file name. *)
Theorem download_streams_only_files_inside_root
        (fs : os.FS) (rootDir : string) (query : url.Values)
        (name abs : string)
        (Hserve : downloadHandler fs rootDir query = http.ServeFile name abs) :
  abs = filepath.Join [rootDir; cleanRel (url.Get query "path")]
  /\ Confined (os.Getwd fs) rootDir abs
  /\ (exists info,
         os.Stat fs abs = os.ok info /\ os.FileInfo.IsDir info = false)
  /\ name = filepath.Base abs.
Proof.
  unfold downloadHandler in Hserve.
  destruct (isWithin (os.Getwd fs) _ rootDir) eqn:Hin; cbn [negb] in Hserve;
    cbv iota in Hserve; [|discriminate].
  destruct (os.Stat fs _) as [info|e] eqn:Hstat; [|discriminate].
  destruct (os.FileInfo.IsDir info) eqn:Hdir; [discriminate|].
  injection Hserve as <- <-. split; [reflexivity|].
  split; [now apply isWithin_spec|]. split; [|reflexivity].
  now exists info.
Qed.

Lemma download_streams_only_files_inside_root_witness :
  "/data/sizes/fileB" = filepath.Join [demo.rootDir; cleanRel "/sizes/./fileB"]
  /\ Confined (os.Getwd demo.fs) demo.rootDir "/data/sizes/fileB"
  /\ (exists info,
         os.Stat demo.fs "/data/sizes/fileB" = os.ok info
         /\ os.FileInfo.IsDir info = false)
  /\ "fileB" = filepath.Base "/data/sizes/fileB".
Proof.
  apply (download_streams_only_files_inside_root demo.fs demo.rootDir
           [("path", ["/sizes/./fileB"])] "fileB" "/data/sizes/fileB").
  vm_compute. reflexivity.
Defined.

